(** * The unified hybrid memory store, embedded in Rocq

    A shallow embedding of the memory subsystem of the agent framework:

    - [unified_memory/memory_interface.py]: the record, the query filter;
    - [unified_memory/storage/json_storage.py]: one JSON file per record;
    - [core/memory/storage/sqlite_storage.py]: the single-table index;
    - [core/memory/storage/faiss_storage.py]: the vector index and its maps;
    - [core/memory/storage/hybrid_storage.py]: the coordinator;
    - [unified_memory/memory_hub.py]: the session-oriented hub.

    Of each class the methods that the properties read are embedded, under
    their names.  Part I holds the definitions, Part II the lemmas and
    theorems. *)

From Stdlib Require Import String Ascii List ZArith Bool Lia.
Import ListNotations.

Set Implicit Arguments.
Set Default Proof Using "Type".

Local Open Scope string_scope.
Local Open Scope list_scope.
Local Open Scope Z_scope.

(* ================================================================== *)
(** * Part I: definitions *)
(* ================================================================== *)

(** ** Python values *)

(** Decidable equality, for dictionary keys and [in] tests. *)
Class EqDec (K : Type) := eq_dec : forall x y : K, {x = y} + {x <> y}.

#[export] Instance string_EqDec : EqDec string := string_dec.
#[export] Instance Z_EqDec : EqDec Z := Z.eq_dec.

(** [x in l] for a Python list. *)
Definition py_in {K} `{EqDec K} (x : K) (l : list K) : bool :=
  if in_dec eq_dec x l then true else false.

(** [l[:n]]: a negative bound counts from the end. *)
Definition py_slice_to {A} (n : Z) (l : list A) : list A :=
  if 0 <=? n then firstn (Z.to_nat n) l
  else firstn (Z.to_nat (Z.of_nat (length l) + n)) l.

(** A Python [float], kept as the bit pattern of its IEEE-754 double: the
    store carries such values around and never computes with them. *)
Definition float := Z.

(** [datetime] (naive, as [datetime.utcnow()] gives it): microseconds since
    the epoch.  A [timedelta] is a number of microseconds. *)
Definition datetime := Z.
Definition timedelta := Z.

(** [td.total_seconds() > secs] for an integer number of seconds; the
    quotient by [10^6] is exact at the magnitudes of a double, so the
    comparison is the one on microseconds. *)
Definition total_seconds_gt (td : timedelta) (secs : Z) : bool :=
  secs * 1000000 <? td.

(** The text [dt.isoformat()] writes; [fromisoformat] (and the validation
    of the model class) reads it back.  The codec belongs to the Python
    library and is kept symbolic. *)
Inductive iso_string : Type := ISO (t : datetime).

Definition isoformat (t : datetime) : iso_string := ISO t.
Definition fromisoformat (s : iso_string) : datetime :=
  match s with ISO t => t end.

(** Values a [Dict[str, Any]] of metadata holds: what [json] can write. *)
#[local] Unset Elimination Schemes.
Inductive json : Type :=
| JNull
| JBool (b : bool)
| JInt (z : Z)
| JFloat (f : float)
| JStr (s : string)
| JList (l : list json)
| JDict (d : list (string * json)).
#[local] Set Elimination Schemes.

(** ** Python dictionaries

    A [dict] keeps its keys in insertion order; assigning to a key that is
    present keeps its place, a new key goes last. *)
Module PyDict.
Section Dict.
Context {K V : Type} `{EqDec K}.

Definition t := list (K * V).

Definition empty : t := [].

Fixpoint get (k : K) (d : t) : option V :=
  match d with
  | [] => None
  | (k', v) :: d' => if eq_dec k k' then Some v else get k d'
  end.

(** [k in d] *)
Definition contains (k : K) (d : t) : bool :=
  match get k d with Some _ => true | None => false end.

(** [d[k] = v] *)
Fixpoint set (k : K) (v : V) (d : t) : t :=
  match d with
  | [] => [(k, v)]
  | (k', v') :: d' =>
      if eq_dec k k' then (k', v) :: d' else (k', v') :: set k v d'
  end.

(** The entries left by [del d[k]]; the caller raises [KeyError] when the
    key is absent. *)
Fixpoint remove (k : K) (d : t) : t :=
  match d with
  | [] => []
  | (k', v') :: d' =>
      if eq_dec k k' then remove k d' else (k', v') :: remove k d'
  end.

Definition keys (d : t) : list K := map fst d.
Definition values (d : t) : list V := map snd d.

(** A dictionary has each key once. *)
Definition wf (d : t) : Prop := NoDup (keys d).

(** [d.update(other)] *)
Definition update (d other : t) : t :=
  fold_left (fun d e => set (fst e) (snd e) d) other d.
End Dict.
Arguments t : clear implicits.
End PyDict.

(** ** [memory_interface.py] *)

(** An exception that crosses a call. *)
Inductive exn : Type :=
| KeyError          (* [d[k]] or [del d[k]] on an absent key *)
| ValidationError.  (* a field constraint of a model class is violated *)

Inductive result (A : Type) : Type :=
| Ok (a : A)
| Raise (e : exn).
Arguments Ok {A} a.
Arguments Raise {A} e.

Inductive MemoryType : Type :=
| USER_DATA | CONVERSATION | FRAGMENT | SOLUTION | SYSTEM | SYSTEM_STATE
| KNOWLEDGE | USER_PREFERENCE | ERROR_LOG | TASK.

Inductive RetentionPolicy : Type :=
| PERMANENT | SESSION | TEMPORARY | AUTO_EXPIRE | TIER_SPECIFIC.

Inductive MemoryPriority : Type :=
| CRITICAL | HIGH | MEDIUM | LOW.

(** The enumerations derive from [str]: a member compares equal to the
    string that is its value. *)
Definition MemoryType_value (m : MemoryType) : string :=
  match m with
  | USER_DATA => "user_data" | CONVERSATION => "conversation"
  | FRAGMENT => "fragment" | SOLUTION => "solution" | SYSTEM => "system"
  | SYSTEM_STATE => "system_state" | KNOWLEDGE => "knowledge"
  | USER_PREFERENCE => "user_preference" | ERROR_LOG => "error_log"
  | TASK => "task"
  end.

Definition RetentionPolicy_value (p : RetentionPolicy) : string :=
  match p with
  | PERMANENT => "permanent" | SESSION => "session"
  | TEMPORARY => "temporary" | AUTO_EXPIRE => "auto_expire"
  | TIER_SPECIFIC => "tier_specific"
  end.

Definition MemoryPriority_value (p : MemoryPriority) : string :=
  match p with
  | CRITICAL => "critical" | HIGH => "high" | MEDIUM => "medium"
  | LOW => "low"
  end.

#[export] Instance MemoryType_EqDec : EqDec MemoryType.
Proof. intros x y; unfold EqDec in *; decide equality. Defined.

(** [class UnifiedMemoryItem(BaseModel)] *)
Record UnifiedMemoryItem : Type := {
  id : string;
  content : string;
  memory_type : MemoryType;
  tier_source : string;
  tags : list string;
  metadata : PyDict.t string json;
  timestamp : datetime;
  last_accessed : option datetime;
  last_modified : option datetime;
  retention_policy : RetentionPolicy;
  priority : MemoryPriority;
  access_count : Z;
  usage_score : float;
  embeddings : option (list float);
  embedding_model : option string;
  related_items : list string;
  parent_id : option string;
  confidence : float;
  relevance_decay : float;
  has_pii : bool;
  encryption_key : option string
}.

(** The bit patterns of the doubles [0.0] and [1.0], the defaults of
    [usage_score], [relevance_decay] and [confidence]. *)
Definition float_0 : float := 0.
Definition float_1 : float := 4607182418800017408.

(** [confidence: float = Field(default=1.0, ge=0.0, le=1.0)], the one
    constraint on a field of the record, read on the bit pattern: the
    doubles from [0.0] to [1.0] are the patterns from that of [0.0] to
    that of [1.0], and [-0.0], which is equal to [0.0], is the sign bit
    alone; a NaN and every other pattern fail.  The model class checks the
    constraint when a record is built, not when a field is assigned. *)
Definition confidence_ok (c : float) : bool :=
  ((0 <=? c) && (c <=? float_1)) || (c =? 2 ^ 63).

(** [class MemoryQueryFilter(BaseModel)]; its fields [tags] and [parent_id]
    are [f_tags] and [f_parent_id] here, the record above having taken
    the names. *)
Record MemoryQueryFilter : Type := {
  content_search : option string;
  semantic_query : option string;
  memory_types : option (list MemoryType);
  tier_sources : option (list string);
  f_tags : option (list string);
  metadata_filters : option (PyDict.t string json);
  start_time : option datetime;
  end_time : option datetime;
  created_after : option datetime;
  created_before : option datetime;
  accessed_after : option datetime;
  min_confidence : option float;
  min_usage_score : option float;
  priorities : option (list MemoryPriority);
  related_to : option string;
  f_parent_id : option string;
  limit : Z;
  offset : Z;
  sort_by : string;
  sort_desc : bool
}.

(** Keywords of a constructor call that name no field of the model class:
    the class is declared without an [extra] setting and drops them. *)
Definition extra_kwargs := list (string * json).

(** [MemoryQueryFilter(content_search=.., memory_types=.., tier_sources=..,
    limit=.., **extra)], the shape the store and the hub build.  Every other
    field takes its default; [limit] is constrained by [ge=1, le=1000]. *)
Definition MemoryQueryFilter_init
    (content_search : option string) (memory_types : option (list MemoryType))
    (tier_sources : option (list string)) (limit : Z) (extra : extra_kwargs)
  : result MemoryQueryFilter :=
  if (1 <=? limit) && (limit <=? 1000) then
    Ok {| content_search := content_search; semantic_query := None;
          memory_types := memory_types; tier_sources := tier_sources;
          f_tags := None; metadata_filters := None;
          start_time := None; end_time := None;
          created_after := None; created_before := None;
          accessed_after := None;
          min_confidence := None; min_usage_score := None;
          priorities := None; related_to := None; f_parent_id := None;
          limit := limit; offset := 0;
          sort_by := "timestamp"; sort_desc := true |}
  else Raise ValidationError.

(** [UnifiedMemoryItem(content=.., memory_type=.., tier_source=..,
    metadata=.., tags=.., **extra)]: [id] and [timestamp] come from their
    default factories, which draw [uuid4] and [utcnow]; the other fields take
    their defaults. *)
Definition UnifiedMemoryItem_init (uuid4 : string) (utcnow : datetime)
    (content : string) (memory_type : MemoryType) (tier_source : string)
    (metadata : PyDict.t string json) (tags : list string)
    (extra : extra_kwargs) : UnifiedMemoryItem :=
  {| id := uuid4;
     content := content;
     memory_type := memory_type;
     tier_source := tier_source;
     tags := tags;
     metadata := metadata;
     timestamp := utcnow;
     last_accessed := None;
     last_modified := None;
     retention_policy := AUTO_EXPIRE;
     priority := MEDIUM;
     access_count := 0;
     usage_score := float_0;
     embeddings := None;
     embedding_model := None;
     related_items := [];
     parent_id := None;
     confidence := float_1;
     relevance_decay := float_0;
     has_pii := false;
     encryption_key := None |}.

(** [class MemorySearchResult(BaseModel)]; the measured [search_time_ms] and
    the two optional fields no backend fills are left out. *)
Record MemorySearchResult : Type := {
  items : list UnifiedMemoryItem;
  total_count : Z;
  query_filter : MemoryQueryFilter
}.

(** One entry of the [updates] dictionary of [update(memory_id, updates)]:
    the name of a field and its new value.  The model class rejects a name
    that is not one of its fields and does not validate the value, so an
    entry is a field with a value of the field's type. *)
Inductive field_update : Type :=
| U_id (v : string)
| U_content (v : string)
| U_memory_type (v : MemoryType)
| U_tier_source (v : string)
| U_tags (v : list string)
| U_metadata (v : PyDict.t string json)
| U_timestamp (v : datetime)
| U_last_accessed (v : option datetime)
| U_last_modified (v : option datetime)
| U_retention_policy (v : RetentionPolicy)
| U_priority (v : MemoryPriority)
| U_access_count (v : Z)
| U_usage_score (v : float)
| U_embeddings (v : option (list float))
| U_embedding_model (v : option string)
| U_related_items (v : list string)
| U_parent_id (v : option string)
| U_confidence (v : float)
| U_relevance_decay (v : float)
| U_has_pii (v : bool)
| U_encryption_key (v : option string).

(** [setattr(item, key, value)] *)
Definition setattr (item : UnifiedMemoryItem) (u : field_update)
  : UnifiedMemoryItem :=
  match u with
  | U_id v =>
      Build_UnifiedMemoryItem
        v (content item) (memory_type item) (tier_source item) (tags item)
         (metadata item) (timestamp item) (last_accessed item)
         (last_modified item) (retention_policy item) (priority item)
         (access_count item) (usage_score item) (embeddings item)
         (embedding_model item) (related_items item) (parent_id item)
         (confidence item) (relevance_decay item) (has_pii item)
         (encryption_key item)
  | U_content v =>
      Build_UnifiedMemoryItem
        (id item) v (memory_type item) (tier_source item) (tags item)
         (metadata item) (timestamp item) (last_accessed item)
         (last_modified item) (retention_policy item) (priority item)
         (access_count item) (usage_score item) (embeddings item)
         (embedding_model item) (related_items item) (parent_id item)
         (confidence item) (relevance_decay item) (has_pii item)
         (encryption_key item)
  | U_memory_type v =>
      Build_UnifiedMemoryItem
        (id item) (content item) v (tier_source item) (tags item)
         (metadata item) (timestamp item) (last_accessed item)
         (last_modified item) (retention_policy item) (priority item)
         (access_count item) (usage_score item) (embeddings item)
         (embedding_model item) (related_items item) (parent_id item)
         (confidence item) (relevance_decay item) (has_pii item)
         (encryption_key item)
  | U_tier_source v =>
      Build_UnifiedMemoryItem
        (id item) (content item) (memory_type item) v (tags item)
         (metadata item) (timestamp item) (last_accessed item)
         (last_modified item) (retention_policy item) (priority item)
         (access_count item) (usage_score item) (embeddings item)
         (embedding_model item) (related_items item) (parent_id item)
         (confidence item) (relevance_decay item) (has_pii item)
         (encryption_key item)
  | U_tags v =>
      Build_UnifiedMemoryItem
        (id item) (content item) (memory_type item) (tier_source item) v
         (metadata item) (timestamp item) (last_accessed item)
         (last_modified item) (retention_policy item) (priority item)
         (access_count item) (usage_score item) (embeddings item)
         (embedding_model item) (related_items item) (parent_id item)
         (confidence item) (relevance_decay item) (has_pii item)
         (encryption_key item)
  | U_metadata v =>
      Build_UnifiedMemoryItem
        (id item) (content item) (memory_type item) (tier_source item)
         (tags item) v (timestamp item) (last_accessed item)
         (last_modified item) (retention_policy item) (priority item)
         (access_count item) (usage_score item) (embeddings item)
         (embedding_model item) (related_items item) (parent_id item)
         (confidence item) (relevance_decay item) (has_pii item)
         (encryption_key item)
  | U_timestamp v =>
      Build_UnifiedMemoryItem
        (id item) (content item) (memory_type item) (tier_source item)
         (tags item) (metadata item) v (last_accessed item)
         (last_modified item) (retention_policy item) (priority item)
         (access_count item) (usage_score item) (embeddings item)
         (embedding_model item) (related_items item) (parent_id item)
         (confidence item) (relevance_decay item) (has_pii item)
         (encryption_key item)
  | U_last_accessed v =>
      Build_UnifiedMemoryItem
        (id item) (content item) (memory_type item) (tier_source item)
         (tags item) (metadata item) (timestamp item) v (last_modified item)
         (retention_policy item) (priority item) (access_count item)
         (usage_score item) (embeddings item) (embedding_model item)
         (related_items item) (parent_id item) (confidence item)
         (relevance_decay item) (has_pii item) (encryption_key item)
  | U_last_modified v =>
      Build_UnifiedMemoryItem
        (id item) (content item) (memory_type item) (tier_source item)
         (tags item) (metadata item) (timestamp item) (last_accessed item) v
         (retention_policy item) (priority item) (access_count item)
         (usage_score item) (embeddings item) (embedding_model item)
         (related_items item) (parent_id item) (confidence item)
         (relevance_decay item) (has_pii item) (encryption_key item)
  | U_retention_policy v =>
      Build_UnifiedMemoryItem
        (id item) (content item) (memory_type item) (tier_source item)
         (tags item) (metadata item) (timestamp item) (last_accessed item)
         (last_modified item) v (priority item) (access_count item)
         (usage_score item) (embeddings item) (embedding_model item)
         (related_items item) (parent_id item) (confidence item)
         (relevance_decay item) (has_pii item) (encryption_key item)
  | U_priority v =>
      Build_UnifiedMemoryItem
        (id item) (content item) (memory_type item) (tier_source item)
         (tags item) (metadata item) (timestamp item) (last_accessed item)
         (last_modified item) (retention_policy item) v (access_count item)
         (usage_score item) (embeddings item) (embedding_model item)
         (related_items item) (parent_id item) (confidence item)
         (relevance_decay item) (has_pii item) (encryption_key item)
  | U_access_count v =>
      Build_UnifiedMemoryItem
        (id item) (content item) (memory_type item) (tier_source item)
         (tags item) (metadata item) (timestamp item) (last_accessed item)
         (last_modified item) (retention_policy item) (priority item) v
         (usage_score item) (embeddings item) (embedding_model item)
         (related_items item) (parent_id item) (confidence item)
         (relevance_decay item) (has_pii item) (encryption_key item)
  | U_usage_score v =>
      Build_UnifiedMemoryItem
        (id item) (content item) (memory_type item) (tier_source item)
         (tags item) (metadata item) (timestamp item) (last_accessed item)
         (last_modified item) (retention_policy item) (priority item)
         (access_count item) v (embeddings item) (embedding_model item)
         (related_items item) (parent_id item) (confidence item)
         (relevance_decay item) (has_pii item) (encryption_key item)
  | U_embeddings v =>
      Build_UnifiedMemoryItem
        (id item) (content item) (memory_type item) (tier_source item)
         (tags item) (metadata item) (timestamp item) (last_accessed item)
         (last_modified item) (retention_policy item) (priority item)
         (access_count item) (usage_score item) v (embedding_model item)
         (related_items item) (parent_id item) (confidence item)
         (relevance_decay item) (has_pii item) (encryption_key item)
  | U_embedding_model v =>
      Build_UnifiedMemoryItem
        (id item) (content item) (memory_type item) (tier_source item)
         (tags item) (metadata item) (timestamp item) (last_accessed item)
         (last_modified item) (retention_policy item) (priority item)
         (access_count item) (usage_score item) (embeddings item) v
         (related_items item) (parent_id item) (confidence item)
         (relevance_decay item) (has_pii item) (encryption_key item)
  | U_related_items v =>
      Build_UnifiedMemoryItem
        (id item) (content item) (memory_type item) (tier_source item)
         (tags item) (metadata item) (timestamp item) (last_accessed item)
         (last_modified item) (retention_policy item) (priority item)
         (access_count item) (usage_score item) (embeddings item)
         (embedding_model item) v (parent_id item) (confidence item)
         (relevance_decay item) (has_pii item) (encryption_key item)
  | U_parent_id v =>
      Build_UnifiedMemoryItem
        (id item) (content item) (memory_type item) (tier_source item)
         (tags item) (metadata item) (timestamp item) (last_accessed item)
         (last_modified item) (retention_policy item) (priority item)
         (access_count item) (usage_score item) (embeddings item)
         (embedding_model item) (related_items item) v (confidence item)
         (relevance_decay item) (has_pii item) (encryption_key item)
  | U_confidence v =>
      Build_UnifiedMemoryItem
        (id item) (content item) (memory_type item) (tier_source item)
         (tags item) (metadata item) (timestamp item) (last_accessed item)
         (last_modified item) (retention_policy item) (priority item)
         (access_count item) (usage_score item) (embeddings item)
         (embedding_model item) (related_items item) (parent_id item) v
         (relevance_decay item) (has_pii item) (encryption_key item)
  | U_relevance_decay v =>
      Build_UnifiedMemoryItem
        (id item) (content item) (memory_type item) (tier_source item)
         (tags item) (metadata item) (timestamp item) (last_accessed item)
         (last_modified item) (retention_policy item) (priority item)
         (access_count item) (usage_score item) (embeddings item)
         (embedding_model item) (related_items item) (parent_id item)
         (confidence item) v (has_pii item) (encryption_key item)
  | U_has_pii v =>
      Build_UnifiedMemoryItem
        (id item) (content item) (memory_type item) (tier_source item)
         (tags item) (metadata item) (timestamp item) (last_accessed item)
         (last_modified item) (retention_policy item) (priority item)
         (access_count item) (usage_score item) (embeddings item)
         (embedding_model item) (related_items item) (parent_id item)
         (confidence item) (relevance_decay item) v (encryption_key item)
  | U_encryption_key v =>
      Build_UnifiedMemoryItem
        (id item) (content item) (memory_type item) (tier_source item)
         (tags item) (metadata item) (timestamp item) (last_accessed item)
         (last_modified item) (retention_policy item) (priority item)
         (access_count item) (usage_score item) (embeddings item)
         (embedding_model item) (related_items item) (parent_id item)
         (confidence item) (relevance_decay item) (has_pii item) v
  end.

(** [for key, value in updates.items(): setattr(item, key, value)] *)
Definition apply_updates (item : UnifiedMemoryItem)
    (updates : list field_update) : UnifiedMemoryItem :=
  fold_left setattr updates item.

(** ** Strings *)

(** [sep.join(l)] *)
Fixpoint str_join (sep : string) (l : list string) : string :=
  match l with
  | [] => ""
  | x :: l' =>
      match l' with
      | [] => x
      | _ :: _ => (x ++ sep ++ str_join sep l')%string
      end
  end.

(** [s.split(c)] for a separator of one character. *)
Fixpoint str_split (c : ascii) (s : string) : list string :=
  match s with
  | "" => [""]
  | String a s' =>
      if ascii_dec a c then "" :: str_split c s'
      else match str_split c s' with
           | [] => [String a ""]
           | w :: ws => String a w :: ws
           end
  end.

(** [c in s] for a character [c]. *)
Fixpoint str_has_char (c : ascii) (s : string) : bool :=
  match s with
  | "" => false
  | String a s' => if ascii_dec a c then true else str_has_char c s'
  end.

(** [s.endswith(suffix)]: some tail of [s] is [suffix]. *)
Fixpoint str_endswith (s suffix : string) : bool :=
  String.eqb s suffix ||
  match s with
  | "" => false
  | String _ s' => str_endswith s' suffix
  end.

(** [needle in hay] for two strings: [needle] starts some tail of [hay]. *)
Fixpoint str_in (needle hay : string) : bool :=
  String.prefix needle hay ||
  match hay with
  | "" => false
  | String _ hay' => str_in needle hay'
  end.

(** The number of times [c] occurs in [s]. *)
Fixpoint str_count (c : ascii) (s : string) : nat :=
  match s with
  | "" => O
  | String a s' => if ascii_dec a c then S (str_count c s') else str_count c s'
  end.

(** [s.lower()], the case mapping of the Python library. *)
Class StrLib : Type := { str_lower : string -> string }.

(** [now - timestamp] is more than a day, the test of the relational and
    the vector backend, which do not look at the retention policy. *)
Definition older_than_a_day (now timestamp : datetime) : bool :=
  total_seconds_gt (now - timestamp) (24 * 3600).

(** ** Expiration *)

(** [item.retention_policy == 'temporary' and
     (datetime.utcnow() - item.timestamp).total_seconds() > 24 * 3600],
    with [now] the reading of the clock. *)
Definition temporary_and_expired (now : datetime) (item : UnifiedMemoryItem)
  : bool :=
  String.eqb (RetentionPolicy_value (retention_policy item)) "temporary"
  && total_seconds_gt (now - timestamp item) (24 * 3600).

(** ** [json_storage.py] *)

(** A name a file can have in a directory of a POSIX file system: no
    ["/"], which makes a path of it, no NUL, which [open] refuses, and at
    most 255 bytes.  Names differ as strings do (the file system
    distinguishes case). *)
Definition file_name (name : string) : Prop :=
  str_has_char "/" name = false /\
  str_has_char "000" name = false /\
  (String.length name <= 255)%nat.

Module JSONMemoryStorage.

(** The dictionary [json.dump] writes to a file and [json.load] reads
    back: the fields of the record, the three times as ISO strings. *)
Record item_dict : Type := {
  d_id : string;
  d_content : string;
  d_memory_type : MemoryType;
  d_tier_source : string;
  d_tags : list string;
  d_metadata : PyDict.t string json;
  d_timestamp : iso_string;
  d_last_accessed : option iso_string;
  d_last_modified : option iso_string;
  d_retention_policy : RetentionPolicy;
  d_priority : MemoryPriority;
  d_access_count : Z;
  d_usage_score : float;
  d_embeddings : option (list float);
  d_embedding_model : option string;
  d_related_items : list string;
  d_parent_id : option string;
  d_confidence : float;
  d_relevance_decay : float;
  d_has_pii : bool;
  d_encryption_key : option string
}.

(** [item.dict()] with the [isoformat] conversions of [save]. *)
Definition to_item_dict (item : UnifiedMemoryItem) : item_dict :=
  {|
    d_id := id item;
    d_content := content item;
    d_memory_type := memory_type item;
    d_tier_source := tier_source item;
    d_tags := tags item;
    d_metadata := metadata item;
    d_timestamp := isoformat (timestamp item);
    d_last_accessed := option_map isoformat (last_accessed item);
    d_last_modified := option_map isoformat (last_modified item);
    d_retention_policy := retention_policy item;
    d_priority := priority item;
    d_access_count := access_count item;
    d_usage_score := usage_score item;
    d_embeddings := embeddings item;
    d_embedding_model := embedding_model item;
    d_related_items := related_items item;
    d_parent_id := parent_id item;
    d_confidence := confidence item;
    d_relevance_decay := relevance_decay item;
    d_has_pii := has_pii item;
    d_encryption_key := encryption_key item
  |}.

(** The record the model class builds from the keys of [data], when they
    pass its validation. *)
Definition of_item_dict (data : item_dict) : UnifiedMemoryItem :=
  {|
    id := d_id data;
    content := d_content data;
    memory_type := d_memory_type data;
    tier_source := d_tier_source data;
    tags := d_tags data;
    metadata := d_metadata data;
    timestamp := fromisoformat (d_timestamp data);
    last_accessed := option_map fromisoformat (d_last_accessed data);
    last_modified := option_map fromisoformat (d_last_modified data);
    retention_policy := d_retention_policy data;
    priority := d_priority data;
    access_count := d_access_count data;
    usage_score := d_usage_score data;
    embeddings := d_embeddings data;
    embedding_model := d_embedding_model data;
    related_items := d_related_items data;
    parent_id := d_parent_id data;
    confidence := d_confidence data;
    relevance_decay := d_relevance_decay data;
    has_pii := d_has_pii data;
    encryption_key := d_encryption_key data
  |}.

(** The call of the model class on the keys of [data]: the record, or
    the error of the validation. *)
Definition UnifiedMemoryItem_of (data : item_dict)
  : result UnifiedMemoryItem :=
  if confidence_ok (d_confidence data) then Ok (of_item_dict data)
  else Raise ValidationError.

(** The base directory: the name of each file directly in it and the
    document in the file, in the order in which the directory lists
    them. *)
Definition t := PyDict.t string item_dict.

(** [self.base_path / f"{memory_id}.json"], for an id with which this is
    the name of a file of the directory ([file_name]): with a ["/"] in the
    id, [pathlib] reads a path, which may name the file of another id or
    a place outside the directory, and the methods below do not follow
    it there. *)
Definition _memory_file_path (memory_id : string) : string :=
  (memory_id ++ ".json")%string.

(** [save], for a record whose id gives a file name; [open] raises for
    others. *)
Definition save (item : UnifiedMemoryItem) (st : t) : string * t :=
  let file_path := _memory_file_path (id item) in
  let item_dict := to_item_dict item in
  (id item, PyDict.set file_path item_dict st).

(** [get_by_id], for a file whose document passes the validation of the
    model class; on another the call raises, as [update] below shows. *)
Definition get_by_id (memory_id : string) (st : t)
  : option UnifiedMemoryItem :=
  let file_path := _memory_file_path memory_id in
  match PyDict.get file_path st with
  | None => None
  | Some data => Some (of_item_dict data)
  end.

(** [update]: the [get_by_id] it starts with validates the document and
    raises when it fails; the assignments and the [save] do not validate,
    so the document written may fail the next time it is read. *)
Definition update (memory_id : string) (updates : list field_update)
    (st : t) : result bool * t :=
  match PyDict.get (_memory_file_path memory_id) st with
  | None => (Ok false, st)
  | Some data =>
      match UnifiedMemoryItem_of data with
      | Raise e => (Raise e, st)
      | Ok item =>
          let item := apply_updates item updates in
          (Ok true, snd (save item st))
      end
  end.

Definition delete (memory_id : string) (st : t) : bool * t :=
  let file_path := _memory_file_path memory_id in
  if PyDict.contains file_path st
  then (true, PyDict.remove file_path st)
  else (false, st).

Definition batch_save (items : list UnifiedMemoryItem) (st : t)
  : list string * t :=
  fold_left
    (fun '(ids, st) item => let '(i, st') := save item st in ((ids ++ [i])%list, st'))
    items ([], st).

(** [list(self.base_path.glob('*.json'))]: the files directly in the
    directory whose name ends in [.json], as the directory lists them. *)
Definition glob_json (st : t) : list (string * item_dict) :=
  filter (fun f => str_endswith (fst f) ".json") st.

(** One turn of the loop of [cleanup_expired]: the document is
    validated, and the error of a document that fails ends the scan, the
    files removed so far staying removed. *)
Definition cleanup_step (dry_run : bool) (now : datetime)
    (acc : result Z * t) (f : string * item_dict) : result Z * t :=
  match acc with
  | (Raise e, st) => (Raise e, st)
  | (Ok expired_count, st) =>
      let '(file_path, data) := f in
      match UnifiedMemoryItem_of data with
      | Raise e => (Raise e, st)
      | Ok item =>
          if temporary_and_expired now item then
            (Ok (expired_count + 1),
             if negb dry_run then PyDict.remove file_path st else st)
          else (Ok expired_count, st)
      end
  end.

(** [cleanup_expired(dry_run)]; the scan reads the clock at [now]. *)
Definition cleanup_expired (dry_run : bool) (now : datetime) (st : t)
  : result (PyDict.t string Z) * t :=
  let all_files := glob_json st in
  match fold_left (cleanup_step dry_run now) all_files (Ok 0, st) with
  | (Ok expired_count, st') => (Ok [("expired_count", expired_count)], st')
  | (Raise e, st') => (Raise e, st')
  end.

(** The test of [query] on the document of one file; [query] builds the
    record of each file that passes, which here is taken to validate. *)
Definition matches `{StrLib} (filter_params : MemoryQueryFilter)
    (data : item_dict) : bool :=
  match content_search filter_params with
  | Some (String _ _ as text) =>
      str_in (str_lower text) (str_lower (d_content data))
  | _ => true
  end.

Definition query `{StrLib} (filter_params : MemoryQueryFilter) (st : t)
  : MemorySearchResult :=
  let all_files := glob_json st in
  let results :=
    map (fun f => of_item_dict (snd f))
        (filter (fun f => matches filter_params (snd f)) all_files) in
  {| items := py_slice_to (limit filter_params) results;
     total_count := Z.of_nat (length results);
     query_filter := filter_params |}.

Definition semantic_search `{StrLib} (query_text : string)
    (memory_types : option (list MemoryType))
    (tier_sources : option (list string)) (limit : Z) (st : t)
  : result MemorySearchResult :=
  match MemoryQueryFilter_init (Some query_text) memory_types tier_sources
                               limit [] with
  | Ok filter_params => Ok (query filter_params st)
  | Raise e => Raise e
  end.

(** [get_stats]; [st_size] gives the size in bytes of the file that holds a
    document. *)
Definition get_stats (st_size : item_dict -> Z) (st : t)
  : PyDict.t string json :=
  let total_files := Z.of_nat (length (glob_json st)) in
  let total_size :=
    fold_left Z.add (map (fun f => st_size (snd f)) (glob_json st)) 0 in
  [("total_items", JInt total_files); ("total_size_bytes", JInt total_size)].

End JSONMemoryStorage.

(** ** [sqlite_storage.py] *)

(** The SQLite engine: [sql_like text pattern] is [text LIKE pattern]. *)
Class SqlEngine : Type := { sql_like : string -> string -> bool }.

(** The text [json.dumps] writes and [json.loads] reads back, symbolic as
    the ISO strings are. *)
Inductive json_text : Type := Dumps (m : PyDict.t string json).

Definition json_dumps (m : PyDict.t string json) : json_text := Dumps m.
Definition json_loads (s : json_text) : PyDict.t string json :=
  match s with Dumps m => m end.

Module SQLiteMemoryStorage.

(** A row of the table [memories], column by column. *)
Record row : Type := {
  c_id : string;
  c_content : string;
  c_memory_type : MemoryType;
  c_tier_source : string;
  c_tags : string;
  c_metadata : json_text;
  c_timestamp : iso_string;
  c_retention_policy : RetentionPolicy;
  c_access_count : Z;
  c_last_accessed : option iso_string
}.

(** The database file: [None] before the table exists, then its rows in
    the order a scan visits them. *)
Definition t := option (list row).

(** [CREATE TABLE IF NOT EXISTS memories (...)] *)
Definition _initialize_db (st : t) : list row :=
  match st with
  | None => []
  | Some rows => rows
  end.

(** The tuple bound to the ten placeholders of the [INSERT]. *)
Definition values_of (item : UnifiedMemoryItem) : row :=
  {| c_id := id item;
     c_content := content item;
     c_memory_type := memory_type item;
     c_tier_source := tier_source item;
     c_tags := str_join "," (tags item);
     c_metadata := json_dumps (metadata item);
     c_timestamp := isoformat (timestamp item);
     c_retention_policy := retention_policy item;
     c_access_count := access_count item;
     c_last_accessed := option_map isoformat (last_accessed item) |}.

(** The record built from a fetched row; the fields the table has no
    column for take their defaults. *)
Definition item_of (r : row) : UnifiedMemoryItem :=
  {| id := c_id r;
     content := c_content r;
     memory_type := c_memory_type r;
     tier_source := c_tier_source r;
     tags := str_split "," (c_tags r);
     metadata := json_loads (c_metadata r);
     timestamp := fromisoformat (c_timestamp r);
     last_accessed := option_map fromisoformat (c_last_accessed r);
     last_modified := None;
     retention_policy := c_retention_policy r;
     priority := MEDIUM;
     access_count := c_access_count r;
     usage_score := float_0;
     embeddings := None;
     embedding_model := None;
     related_items := [];
     parent_id := None;
     confidence := float_1;
     relevance_decay := float_0;
     has_pii := false;
     encryption_key := None |}.

(** [DELETE FROM memories WHERE id = ?] *)
Definition delete_where_id (memory_id : string) (rows : list row)
  : list row :=
  filter (fun r => negb (String.eqb (c_id r) memory_id)) rows.

(** [INSERT OR REPLACE INTO memories ... VALUES (...)]: the row that holds
    the primary key is removed, the new row is added last. *)
Definition insert_or_replace (r : row) (rows : list row) : list row :=
  delete_where_id (c_id r) rows ++ [r].

(** [SELECT * FROM memories WHERE id = ?], [fetchone()] *)
Definition select_where_id (memory_id : string) (rows : list row)
  : option row :=
  find (fun r => String.eqb (c_id r) memory_id) rows.

(** [save], for a record whose [access_count] a column of type [INTEGER]
    can hold; [sqlite3] raises for another and nothing is stored. *)
Definition save (item : UnifiedMemoryItem) (st : t) : string * t :=
  let rows := _initialize_db st in
  (id item, Some (insert_or_replace (values_of item) rows)).

Definition get_by_id (memory_id : string) (st : t)
  : option UnifiedMemoryItem * t :=
  let rows := _initialize_db st in
  (option_map item_of (select_where_id memory_id rows), Some rows).

Definition query `{SqlEngine} (filter_params : MemoryQueryFilter) (st : t)
  : MemorySearchResult * t :=
  let rows := _initialize_db st in
  let rows' :=
    match content_search filter_params with
    | Some (String _ _ as s) =>
        filter (fun r => sql_like (c_content r) ("%" ++ s ++ "%")%string) rows
    | _ => rows
    end in
  let results := map item_of rows' in
  ({| items := py_slice_to (limit filter_params) results;
      total_count := Z.of_nat (length results);
      query_filter := filter_params |}, Some rows).

Definition update (memory_id : string) (updates : list field_update)
    (st : t) : bool * t :=
  let '(item, st) := get_by_id memory_id st in
  match item with
  | None => (false, st)
  | Some item =>
      let item := apply_updates item updates in
      (true, snd (save item st))
  end.

Definition delete (memory_id : string) (st : t) : bool * t :=
  let rows := _initialize_db st in
  (true, Some (delete_where_id memory_id rows)).

Definition batch_save (items : list UnifiedMemoryItem) (st : t)
  : list string * t :=
  let rows := _initialize_db st in
  (map id items,
   Some (fold_left (fun rows item => insert_or_replace (values_of item) rows)
                   items rows)).

(** One turn of the loop of [cleanup_expired] over the fetched rows. *)
Definition cleanup_step (dry_run : bool) (now : datetime)
    (acc : Z * list row) (r : row) : Z * list row :=
  let '(expired_count, rows) := acc in
  let timestamp := fromisoformat (c_timestamp r) in
  if older_than_a_day now timestamp then
    (expired_count + 1,
     if negb dry_run then delete_where_id (c_id r) rows else rows)
  else (expired_count, rows).

(** [cleanup_expired(dry_run)]; the scan reads the clock at [now]. *)
Definition cleanup_expired (dry_run : bool) (now : datetime) (st : t)
  : PyDict.t string Z * t :=
  let rows := _initialize_db st in
  let '(expired_count, rows') :=
    fold_left (cleanup_step dry_run now) rows (0, rows) in
  ([("expired_count", expired_count)], Some rows').

Definition semantic_search `{SqlEngine} (query_text : string)
    (memory_types : option (list MemoryType))
    (tier_sources : option (list string)) (limit : Z) (st : t)
  : result MemorySearchResult * t :=
  match MemoryQueryFilter_init (Some query_text) memory_types tier_sources
                               limit [] with
  | Ok filter_params =>
      let '(res, st') := query filter_params st in (Ok res, st')
  | Raise e => (Raise e, st)
  end.

Definition get_stats (st : t) : PyDict.t string json * t :=
  let rows := _initialize_db st in
  ([("total_items", JInt (Z.of_nat (length rows)));
    ("storage_type", JStr "SQLite")], Some rows).

End SQLiteMemoryStorage.

(** ** [faiss_storage.py] *)

(** The two libraries behind the vector backend: the sentence encoder and
    the flat L2 index.  [index_search vectors q k] is row 0 of
    [index.search(q, k)]: [k] pairs of a distance and the position of a
    stored vector, [-1] where the index found none. *)
Class VectorLib : Type := {
  vector : Type;
  encode : string -> vector;
  index_search : list vector -> vector -> Z -> list (float * Z)
}.

Module FAISSMemoryStorage.
Section Storage.
Context `{VectorLib}.

(** The fields of the object that the methods read and write; [index] is
    the list of vectors added so far, in the order of their positions.
    [_save_index] copies these fields to disk and changes none of them. *)
Record t : Type := {
  index : list vector;
  id_to_memory : PyDict.t Z UnifiedMemoryItem;
  memory_id_to_index : PyDict.t string Z;
  next_index_position : Z
}.

(** [self.index.ntotal] *)
Definition ntotal (st : t) : Z := Z.of_nat (length (index st)).

Definition _create_new_index : t :=
  {| index := [];
     id_to_memory := PyDict.empty;
     memory_id_to_index := PyDict.empty;
     next_index_position := 0 |}.

Definition _get_embedding (text : string) : vector := encode text.

Definition save (item : UnifiedMemoryItem) (st : t) : string * t :=
  let embedding := _get_embedding (content item) in
  match PyDict.get (id item) (memory_id_to_index st) with
  | Some index_pos =>
      (id item,
       {| index := index st;
          id_to_memory := PyDict.set index_pos item (id_to_memory st);
          memory_id_to_index := memory_id_to_index st;
          next_index_position := next_index_position st |})
  | None =>
      let index_pos := next_index_position st in
      (id item,
       {| index := index st ++ [embedding];
          id_to_memory := PyDict.set index_pos item (id_to_memory st);
          memory_id_to_index :=
            PyDict.set (id item) index_pos (memory_id_to_index st);
          next_index_position := next_index_position st + 1 |})
  end.

Definition get_by_id (memory_id : string) (st : t)
  : option UnifiedMemoryItem :=
  match PyDict.get memory_id (memory_id_to_index st) with
  | Some index_pos => PyDict.get index_pos (id_to_memory st)
  | None => None
  end.

(** The copy of a stored record that a search returns, with the distance
    under the key [similarity_score] of its metadata. *)
Definition with_similarity_score (item : UnifiedMemoryItem) (d : float)
  : UnifiedMemoryItem :=
  {| id := id item;
     content := content item;
     memory_type := memory_type item;
     tier_source := tier_source item;
     tags := tags item;
     metadata := PyDict.set "similarity_score" (JFloat d) (metadata item);
     timestamp := timestamp item;
     last_accessed := last_accessed item;
     last_modified := None;
     retention_policy := retention_policy item;
     priority := MEDIUM;
     access_count := access_count item;
     usage_score := float_0;
     embeddings := None;
     embedding_model := None;
     related_items := [];
     parent_id := None;
     confidence := float_1;
     relevance_decay := float_0;
     has_pii := false;
     encryption_key := None |}.

(** The loop over [indices[0]] of [query]. *)
Definition collect_matches (st : t) (found : list (float * Z))
  : list UnifiedMemoryItem :=
  flat_map
    (fun '(d, idx) =>
       if negb (idx =? -1) then
         match PyDict.get idx (id_to_memory st) with
         | Some item => [with_similarity_score item d]
         | None => []
         end
       else [])
    found.

(** The filters [query] applies to its candidates, in order. *)
Definition apply_filters (filter_params : MemoryQueryFilter)
    (results : list UnifiedMemoryItem) : list UnifiedMemoryItem :=
  let results :=
    match memory_types filter_params with
    | Some ((_ :: _) as mts) =>
        filter (fun r => py_in (memory_type r) mts) results
    | _ => results
    end in
  let results :=
    match tier_sources filter_params with
    | Some ((_ :: _) as srcs) =>
        filter (fun r => py_in (tier_source r) srcs) results
    | _ => results
    end in
  let results :=
    match f_tags filter_params with
    | Some ((_ :: _) as tgs) =>
        filter (fun r => existsb (fun tag => py_in tag (tags r)) tgs) results
    | _ => results
    end in
  let results :=
    match start_time filter_params with
    | Some t0 => filter (fun r => t0 <=? timestamp r) results
    | None => results
    end in
  let results :=
    match end_time filter_params with
    | Some t1 => filter (fun r => timestamp r <=? t1) results
    | None => results
    end in
  py_slice_to (limit filter_params) results.

Definition query (filter_params : MemoryQueryFilter) (st : t)
  : MemorySearchResult :=
  let results :=
    match content_search filter_params with
    | Some (String _ _ as text) =>
        let query_embedding := _get_embedding text in
        let k := if 0 <? ntotal st
                 then Z.min (limit filter_params) (ntotal st) else 0 in
        if 0 <? k
        then collect_matches st (index_search (index st) query_embedding k)
        else []
    | _ =>
        py_slice_to (limit filter_params) (PyDict.values (id_to_memory st))
    end in
  let results := apply_filters filter_params results in
  {| items := results;
     total_count := Z.of_nat (length results);
     query_filter := filter_params |}.

(** [update]: the stored record is changed in place, the index is not;
    a changed [content] only prints a warning. *)
Definition update (memory_id : string) (updates : list field_update)
    (st : t) : result bool * t :=
  match PyDict.get memory_id (memory_id_to_index st) with
  | None => (Ok false, st)
  | Some index_pos =>
      match PyDict.get index_pos (id_to_memory st) with
      | None => (Raise KeyError, st)
      | Some item =>
          let item := apply_updates item updates in
          (Ok true,
           {| index := index st;
              id_to_memory := PyDict.set index_pos item (id_to_memory st);
              memory_id_to_index := memory_id_to_index st;
              next_index_position := next_index_position st |})
      end
  end.

Definition delete (memory_id : string) (st : t) : result bool * t :=
  match PyDict.get memory_id (memory_id_to_index st) with
  | None => (Ok false, st)
  | Some index_pos =>
      if PyDict.contains index_pos (id_to_memory st) then
        (Ok true,
         {| index := index st;
            id_to_memory := PyDict.remove index_pos (id_to_memory st);
            memory_id_to_index :=
              PyDict.remove memory_id (memory_id_to_index st);
            next_index_position := next_index_position st |})
      else (Raise KeyError, st)
  end.

(** The first loop of [batch_save]: the items whose id has no position. *)
Definition new_items_of (items : list UnifiedMemoryItem) (st : t)
  : list UnifiedMemoryItem :=
  filter (fun item =>
            negb (PyDict.contains (id item) (memory_id_to_index st)))
         items.

(** The second loop: a position for each new item. *)
Definition place_new_item (st : t) (item : UnifiedMemoryItem) : t :=
  let index_pos := next_index_position st in
  {| index := index st;
     id_to_memory := PyDict.set index_pos item (id_to_memory st);
     memory_id_to_index :=
       PyDict.set (id item) index_pos (memory_id_to_index st);
     next_index_position := next_index_position st + 1 |}.

(** The third loop: every item of the batch whose id has a position is
    stored at that position. *)
Definition store_existing_item (st : t) (item : UnifiedMemoryItem) : t :=
  match PyDict.get (id item) (memory_id_to_index st) with
  | Some index_pos =>
      {| index := index st;
         id_to_memory := PyDict.set index_pos item (id_to_memory st);
         memory_id_to_index := memory_id_to_index st;
         next_index_position := next_index_position st |}
  | None => st
  end.

Definition batch_save (items : list UnifiedMemoryItem) (st : t)
  : list string * t :=
  let new_items := new_items_of items st in
  let embeddings :=
    map (fun item => _get_embedding (content item)) new_items in
  let st :=
    match embeddings with
    | [] => st
    | _ :: _ =>
        let st := {| index := index st ++ embeddings;
                     id_to_memory := id_to_memory st;
                     memory_id_to_index := memory_id_to_index st;
                     next_index_position := next_index_position st |} in
        fold_left place_new_item new_items st
    end in
  let st := fold_left store_existing_item items st in
  (map id items, st).

(** [enumerate(items)] from position [i]. *)
Fixpoint enumerate_from {A} (i : Z) (l : list A) : list (Z * A) :=
  match l with
  | [] => []
  | x :: l' => (i, x) :: enumerate_from (i + 1) l'
  end.

(** The loop of [rebuild_index] that fills the two maps again. *)
Definition place_at (st : t) (p : Z * UnifiedMemoryItem) : t :=
  let '(i, item) := p in
  {| index := index st;
     id_to_memory := PyDict.set i item (id_to_memory st);
     memory_id_to_index := PyDict.set (id item) i (memory_id_to_index st);
     next_index_position := next_index_position st |}.

Definition rebuild_index (st : t) : t :=
  match id_to_memory st with
  | [] => _create_new_index
  | _ :: _ =>
      let items := PyDict.values (id_to_memory st) in
      let embeddings :=
        map (fun item => _get_embedding (content item)) items in
      let st := _create_new_index in
      match embeddings with
      | [] => st
      | _ :: _ =>
          let st := {| index := index st ++ embeddings;
                       id_to_memory := id_to_memory st;
                       memory_id_to_index := memory_id_to_index st;
                       next_index_position := next_index_position st |} in
          let st := fold_left place_at (enumerate_from 0 items) st in
          {| index := index st;
             id_to_memory := id_to_memory st;
             memory_id_to_index := memory_id_to_index st;
             next_index_position := Z.of_nat (length items) |}
      end
  end.

Definition semantic_search (query_text : string)
    (memory_types : option (list MemoryType))
    (tier_sources : option (list string)) (limit : Z) (st : t)
  : result MemorySearchResult :=
  match MemoryQueryFilter_init (Some query_text) memory_types tier_sources
                               limit [] with
  | Ok filter_params => Ok (query filter_params st)
  | Raise e => Raise e
  end.

(** The second loop of [cleanup_expired]: [delete] for each expired id, up
    to the first that raises. *)
Fixpoint delete_each (expired_ids : list string) (st : t) : result unit * t :=
  match expired_ids with
  | [] => (Ok tt, st)
  | memory_id :: rest =>
      match delete memory_id st with
      | (Ok _, st') => delete_each rest st'
      | (Raise e, st') => (Raise e, st')
      end
  end.

(** [cleanup_expired(dry_run)]; the scan reads the clock at [now]. *)
Definition cleanup_expired (dry_run : bool) (now : datetime) (st : t)
  : result (PyDict.t string Z) * t :=
  let expired_ids :=
    map id (filter (fun item => older_than_a_day now (timestamp item))
                   (PyDict.values (id_to_memory st))) in
  let expired_count := Z.of_nat (length expired_ids) in
  if negb dry_run then
    match delete_each expired_ids st with
    | (Ok _, st') => (Ok [("expired_count", expired_count)], st')
    | (Raise e, st') => (Raise e, st')
    end
  else (Ok [("expired_count", expired_count)], st).

(** [get_stats]; [embedding_dim] is the dimension the encoder reports. *)
Definition get_stats (embedding_dim : Z) (st : t) : PyDict.t string json :=
  [("total_items", JInt (Z.of_nat (length (id_to_memory st))));
   ("faiss_index_size", JInt (ntotal st));
   ("embedding_dimension", JInt embedding_dim);
   ("storage_type", JStr "FAISS");
   ("embedding_model", JInt embedding_dim)].

End Storage.
End FAISSMemoryStorage.

(** ** The provider contract *)

(** A call: it reads and writes the state of the object it is made on, and
    returns a value or raises. *)
Definition M (S A : Type) : Type := S -> result A * S.

Definition ret {S A} (a : A) : M S A := fun s => (Ok a, s).

Definition bind {S A B} (m : M S A) (k : A -> M S B) : M S B :=
  fun s =>
    match m s with
    | (Ok a, s') => k a s'
    | (Raise e, s') => (Raise e, s')
    end.

Definition raise {S A} (e : exn) : M S A := fun s => (Raise e, s).

Declare Scope monad_scope.
Delimit Scope monad_scope with monad.
Notation "x <- c1 ;; c2" := (bind c1 (fun x => c2))
  (at level 61, c1 at next level, right associativity) : monad_scope.
Notation "c1 ;; c2" := (bind c1 (fun _ => c2))
  (at level 61, right associativity) : monad_scope.

(** A call that cannot raise. *)
Definition total {S A} (f : S -> A * S) : M S A :=
  fun s => let '(a, s') := f s in (Ok a, s').

(** [class IUnifiedMemoryProvider(ABC)], for a provider whose state is [S];
    [cleanup_expired] also takes the reading of the clock.  [get_stats],
    a free-form dictionary, is left out. *)
Class IUnifiedMemoryProvider (S : Type) : Type := {
  save : UnifiedMemoryItem -> M S string;
  get_by_id : string -> M S (option UnifiedMemoryItem);
  query : MemoryQueryFilter -> M S MemorySearchResult;
  semantic_search :
    string -> option (list MemoryType) -> option (list string) -> Z ->
    M S MemorySearchResult;
  update : string -> list field_update -> M S bool;
  delete : string -> M S bool;
  batch_save : list UnifiedMemoryItem -> M S (list string);
  cleanup_expired : bool -> datetime -> M S (PyDict.t string Z)
}.

(** ** [hybrid_storage.py] *)

Module HybridMemoryStorage.
Section Coordinator.
Context `{SqlEngine} `{VectorLib}.
Local Open Scope monad_scope.

Inductive backend : Type := json_backend | sqlite_backend | faiss_backend.

(** A method call the coordinator awaits on one of its three stores. *)
Inductive call : Type :=
| call_save (b : backend) (item : UnifiedMemoryItem)
| call_get_by_id (b : backend) (memory_id : string)
| call_query (b : backend) (filter_params : MemoryQueryFilter)
| call_semantic_search (b : backend) (query_text : string)
| call_update (b : backend) (memory_id : string)
              (updates : list field_update)
| call_delete (b : backend) (memory_id : string)
| call_batch_save (b : backend) (items : list UnifiedMemoryItem)
| call_cleanup_expired (b : backend) (dry_run : bool).

(** The three stores, and the calls awaited on them so far, oldest first:
    [calls] is what an observer of the stores sees of the coordinator. *)
Record t : Type := {
  json_store : JSONMemoryStorage.t;
  sqlite_store : SQLiteMemoryStorage.t;
  faiss_store : FAISSMemoryStorage.t;
  calls : list call
}.

(** [HybridMemoryStorage(base_path)] on a fresh directory. *)
Definition init : t :=
  {| json_store := PyDict.empty;
     sqlite_store := None;
     faiss_store := FAISSMemoryStorage._create_new_index;
     calls := [] |}.

(** [await self.json_store.f(..)] *)
Definition await_json {A} (c : call) (f : JSONMemoryStorage.t ->
                                          A * JSONMemoryStorage.t)
  : M t A :=
  fun st =>
    let '(a, js) := f (json_store st) in
    (Ok a, {| json_store := js;
              sqlite_store := sqlite_store st;
              faiss_store := faiss_store st;
              calls := calls st ++ [c] |}).

(** [await self.json_store.f(..)] for a method that may raise. *)
Definition await_json_raising {A} (c : call)
    (f : JSONMemoryStorage.t -> result A * JSONMemoryStorage.t)
  : M t A :=
  fun st =>
    let '(a, js) := f (json_store st) in
    (a, {| json_store := js;
           sqlite_store := sqlite_store st;
           faiss_store := faiss_store st;
           calls := calls st ++ [c] |}).

(** [await self.sqlite_store.f(..)] *)
Definition await_sqlite {A} (c : call) (f : SQLiteMemoryStorage.t ->
                                            A * SQLiteMemoryStorage.t)
  : M t A :=
  fun st =>
    let '(a, ss) := f (sqlite_store st) in
    (Ok a, {| json_store := json_store st;
              sqlite_store := ss;
              faiss_store := faiss_store st;
              calls := calls st ++ [c] |}).

(** [await self.faiss_store.f(..)] *)
Definition await_faiss {A} (c : call) (f : FAISSMemoryStorage.t ->
                                           result A * FAISSMemoryStorage.t)
  : M t A :=
  fun st =>
    let '(a, fs) := f (faiss_store st) in
    (a, {| json_store := json_store st;
           sqlite_store := sqlite_store st;
           faiss_store := fs;
           calls := calls st ++ [c] |}).

Definition save (item : UnifiedMemoryItem) : M t string :=
  await_json (call_save json_backend item) (JSONMemoryStorage.save item) ;;
  await_sqlite (call_save sqlite_backend item)
               (SQLiteMemoryStorage.save item) ;;
  await_faiss (call_save faiss_backend item)
              (fun fs => let '(i, fs') := FAISSMemoryStorage.save item fs in
                         (Ok i, fs')) ;;
  ret (id item).

Definition get_by_id (memory_id : string) : M t (option UnifiedMemoryItem) :=
  await_json (call_get_by_id json_backend memory_id)
             (fun js => (JSONMemoryStorage.get_by_id memory_id js, js)).

Definition query (filter_params : MemoryQueryFilter)
  : M t MemorySearchResult :=
  await_sqlite (call_query sqlite_backend filter_params)
               (SQLiteMemoryStorage.query filter_params).

Definition semantic_search (query_text : string)
    (memory_types : option (list MemoryType))
    (tier_sources : option (list string)) (limit : Z)
  : M t MemorySearchResult :=
  await_faiss (call_semantic_search faiss_backend query_text)
              (fun fs =>
                 (FAISSMemoryStorage.semantic_search
                    query_text memory_types tier_sources limit fs, fs)).

Definition update (memory_id : string) (updates : list field_update)
  : M t bool :=
  updated <- await_json_raising
               (call_update json_backend memory_id updates)
               (JSONMemoryStorage.update memory_id updates) ;;
  (if updated : bool
   then await_sqlite (call_update sqlite_backend memory_id updates)
                     (SQLiteMemoryStorage.update memory_id updates) ;;
        ret tt
   else ret tt) ;;
  ret updated.

Definition delete (memory_id : string) : M t bool :=
  deleted <- await_json (call_delete json_backend memory_id)
                        (JSONMemoryStorage.delete memory_id) ;;
  (if deleted : bool
   then await_sqlite (call_delete sqlite_backend memory_id)
                     (SQLiteMemoryStorage.delete memory_id) ;;
        await_faiss (call_delete faiss_backend memory_id)
                    (FAISSMemoryStorage.delete memory_id) ;;
        ret tt
   else ret tt) ;;
  ret deleted.

Definition batch_save (items : list UnifiedMemoryItem) : M t (list string) :=
  let ids := map id items in
  await_json (call_batch_save json_backend items)
             (JSONMemoryStorage.batch_save items) ;;
  await_sqlite (call_batch_save sqlite_backend items)
               (SQLiteMemoryStorage.batch_save items) ;;
  await_faiss (call_batch_save faiss_backend items)
              (fun fs =>
                 let '(l, fs') := FAISSMemoryStorage.batch_save items fs in
                 (Ok l, fs')) ;;
  ret ids.

Definition cleanup_expired (dry_run : bool) (now : datetime)
  : M t (PyDict.t string Z) :=
  await_json_raising (call_cleanup_expired json_backend dry_run)
                     (JSONMemoryStorage.cleanup_expired dry_run now).

(** [get_stats]: the three dictionaries merged, a later one overwriting the
    keys it shares with an earlier one.  The calls leave no entry in
    [calls], whose type has none for them. *)
Definition get_stats (st_size : JSONMemoryStorage.item_dict -> Z)
    (embedding_dim : Z) : M t (PyDict.t string json) :=
  fun st =>
    let stats := JSONMemoryStorage.get_stats st_size (json_store st) in
    let '(sqlite_stats, ss) := SQLiteMemoryStorage.get_stats (sqlite_store st) in
    let stats := PyDict.update stats sqlite_stats in
    let stats :=
      PyDict.update stats
        (FAISSMemoryStorage.get_stats embedding_dim (faiss_store st)) in
    (Ok stats, {| json_store := json_store st;
                  sqlite_store := ss;
                  faiss_store := faiss_store st;
                  calls := calls st |}).

(** The coordinator is a provider itself. *)
Definition provider : IUnifiedMemoryProvider t :=
  Build_IUnifiedMemoryProvider
    save get_by_id query semantic_search update delete batch_save
    cleanup_expired.

End Coordinator.
End HybridMemoryStorage.

#[global] Existing Instance HybridMemoryStorage.provider.

(** ** [memory_hub.py] *)

Module UnifiedMemoryHub.
Section Hub.
Context {S : Type} `{IUnifiedMemoryProvider S}.
Local Open Scope monad_scope.

Record t : Type := {
  storage : S;
  session_memories : PyDict.t string (list string)
}.

(** [UnifiedMemoryHub(storage_backend)] *)
Definition init (storage_backend : S) : t :=
  {| storage := storage_backend; session_memories := PyDict.empty |}.

(** [await self.storage.f(..)] *)
Definition await_storage {A} (m : M S A) : M t A :=
  fun hub =>
    let '(a, s) := m (storage hub) in
    (a, {| storage := s; session_memories := session_memories hub |}).

(** The three lines of [save_memory] that cache the id. *)
Definition cache_in_session (session_id memory_id : string) : M t unit :=
  fun hub =>
    let sm := session_memories hub in
    let sm := if negb (PyDict.contains session_id sm)
              then PyDict.set session_id [] sm else sm in
    let ids := match PyDict.get session_id sm with
               | Some ids => ids
               | None => []
               end in
    (Ok tt, {| storage := storage hub;
               session_memories := PyDict.set session_id (ids ++ [memory_id]) sm |}).

(** [save_memory]; [uuid4] and [utcnow] are what the default factories of
    the record draw during the call. *)
Definition save_memory (uuid4 : string) (utcnow : datetime)
    (content : string) (memory_type : MemoryType) (tier_source : string)
    (session_id : string) (metadata : option (PyDict.t string json))
    (tags : option (list string)) : M t string :=
  let memory_item :=
    UnifiedMemoryItem_init uuid4 utcnow content memory_type tier_source
      (match metadata with Some ((_ :: _) as m) => m | _ => [] end)
      (match tags with Some ((_ :: _) as l) => l | _ => [] end)
      [("session_id", JStr session_id)] in
  memory_id <- await_storage (save memory_item) ;;
  cache_in_session session_id memory_id ;;
  ret memory_id.

Definition get_memory (memory_id : string)
  : M t (option UnifiedMemoryItem) :=
  await_storage (get_by_id memory_id).

Definition get_session_memories (session_id : string) (limit : Z)
  : M t (list UnifiedMemoryItem) :=
  match MemoryQueryFilter_init None None None limit
                               [("session_id", JStr session_id)] with
  | Raise e => raise e
  | Ok filter_params =>
      result <- await_storage (query filter_params) ;;
      ret (items result)
  end.

(** [search_memories]: every provider has [semantic_search], so the
    fallback to [query] is never taken and [session_id] is not read. *)
Definition search_memories (query_text : string)
    (memory_types : option (list MemoryType))
    (tier_sources : option (list string)) (session_id : option string)
    (limit : Z) : M t MemorySearchResult :=
  await_storage (semantic_search query_text memory_types tier_sources limit).

(** [update_memory]: every provider has [update]. *)
Definition update_memory (memory_id : string) (updates : list field_update)
  : M t bool :=
  await_storage (update memory_id updates).

(** [delete_memory]: every provider has [delete]. *)
Definition delete_memory (memory_id : string) : M t bool :=
  await_storage (delete memory_id).

Definition get_session_cache (session_id : string) (hub : t)
  : list string :=
  match PyDict.get session_id (session_memories hub) with
  | Some ids => ids
  | None => []
  end.

Definition clear_session_cache (session_id : string) (hub : t) : t :=
  if PyDict.contains session_id (session_memories hub)
  then {| storage := storage hub;
          session_memories :=
            PyDict.remove session_id (session_memories hub) |}
  else hub.

(** [get_statistics]: the providers of this repository have [get_stats]
    and no [get_statistics], so the branch that would merge the statistics
    of the storage is not taken. *)
Definition get_statistics (hub : t) : PyDict.t string json :=
  [("sessions", JInt (Z.of_nat (length (session_memories hub))))].

End Hub.
Arguments t : clear implicits.
End UnifiedMemoryHub.

(** ** Stand-ins for the libraries

    What the properties below need of the SQLite engine, the encoder and the
    index is nothing: they hold for every [SqlEngine] and [VectorLib].  The
    two instances here let the model run on concrete stores. *)
Module Standin.

(** [str.lower] on the letters A to Z; other characters are kept. *)
Definition lower_ascii (c : ascii) : ascii :=
  let n := nat_of_ascii c in
  if (65 <=? n)%nat && (n <=? 90)%nat then ascii_of_nat (n + 32) else c.

Fixpoint lower (s : string) : string :=
  match s with
  | "" => ""
  | String c s' => String (lower_ascii c) (lower s')
  end%string.

Definition str_lib : StrLib := {| str_lower := lower |}.

(** [text LIKE pattern] without [ESCAPE]: a percent sign stands for any
    run of characters, an underscore for any one character, and the
    letters A to Z match in either case. *)
Fixpoint like_from (pattern : string) : string -> bool :=
  match pattern with
  | "" => fun text => match text with "" => true | String _ _ => false end
  | String p pattern' =>
      if ascii_dec p "%" then
        fix skip (text : string) : bool :=
          like_from pattern' text ||
          match text with
          | "" => false
          | String _ text' => skip text'
          end
      else
        fun text =>
          match text with
          | "" => false
          | String c text' =>
              (if ascii_dec p "_" then true
               else Ascii.eqb (lower_ascii p) (lower_ascii c))
              && like_from pattern' text'
          end
  end%string.

Definition like (text pattern : string) : bool := like_from pattern text.

Definition sql_engine : SqlEngine := {| sql_like := like |}.

(** A sentence is encoded as its length; a search lists the first [k]
    positions with the distance of each vector to the query. *)
Definition vector_lib : VectorLib :=
  {| vector := Z;
     encode := fun text => Z.of_nat (String.length text);
     index_search := fun vectors q k =>
       firstn (Z.to_nat k)
         (map (fun p => (Z.abs (snd p - q), fst p))
              (FAISSMemoryStorage.enumerate_from 0 vectors)) |}.

End Standin.

(** ** What the properties speak of *)


(** The files the loop of [cleanup_expired] removes. *)
Definition remove_expired (now : datetime)
    (files : list (string * JSONMemoryStorage.item_dict))
    (st : JSONMemoryStorage.t) : JSONMemoryStorage.t :=
  fold_left
    (fun st f =>
       if temporary_and_expired now (JSONMemoryStorage.of_item_dict (snd f))
       then PyDict.remove (fst f) st else st)
    files st.

(** The id gives the name of a file of the directory. *)
Definition file_name_id (memory_id : string) : Prop :=
  file_name (JSONMemoryStorage._memory_file_path memory_id).

(** The record passes the validation of the model class. *)
Definition validates (item : UnifiedMemoryItem) : Prop :=
  confidence_ok (confidence item) = true.

(** A directory: each name once, and each the name of a file. *)
Definition directory (st : JSONMemoryStorage.t) : Prop :=
  PyDict.wf st /\
  forall name, In name (PyDict.keys st) -> file_name name.

(** The document of every [*.json] file passes the validation of the
    model class. *)
Definition valid_documents (st : JSONMemoryStorage.t) : Prop :=
  forall f, In f (JSONMemoryStorage.glob_json st) ->
            confidence_ok (JSONMemoryStorage.d_confidence (snd f)) = true.

(** The integers a column of type [INTEGER] can hold; [sqlite3] raises
    [OverflowError] when it is asked to bind another. *)
Definition sqlite_integer (n : Z) : Prop := - 2 ^ 63 <= n < 2 ^ 63.

(** The primary key of the table [memories]: no two rows share an id. *)
Definition table_wf (st : SQLiteMemoryStorage.t) : Prop :=
  NoDup (map SQLiteMemoryStorage.c_id (SQLiteMemoryStorage._initialize_db st)).

(** The fields the table [memories] has no column for are at their
    defaults. *)
Definition unstored_fields_default (item : UnifiedMemoryItem) : Prop :=
  last_modified item = None /\ priority item = MEDIUM /\
  usage_score item = float_0 /\ embeddings item = None /\
  embedding_model item = None /\ related_items item = [] /\
  parent_id item = None /\ confidence item = float_1 /\
  relevance_decay item = float_0 /\ has_pii item = false /\
  encryption_key item = None.

(** The list of updates leaves the [id] of a record alone. *)
Definition keeps_id (updates : list field_update) : Prop :=
  forall v, ~ In (U_id v) updates.

(** The [limit] of a filter the model class has accepted. *)
Definition valid_limit (limit : Z) : Prop := 1 <= limit <= 1000.

Section VectorInvariant.
Context `{VectorLib}.

(** The two maps of the vector backend are inverse of each other, and
    every position in use is below the next free one. *)
Record maps_inv (id_to_memory : PyDict.t Z UnifiedMemoryItem)
    (memory_id_to_index : PyDict.t string Z) (next_index_position : Z)
  : Prop := {
  positions_wf : PyDict.wf id_to_memory;
  ids_wf : PyDict.wf memory_id_to_index;
  position_to_id : forall s r,
    PyDict.get s id_to_memory = Some r ->
    PyDict.get (id r) memory_id_to_index = Some s;
  id_to_position : forall i s,
    PyDict.get i memory_id_to_index = Some s ->
    exists r, PyDict.get s id_to_memory = Some r /\ id r = i;
  positions_below : forall s r,
    PyDict.get s id_to_memory = Some r -> s < next_index_position
}.

(** The invariant of the vector backend: the maps are inverse of each
    other (each, as a dictionary, with every key once), records at
    different positions have different ids, the positions in use are below
    [next_index_position], which is the number of vectors in the index. *)
Definition faiss_inv (st : FAISSMemoryStorage.t) : Prop :=
  maps_inv (FAISSMemoryStorage.id_to_memory st)
           (FAISSMemoryStorage.memory_id_to_index st)
           (FAISSMemoryStorage.next_index_position st) /\
  (forall s1 s2 r1 r2,
      PyDict.get s1 (FAISSMemoryStorage.id_to_memory st) = Some r1 ->
      PyDict.get s2 (FAISSMemoryStorage.id_to_memory st) = Some r2 ->
      s1 <> s2 -> id r1 <> id r2) /\
  FAISSMemoryStorage.next_index_position st = FAISSMemoryStorage.ntotal st.

(** No position holds a record whose id is [memory_id]. *)
Definition no_record (memory_id : string) (st : FAISSMemoryStorage.t)
  : Prop :=
  forall r, In r (PyDict.values (FAISSMemoryStorage.id_to_memory st)) ->
            id r <> memory_id.

(** A mutating call on the vector backend. *)
Inductive faiss_op : Type :=
| op_save (item : UnifiedMemoryItem)
| op_update (memory_id : string) (updates : list field_update)
| op_delete (memory_id : string)
| op_batch_save (items : list UnifiedMemoryItem)
| op_rebuild_index.

Definition run_op (st : FAISSMemoryStorage.t) (op : faiss_op)
  : FAISSMemoryStorage.t :=
  match op with
  | op_save item => snd (FAISSMemoryStorage.save item st)
  | op_update memory_id updates =>
      snd (FAISSMemoryStorage.update memory_id updates st)
  | op_delete memory_id => snd (FAISSMemoryStorage.delete memory_id st)
  | op_batch_save items => snd (FAISSMemoryStorage.batch_save items st)
  | op_rebuild_index => FAISSMemoryStorage.rebuild_index st
  end.

Definition run_ops (ops : list faiss_op) (st : FAISSMemoryStorage.t)
  : FAISSMemoryStorage.t :=
  fold_left run_op ops st.

(** The call does not save a record under [memory_id], nor rename one to
    it. *)
Definition op_avoids (memory_id : string) (op : faiss_op) : Prop :=
  match op with
  | op_save item => id item <> memory_id
  | op_update _ updates => ~ In (U_id memory_id) updates
  | op_batch_save items => ~ In memory_id (map id items)
  | op_delete _ | op_rebuild_index => True
  end.

End VectorInvariant.

Arguments positions_wf {_ _ _} _.
Arguments ids_wf {_ _ _} _.
Arguments position_to_id {_ _ _} _ _ _ _.
Arguments id_to_position {_ _ _} _ _ _ _.
Arguments positions_below {_ _ _} _ _ _ _.

(** ** Sample records and stores *)

(** Two records of a chat, and a temporary one. *)
Definition record_x : UnifiedMemoryItem :=
  UnifiedMemoryItem_init "x" 1 "hello world" CONVERSATION "chat" []
                         ["greeting"] [].
Definition record_y : UnifiedMemoryItem :=
  UnifiedMemoryItem_init "y" 2 "good bye" CONVERSATION "chat" [] [] [].
Definition record_tmp (memory_id : string) (created : datetime)
  : UnifiedMemoryItem :=
  setattr (UnifiedMemoryItem_init memory_id created "scratch" TASK "chat"
                                  [] [] [])
          (U_retention_policy TEMPORARY).


(** The bit pattern of the double [2.0]. *)
Definition float_2 : float := 4611686018427387904.


(** [MemoryQueryFilter(content_search=term, limit=limit)], for a limit
    that passes validation. *)
Definition filter_for (term : option string) (limit : Z)
  : MemoryQueryFilter :=
  {| content_search := term; semantic_query := None;
     memory_types := None; tier_sources := None;
     f_tags := None; metadata_filters := None;
     start_time := None; end_time := None;
     created_after := None; created_before := None;
     accessed_after := None;
     min_confidence := None; min_usage_score := None;
     priorities := None; related_to := None; f_parent_id := None;
     limit := limit; offset := 0;
     sort_by := "timestamp"; sort_desc := true |}.

(* ================================================================== *)
(** * Part II: properties *)
(* ================================================================== *)

Unset Implicit Arguments.

(** ** Dictionaries *)

Section PyDictFacts.
Context {K V : Type} `{EqDec K}.
Implicit Types (k : K) (v : V) (d : PyDict.t K V).

Lemma get_set_eq k v d : PyDict.get k (PyDict.set k v d) = Some v.
Proof.
  induction d as [|[k' v'] d IH]; simpl.
  - destruct (eq_dec k k); congruence.
  - destruct (eq_dec k k') as [->|Hne]; simpl.
    + destruct (eq_dec k' k'); congruence.
    + destruct (eq_dec k k'); [contradiction|exact IH].
Qed.

Lemma get_set_ne k k0 v d :
  k <> k0 -> PyDict.get k0 (PyDict.set k v d) = PyDict.get k0 d.
Proof.
  intros Hne. induction d as [|[k' v'] d IH]; simpl.
  - destruct (eq_dec k0 k); congruence.
  - destruct (eq_dec k k') as [->|Hne']; simpl.
    + destruct (eq_dec k0 k'); congruence.
    + destruct (eq_dec k0 k'); [reflexivity|exact IH].
Qed.

Lemma get_remove_eq k d : PyDict.get k (PyDict.remove k d) = None.
Proof.
  induction d as [|[k' v'] d IH]; simpl; [reflexivity|].
  destruct (eq_dec k k') as [->|Hne]; simpl; [exact IH|].
  destruct (eq_dec k k'); [contradiction|exact IH].
Qed.

Lemma get_remove_ne k k0 d :
  k <> k0 -> PyDict.get k0 (PyDict.remove k d) = PyDict.get k0 d.
Proof.
  intros Hne. induction d as [|[k' v'] d IH]; simpl; [reflexivity|].
  destruct (eq_dec k k') as [->|Hne']; simpl.
  - destruct (eq_dec k0 k'); [congruence|exact IH].
  - destruct (eq_dec k0 k'); [reflexivity|exact IH].
Qed.

Lemma get_In k v d : PyDict.get k d = Some v -> In (k, v) d.
Proof.
  induction d as [|[k' v'] d IH]; simpl; [discriminate|].
  destruct (eq_dec k k') as [->|Hne]; intros Hg.
  - left. congruence.
  - right. auto.
Qed.

Lemma get_None_not_In k d :
  PyDict.get k d = None -> ~ In k (PyDict.keys d).
Proof.
  induction d as [|[k' v'] d IH]; simpl; [tauto|].
  destruct (eq_dec k k') as [->|Hne]; [discriminate|].
  intros Hg [Heq|Hin]; [congruence|]. exact (IH Hg Hin).
Qed.

Lemma wf_In_get k v d : PyDict.wf d -> In (k, v) d -> PyDict.get k d = Some v.
Proof.
  unfold PyDict.wf. induction d as [|[k' v'] d IH]; simpl; [tauto|].
  intros Hnd [Heq|Hin].
  - inversion Heq; subst. destruct (eq_dec k k); congruence.
  - inversion Hnd as [|? ? Hnotin Hnd']; subst.
    destruct (eq_dec k k') as [->|Hne]; [|auto].
    exfalso. apply Hnotin. change k' with (fst (k', v)).
    apply in_map. exact Hin.
Qed.

Lemma contains_get k d :
  PyDict.contains k d = true <-> exists v, PyDict.get k d = Some v.
Proof.
  unfold PyDict.contains. destruct (PyDict.get k d) as [v|].
  - split; [eauto|reflexivity].
  - split; [discriminate|intros [v Hv]; discriminate].
Qed.

Lemma contains_false_get k d :
  PyDict.contains k d = false <-> PyDict.get k d = None.
Proof.
  unfold PyDict.contains. destruct (PyDict.get k d); split; congruence.
Qed.

Lemma In_set k v d e :
  In e (PyDict.set k v d) -> e = (k, v) \/ In e d.
Proof.
  induction d as [|[k' v'] d IH]; simpl.
  - intros [<-|[]]. now left.
  - destruct (eq_dec k k') as [->|Hne]; simpl.
    + intros [<-|Hin]; [now left|right; now right].
    + intros [<-|Hin]; [right; now left|].
      destruct (IH Hin); [now left|right; now right].
Qed.

Lemma In_values_set k v d v0 :
  In v0 (PyDict.values (PyDict.set k v d)) ->
  v0 = v \/ In v0 (PyDict.values d).
Proof.
  unfold PyDict.values. rewrite !in_map_iff.
  intros [e [<- Hin]]. apply In_set in Hin as [->|Hin]; [now left|].
  right. exists e. split; [reflexivity|assumption].
Qed.

Lemma In_remove k d e :
  In e (PyDict.remove k d) -> In e d /\ fst e <> k.
Proof.
  induction d as [|[k' v'] d IH]; simpl; [tauto|].
  destruct (eq_dec k k') as [->|Hne]; simpl.
  - intros Hin. destruct (IH Hin). split; [now right|assumption].
  - intros [<-|Hin]; [split; [now left|simpl; congruence]|].
    destruct (IH Hin). split; [now right|assumption].
Qed.

Lemma In_remove_inv k d e :
  In e d -> fst e <> k -> In e (PyDict.remove k d).
Proof.
  induction d as [|[k' v'] d IH]; simpl; [tauto|].
  intros [<-|Hin] Hne.
  - simpl in Hne. destruct (eq_dec k k'); [congruence|now left].
  - destruct (eq_dec k k'); [auto|right; auto].
Qed.

Lemma In_values_remove k d v0 :
  In v0 (PyDict.values (PyDict.remove k d)) -> In v0 (PyDict.values d).
Proof.
  unfold PyDict.values. rewrite !in_map_iff.
  intros [e [<- Hin]]. apply In_remove in Hin as [Hin _].
  exists e. split; [reflexivity|assumption].
Qed.

Lemma keys_set_In k v d k0 :
  In k0 (PyDict.keys (PyDict.set k v d)) <-> k0 = k \/ In k0 (PyDict.keys d).
Proof.
  induction d as [|[k' v'] d IH]; simpl.
  - intuition congruence.
  - destruct (eq_dec k k') as [->|Hne]; simpl.
    + intuition congruence.
    + rewrite IH. intuition congruence.
Qed.

Lemma wf_set k v d : PyDict.wf d -> PyDict.wf (PyDict.set k v d).
Proof.
  unfold PyDict.wf. induction d as [|[k' v'] d IH]; simpl.
  - intros _. constructor; [simpl; tauto|constructor].
  - intros Hnd. inversion Hnd as [|? ? Hnotin Hnd']; subst.
    destruct (eq_dec k k') as [->|Hne]; simpl.
    + constructor; assumption.
    + constructor; [|auto].
      intros Hin. apply keys_set_In in Hin as [->|Hin]; [congruence|].
      exact (Hnotin Hin).
Qed.

Lemma wf_remove k d : PyDict.wf d -> PyDict.wf (PyDict.remove k d).
Proof.
  unfold PyDict.wf. induction d as [|[k' v'] d IH]; simpl; [tauto|].
  intros Hnd. inversion Hnd as [|? ? Hnotin Hnd']; subst.
  destruct (eq_dec k k') as [->|Hne]; simpl; [auto|].
  constructor; [|auto].
  intros Hin. apply Hnotin. unfold PyDict.keys in *.
  apply in_map_iff in Hin as [e [He Hin]].
  apply In_remove in Hin as [Hin _]. apply in_map_iff.
  exists e. split; assumption.
Qed.

Lemma wf_empty : PyDict.wf (@PyDict.empty K V).
Proof. constructor. Qed.

Lemma In_values_get d v :
  In v (PyDict.values d) -> PyDict.wf d ->
  exists k, PyDict.get k d = Some v.
Proof.
  unfold PyDict.values. intros Hin Hwf.
  apply in_map_iff in Hin as [[k v'] [Hv Hin]]. simpl in Hv. subst v'.
  exists k. now apply wf_In_get.
Qed.

Lemma get_In_values k d v :
  PyDict.get k d = Some v -> In v (PyDict.values d).
Proof.
  intros Hg. apply get_In in Hg. unfold PyDict.values.
  apply in_map_iff. exists (k, v). auto.
Qed.

End PyDictFacts.

(** ** Strings *)

Lemma str_endswith_refl (s : string) : str_endswith s s = true.
Proof.
  destruct s; unfold str_endswith; fold str_endswith;
    rewrite String.eqb_refl; reflexivity.
Qed.

Lemma str_endswith_app (a suffix : string) :
  str_endswith (a ++ suffix) suffix = true.
Proof.
  induction a as [|c a IH].
  - apply str_endswith_refl.
  - change (str_endswith (String c a ++ suffix) suffix)
      with (String.eqb (String c (a ++ suffix)) suffix
            || str_endswith (a ++ suffix) suffix).
    rewrite IH. apply orb_true_r.
Qed.

Lemma str_split_no_sep (c : ascii) (s : string) :
  str_has_char c s = false -> str_split c s = [s].
Proof.
  induction s as [|a s IH]; simpl; [reflexivity|].
  destruct (ascii_dec a c); [discriminate|].
  intros Hs. rewrite (IH Hs). reflexivity.
Qed.

Lemma str_split_app_sep (c : ascii) (a b : string) :
  str_has_char c a = false ->
  str_split c (a ++ String c b) = a :: str_split c b.
Proof.
  induction a as [|x a IH]; simpl.
  - intros _. destruct (ascii_dec c c); congruence.
  - destruct (ascii_dec x c); [discriminate|].
    intros Ha. rewrite (IH Ha). reflexivity.
Qed.

(** The tags column reads back as the tags, provided there is a tag and no
    tag holds a comma. *)
Lemma str_split_join (l : list string) :
  l <> [] ->
  Forall (fun s => str_has_char "," s = false) l ->
  str_split "," (str_join "," l) = l.
Proof.
  induction l as [|x l IH]; [congruence|].
  intros _ Hall. inversion Hall as [|? ? Hx Hl]; subst.
  destruct l as [|y l].
  - simpl. apply str_split_no_sep. exact Hx.
  - change (str_join "," (x :: y :: l))
      with (x ++ String "," (str_join "," (y :: l)))%string.
    rewrite str_split_app_sep by exact Hx.
    rewrite IH; [reflexivity|discriminate|exact Hl].
Qed.

(** An empty list of tags is written as the empty string, which splits
    into one empty tag. *)
Lemma str_split_join_nil : str_split "," (str_join "," []) = [""].
Proof. reflexivity. Qed.

(** ** The flat-file backend *)

Lemma of_to_item_dict (item : UnifiedMemoryItem) :
  JSONMemoryStorage.of_item_dict (JSONMemoryStorage.to_item_dict item) = item.
Proof.
  destruct item as [? ? ? ? ? ? ? la lm ? ? ? ? ? ? ? ? ? ? ? ?].
  destruct la, lm; reflexivity.
Qed.

Lemma json_get_by_id_save (item : UnifiedMemoryItem) (st : JSONMemoryStorage.t) :
  JSONMemoryStorage.get_by_id (id item) (snd (JSONMemoryStorage.save item st))
  = Some item.
Proof.
  unfold JSONMemoryStorage.get_by_id, JSONMemoryStorage.save. simpl.
  rewrite get_set_eq, of_to_item_dict. reflexivity.
Qed.

Lemma json_fst_save (item : UnifiedMemoryItem) (st : JSONMemoryStorage.t) :
  fst (JSONMemoryStorage.save item st) = id item.
Proof. reflexivity. Qed.

(** [delete] of an id without a file returns false and leaves the
    directory as it was. *)
Lemma json_delete_absent (memory_id : string) (st : JSONMemoryStorage.t) :
  JSONMemoryStorage.get_by_id memory_id st = None ->
  JSONMemoryStorage.delete memory_id st = (false, st).
Proof.
  unfold JSONMemoryStorage.get_by_id, JSONMemoryStorage.delete,
    PyDict.contains.
  destruct (PyDict.get _ st); [discriminate|reflexivity].
Qed.

Lemma json_delete_present (memory_id : string) (st : JSONMemoryStorage.t)
    (item : UnifiedMemoryItem) :
  JSONMemoryStorage.get_by_id memory_id st = Some item ->
  JSONMemoryStorage.delete memory_id st
  = (true, PyDict.remove (JSONMemoryStorage._memory_file_path memory_id) st).
Proof.
  unfold JSONMemoryStorage.get_by_id, JSONMemoryStorage.delete,
    PyDict.contains.
  destruct (PyDict.get _ st); [reflexivity|discriminate].
Qed.

(** ** The relational backend *)

Lemma find_after_replace (r : SQLiteMemoryStorage.row)
    (rows : list SQLiteMemoryStorage.row) :
  SQLiteMemoryStorage.select_where_id (SQLiteMemoryStorage.c_id r)
    (SQLiteMemoryStorage.insert_or_replace r rows) = Some r.
Proof.
  unfold SQLiteMemoryStorage.select_where_id,
    SQLiteMemoryStorage.insert_or_replace,
    SQLiteMemoryStorage.delete_where_id.
  induction rows as [|r' rows IH]; simpl.
  - rewrite String.eqb_refl. reflexivity.
  - destruct (String.eqb (SQLiteMemoryStorage.c_id r')
                         (SQLiteMemoryStorage.c_id r)) eqn:E; simpl.
    + exact IH.
    + rewrite E. exact IH.
Qed.

Lemma sqlite_get_by_id_save (item : UnifiedMemoryItem)
    (st : SQLiteMemoryStorage.t) :
  fst (SQLiteMemoryStorage.get_by_id (id item)
         (snd (SQLiteMemoryStorage.save item st)))
  = Some (SQLiteMemoryStorage.item_of (SQLiteMemoryStorage.values_of item)).
Proof.
  unfold SQLiteMemoryStorage.get_by_id, SQLiteMemoryStorage.save. simpl.
  change (id item)
    with (SQLiteMemoryStorage.c_id (SQLiteMemoryStorage.values_of item)) at 1.
  rewrite find_after_replace. reflexivity.
Qed.

(** The columns that read back as they were written, whatever the record. *)
Lemma sqlite_item_of_values_of (item : UnifiedMemoryItem) :
  let item' := SQLiteMemoryStorage.item_of (SQLiteMemoryStorage.values_of item) in
  id item' = id item /\
  content item' = content item /\
  memory_type item' = memory_type item /\
  tier_source item' = tier_source item /\
  metadata item' = metadata item /\
  timestamp item' = timestamp item /\
  retention_policy item' = retention_policy item /\
  access_count item' = access_count item /\
  last_accessed item' = last_accessed item /\
  tags item' = str_split "," (str_join "," (tags item)).
Proof.
  simpl. repeat split. destruct (last_accessed item); reflexivity.
Qed.

(** ** The vector backend: reading back *)

Section FaissReadBack.
Context `{VectorLib}.

Lemma faiss_get_by_id_save (item : UnifiedMemoryItem)
    (st : FAISSMemoryStorage.t) :
  FAISSMemoryStorage.get_by_id (id item)
    (snd (FAISSMemoryStorage.save item st)) = Some item.
Proof.
  unfold FAISSMemoryStorage.get_by_id, FAISSMemoryStorage.save.
  destruct (PyDict.get (id item) (FAISSMemoryStorage.memory_id_to_index st))
    as [index_pos|] eqn:E; simpl.
  - rewrite E. apply get_set_eq.
  - rewrite get_set_eq. apply get_set_eq.
Qed.


End FaissReadBack.

Section FaissDeleteAbsent.
Context `{VectorLib}.

(** [delete] of an id without a position returns false and raises
    nothing. *)
Lemma faiss_delete_absent (memory_id : string) (st : FAISSMemoryStorage.t) :
  PyDict.contains memory_id (FAISSMemoryStorage.memory_id_to_index st) = false ->
  FAISSMemoryStorage.delete memory_id st = (Ok false, st).
Proof.
  intros Hidx. apply contains_false_get in Hidx.
  unfold FAISSMemoryStorage.delete. rewrite Hidx. reflexivity.
Qed.

End FaissDeleteAbsent.

(** ** The coordinator *)

Section CoordinatorFacts.
Context `{SqlEngine} `{VectorLib}.
Import HybridMemoryStorage.




End CoordinatorFacts.

(** ** Expiration in the flat-file backend *)


Lemma cleanup_fold (dry_run : bool) (now : datetime)
    (files : list (string * JSONMemoryStorage.item_dict)) :
  forall (n : Z) (st : JSONMemoryStorage.t),
    (forall f, In f files ->
               confidence_ok (JSONMemoryStorage.d_confidence (snd f)) = true) ->
    fold_left (JSONMemoryStorage.cleanup_step dry_run now) files (Ok n, st)
    = (Ok (n + Z.of_nat
                 (length
                    (filter
                       (fun f => temporary_and_expired now
                                   (JSONMemoryStorage.of_item_dict (snd f)))
                       files))),
       if dry_run then st else remove_expired now files st).
Proof.
  induction files as [|[file_path data] files IH]; intros n st Hvalid.
  - simpl. rewrite Z.add_0_r. destruct dry_run; reflexivity.
  - cbn [fold_left filter snd fst].
    unfold JSONMemoryStorage.cleanup_step at 2.
    unfold JSONMemoryStorage.UnifiedMemoryItem_of.
    pose proof (Hvalid (file_path, data) (or_introl eq_refl)) as Hdata.
    cbn [snd] in Hdata. rewrite Hdata.
    unfold remove_expired. cbn [fold_left snd fst].
    assert (Hrest : forall f, In f files ->
               confidence_ok (JSONMemoryStorage.d_confidence (snd f)) = true)
      by (intros f Hf; apply Hvalid; now right).
    destruct (temporary_and_expired now (JSONMemoryStorage.of_item_dict data)).
    + rewrite (IH _ _ Hrest). cbn [length]. rewrite Nat2Z.inj_succ.
      destruct dry_run; simpl; f_equal; f_equal; lia.
    + rewrite (IH _ _ Hrest). destruct dry_run; reflexivity.
Qed.

Lemma remove_expired_get (now : datetime)
    (files : list (string * JSONMemoryStorage.item_dict)) :
  forall (st : JSONMemoryStorage.t) (k : string),
    PyDict.get k (remove_expired now files st)
    = if existsb
           (fun f => temporary_and_expired now
                       (JSONMemoryStorage.of_item_dict (snd f))
                     && String.eqb (fst f) k)
           files
      then None else PyDict.get k st.
Proof.
  unfold remove_expired.
  induction files as [|[file_path data] files IH]; intros st k.
  - reflexivity.
  - cbn [fold_left existsb snd fst]. rewrite IH.
    destruct (existsb _ files); [now rewrite orb_true_r|].
    rewrite orb_false_r.
    destruct (temporary_and_expired now (JSONMemoryStorage.of_item_dict data));
      simpl; [|reflexivity].
    destruct (String.eqb_spec file_path k) as [->|Hne].
    + apply get_remove_eq.
    + apply get_remove_ne. exact Hne.
Qed.

(** In a directory, the file of a record is the one file of its name, so
    it alone decides whether the name is removed. *)
Lemma expired_name (now : datetime) (st : JSONMemoryStorage.t)
    (memory_id : string) (data : JSONMemoryStorage.item_dict) :
  PyDict.wf st ->
  PyDict.get (JSONMemoryStorage._memory_file_path memory_id) st = Some data ->
  existsb
    (fun f => temporary_and_expired now
                (JSONMemoryStorage.of_item_dict (snd f))
              && String.eqb (fst f)
                   (JSONMemoryStorage._memory_file_path memory_id))
    (JSONMemoryStorage.glob_json st)
  = temporary_and_expired now (JSONMemoryStorage.of_item_dict data).
Proof.
  intros Hwf Hget.
  destruct (temporary_and_expired now (JSONMemoryStorage.of_item_dict data))
    eqn:E.
  - apply existsb_exists.
    exists (JSONMemoryStorage._memory_file_path memory_id, data). split.
    + unfold JSONMemoryStorage.glob_json. apply filter_In. split.
      * apply get_In. exact Hget.
      * apply str_endswith_app.
    + simpl. rewrite E, String.eqb_refl. reflexivity.
  - apply not_true_is_false. intros Hex.
    apply existsb_exists in Hex as [[k d] [Hin Hf]]. simpl in Hf.
    apply andb_true_iff in Hf as [Hexp Hk]. apply String.eqb_eq in Hk. subst k.
    unfold JSONMemoryStorage.glob_json in Hin. apply filter_In in Hin as [Hin _].
    apply (wf_In_get _ _ _ Hwf) in Hin. congruence.
Qed.



(** ** The invariant of the vector backend *)

Section MapsInvariant.
Implicit Types (itm : PyDict.t Z UnifiedMemoryItem)
               (idx : PyDict.t string Z) (next : Z).

Lemma maps_inv_empty : maps_inv PyDict.empty PyDict.empty 0.
Proof.
  constructor; try apply wf_empty; simpl; intros; discriminate.
Qed.

(** Two positions in use hold records of different ids. *)
Lemma maps_inv_distinct itm idx next :
  maps_inv itm idx next ->
  forall s1 s2 r1 r2,
    PyDict.get s1 itm = Some r1 -> PyDict.get s2 itm = Some r2 ->
    s1 <> s2 -> id r1 <> id r2.
Proof.
  intros Hinv s1 s2 r1 r2 H1 H2 Hne Heq.
  apply (position_to_id Hinv) in H1, H2. congruence.
Qed.

(** An id without a position is the id of no stored record. *)
Lemma maps_inv_unknown_id itm idx next memory_id :
  maps_inv itm idx next ->
  PyDict.get memory_id idx = None ->
  forall r, In r (PyDict.values itm) -> id r <> memory_id.
Proof.
  intros Hinv Hnone r Hin Heq.
  destruct (In_values_get _ _ Hin (positions_wf Hinv)) as [s Hs].
  apply (position_to_id Hinv) in Hs. congruence.
Qed.

(** [id_to_memory[index_pos] = item] for an id that has its position. *)
Lemma maps_inv_store itm idx next item index_pos :
  maps_inv itm idx next ->
  PyDict.get (id item) idx = Some index_pos ->
  maps_inv (PyDict.set index_pos item itm) idx next.
Proof.
  intros Hinv Hpos.
  destruct (id_to_position Hinv _ _ Hpos) as [r0 [Hr0 Hid0]].
  constructor.
  - apply wf_set, (positions_wf Hinv).
  - apply (ids_wf Hinv).
  - intros s r. destruct (Z.eq_dec index_pos s) as [<-|Hne].
    + rewrite get_set_eq. intros Hr. inversion Hr; subst. exact Hpos.
    + rewrite get_set_ne by exact Hne. apply (position_to_id Hinv).
  - intros i s Hi. destruct (Z.eq_dec index_pos s) as [<-|Hne].
    + rewrite get_set_eq. exists item. split; [reflexivity|].
      destruct (id_to_position Hinv _ _ Hi) as [r [Hr Hid]].
      congruence.
    + rewrite get_set_ne by exact Hne. apply (id_to_position Hinv _ _ Hi).
  - intros s r. destruct (Z.eq_dec index_pos s) as [<-|Hne].
    + intros _. apply (positions_below Hinv _ _ Hr0).
    + rewrite get_set_ne by exact Hne. apply (positions_below Hinv).
Qed.

(** A new id takes the next free position. *)
Lemma maps_inv_place itm idx next item :
  maps_inv itm idx next ->
  PyDict.get (id item) idx = None ->
  maps_inv (PyDict.set next item itm) (PyDict.set (id item) next idx)
           (next + 1).
Proof.
  intros Hinv Hnew.
  constructor.
  - apply wf_set, (positions_wf Hinv).
  - apply wf_set, (ids_wf Hinv).
  - intros s r. destruct (Z.eq_dec next s) as [<-|Hne].
    + rewrite get_set_eq. intros Hr. inversion Hr; subst.
      apply get_set_eq.
    + rewrite get_set_ne by exact Hne. intros Hr.
      pose proof (position_to_id Hinv _ _ Hr) as Hs.
      rewrite get_set_ne; [exact Hs|]. congruence.
  - intros i s. destruct (string_dec (id item) i) as [<-|Hne].
    + rewrite get_set_eq. intros Hs. inversion Hs; subst.
      exists item. split; [apply get_set_eq|reflexivity].
    + rewrite get_set_ne by exact Hne. intros Hs.
      destruct (id_to_position Hinv _ _ Hs) as [r [Hr Hid]].
      exists r. split; [|exact Hid].
      rewrite get_set_ne; [exact Hr|].
      pose proof (positions_below Hinv _ _ Hr). lia.
  - intros s r. destruct (Z.eq_dec next s) as [<-|Hne].
    + intros _. lia.
    + rewrite get_set_ne by exact Hne. intros Hr.
      pose proof (positions_below Hinv _ _ Hr). lia.
Qed.

(** [del id_to_memory[index_pos]; del memory_id_to_index[memory_id]] *)
Lemma maps_inv_remove itm idx next memory_id index_pos :
  maps_inv itm idx next ->
  PyDict.get memory_id idx = Some index_pos ->
  maps_inv (PyDict.remove index_pos itm) (PyDict.remove memory_id idx) next.
Proof.
  intros Hinv Hpos.
  destruct (id_to_position Hinv _ _ Hpos) as [r0 [Hr0 Hid0]].
  constructor.
  - apply wf_remove, (positions_wf Hinv).
  - apply wf_remove, (ids_wf Hinv).
  - intros s r. destruct (Z.eq_dec index_pos s) as [<-|Hne].
    + rewrite get_remove_eq. discriminate.
    + rewrite get_remove_ne by exact Hne. intros Hr.
      pose proof (position_to_id Hinv _ _ Hr) as Hs.
      rewrite get_remove_ne; [exact Hs|]. congruence.
  - intros i s. destruct (string_dec memory_id i) as [<-|Hne].
    + rewrite get_remove_eq. discriminate.
    + rewrite get_remove_ne by exact Hne. intros Hs.
      destruct (id_to_position Hinv _ _ Hs) as [r [Hr Hid]].
      exists r. split; [|exact Hid].
      rewrite get_remove_ne; [exact Hr|].
      intros <-. congruence.
  - intros s r. destruct (Z.eq_dec index_pos s) as [<-|Hne].
    + rewrite get_remove_eq. discriminate.
    + rewrite get_remove_ne by exact Hne. apply (positions_below Hinv).
Qed.

(** The stored records have pairwise distinct ids. *)
Lemma maps_inv_values_nodup itm idx next :
  maps_inv itm idx next -> NoDup (map id (PyDict.values itm)).
Proof.
  intros Hinv.
  assert (Hwf : PyDict.wf itm) by apply (positions_wf Hinv).
  assert (Hinj : forall s1 s2 r1 r2,
             In (s1, r1) itm -> In (s2, r2) itm -> id r1 = id r2 -> s1 = s2).
  { intros s1 s2 r1 r2 H1 H2 Heq.
    apply (wf_In_get _ _ _ Hwf) in H1, H2.
    apply (position_to_id Hinv) in H1, H2. congruence. }
  clear Hinv. unfold PyDict.wf in Hwf.
  induction itm as [|[s r] itm IH]; simpl; [constructor|].
  inversion Hwf as [|? ? Hnotin Hwf']; subst.
  constructor.
  - intros Hin. apply in_map_iff in Hin as [r2 [Hid Hin]].
    unfold PyDict.values in Hin. apply in_map_iff in Hin as [[s2 r2'] [Hr Hin]].
    simpl in Hr. subst r2'.
    assert (s2 = s).
    { apply (Hinj s2 s r2 r); [now right|now left|exact Hid]. }
    subst s2. apply Hnotin. unfold PyDict.keys. apply in_map_iff.
    exists (s, r2). split; [reflexivity|exact Hin].
  - apply IH; [exact Hwf'|].
    intros s1 s2 r1 r2 H1 H2. apply Hinj; now right.
Qed.

End MapsInvariant.

(** Keeping part of a list keeps its keys distinct. *)
Lemma distinct_keys_filter {A B} (key : A -> B) (keep : A -> bool)
    (xs : list A) :
  NoDup (map key xs) -> NoDup (map key (filter keep xs)).
Proof.
  induction xs as [|x xs IH]; simpl; [trivial|].
  intros Hnd. inversion Hnd as [|? ? Hnotin Hnd']; subst.
  destruct (keep x); simpl; [|auto].
  constructor; [|auto].
  intros Hin. apply Hnotin. apply in_map_iff in Hin as [y [Hy Hin]].
  apply filter_In in Hin as [Hin _]. apply in_map_iff. exists y. auto.
Qed.

Section VectorFacts.
Context `{VectorLib}.
Import FAISSMemoryStorage.

Lemma faiss_inv_intro (st : t) :
  maps_inv (id_to_memory st) (memory_id_to_index st)
           (next_index_position st) ->
  next_index_position st = ntotal st ->
  faiss_inv st.
Proof.
  intros Hmaps Hn. split; [exact Hmaps|]. split; [|exact Hn].
  apply (maps_inv_distinct _ _ _ Hmaps).
Qed.

(** A fresh index satisfies the invariant. *)
Lemma faiss_inv_create : faiss_inv _create_new_index.
Proof. apply faiss_inv_intro; [apply maps_inv_empty|reflexivity]. Qed.

Lemma faiss_inv_save (item : UnifiedMemoryItem) (st : t) :
  faiss_inv st -> faiss_inv (snd (save item st)).
Proof.
  intros [Hmaps [_ Hn]]. unfold save.
  destruct (PyDict.get (id item) (memory_id_to_index st))
    as [index_pos|] eqn:E; simpl.
  - apply faiss_inv_intro; simpl.
    + apply maps_inv_store; assumption.
    + exact Hn.
  - apply faiss_inv_intro; simpl.
    + apply maps_inv_place; assumption.
    + unfold ntotal in *. simpl. rewrite length_app. simpl. lia.
Qed.

Lemma faiss_inv_delete (memory_id : string) (st : t) :
  faiss_inv st -> faiss_inv (snd (delete memory_id st)).
Proof.
  intros Hinv. unfold delete.
  destruct (PyDict.get memory_id (memory_id_to_index st))
    as [index_pos|] eqn:E; [|exact Hinv].
  destruct (PyDict.contains index_pos (id_to_memory st)); [|exact Hinv].
  destruct Hinv as [Hmaps [_ Hn]].
  apply faiss_inv_intro; simpl.
  - apply maps_inv_remove; assumption.
  - exact Hn.
Qed.

(** The loop of [batch_save] over the new items. *)
Lemma place_new_items (new_items : list UnifiedMemoryItem) :
  forall st : t,
    maps_inv (id_to_memory st) (memory_id_to_index st)
             (next_index_position st) ->
    NoDup (map id new_items) ->
    (forall item, In item new_items ->
                  PyDict.get (id item) (memory_id_to_index st) = None) ->
    let st' := fold_left place_new_item new_items st in
    maps_inv (id_to_memory st') (memory_id_to_index st')
             (next_index_position st') /\
    next_index_position st'
    = next_index_position st + Z.of_nat (length new_items) /\
    index st' = index st.
Proof.
  induction new_items as [|item new_items IH]; intros st Hmaps Hnd Hnew.
  - simpl. split; [exact Hmaps|]. split; [lia|reflexivity].
  - inversion Hnd as [|? ? Hnotin Hnd']; subst.
    cbn [fold_left].
    destruct (IH (place_new_item st item)) as [Hm [Hn Hi]].
    + simpl. apply maps_inv_place; [exact Hmaps|].
      apply Hnew. now left.
    + exact Hnd'.
    + intros item' Hin. simpl.
      rewrite get_set_ne.
      * apply Hnew. now right.
      * intros Heq. apply Hnotin. rewrite Heq. apply in_map. exact Hin.
    + cbn zeta. split; [exact Hm|]. split.
      * rewrite Hn. cbn [place_new_item next_index_position length]. lia.
      * rewrite Hi. reflexivity.
Qed.

(** The loop of [batch_save] over the whole batch. *)
Lemma store_existing_items (items : list UnifiedMemoryItem) :
  forall st : t,
    maps_inv (id_to_memory st) (memory_id_to_index st)
             (next_index_position st) ->
    let st' := fold_left store_existing_item items st in
    maps_inv (id_to_memory st') (memory_id_to_index st')
             (next_index_position st') /\
    next_index_position st' = next_index_position st /\
    index st' = index st.
Proof.
  induction items as [|item items IH]; intros st Hmaps.
  - simpl. split; [exact Hmaps|]. split; reflexivity.
  - cbn [fold_left].
    assert (Hstep :
              maps_inv (id_to_memory (store_existing_item st item))
                       (memory_id_to_index (store_existing_item st item))
                       (next_index_position (store_existing_item st item)) /\
              next_index_position (store_existing_item st item)
              = next_index_position st /\
              index (store_existing_item st item) = index st).
    { unfold store_existing_item.
      destruct (PyDict.get (id item) (memory_id_to_index st))
        as [index_pos|] eqn:E; simpl.
      - split; [apply maps_inv_store; assumption|]. split; reflexivity.
      - split; [exact Hmaps|]. split; reflexivity. }
    destruct Hstep as [Hm [Hn Hi]].
    destruct (IH _ Hm) as [Hm' [Hn' Hi']].
    cbn zeta. split; [exact Hm'|]. split; congruence.
Qed.

Lemma faiss_inv_batch_save (items : list UnifiedMemoryItem) (st : t) :
  faiss_inv st ->
  NoDup (map id items) ->
  faiss_inv (snd (batch_save items st)).
Proof.
  intros [Hmaps [_ Hn]] Hnd. unfold batch_save. cbn [snd].
  assert (Hnew : forall item,
             In item (new_items_of items st) ->
             PyDict.get (id item) (memory_id_to_index st) = None).
  { intros item Hin. unfold new_items_of in Hin.
    apply filter_In in Hin as [_ Hc]. apply negb_true_iff in Hc.
    apply contains_false_get. exact Hc. }
  assert (Hnd' : NoDup (map id (new_items_of items st))).
  { apply distinct_keys_filter. exact Hnd. }
  destruct (map (fun item => _get_embedding (content item))
                (new_items_of items st)) as [|e es] eqn:Eemb.
  - destruct (store_existing_items items st Hmaps) as [Hm [Hn' Hi]].
    apply faiss_inv_intro; [exact Hm|].
    unfold ntotal in *. rewrite Hn', Hi. exact Hn.
  - rewrite <- Eemb.
    set (st1 := {| index := index st ++ _;
                   id_to_memory := id_to_memory st;
                   memory_id_to_index := memory_id_to_index st;
                   next_index_position := next_index_position st |}).
    destruct (place_new_items (new_items_of items st) st1 Hmaps Hnd' Hnew)
      as [Hm1 [Hn1 Hi1]].
    destruct (store_existing_items items _ Hm1) as [Hm2 [Hn2 Hi2]].
    apply faiss_inv_intro; [exact Hm2|].
    unfold ntotal in *. rewrite Hn2, Hi2, Hn1, Hi1. simpl.
    rewrite length_app, length_map, Nat2Z.inj_add. lia.
Qed.

(** The loop of [rebuild_index] over the live records. *)
Lemma place_all (items : list UnifiedMemoryItem) :
  forall (i : Z) (st : t),
    maps_inv (id_to_memory st) (memory_id_to_index st) i ->
    NoDup (map id items) ->
    (forall item, In item items ->
                  PyDict.get (id item) (memory_id_to_index st) = None) ->
    let st' := fold_left place_at (enumerate_from i items) st in
    maps_inv (id_to_memory st') (memory_id_to_index st')
             (i + Z.of_nat (length items)) /\
    index st' = index st.
Proof.
  induction items as [|item items IH]; intros i st Hmaps Hnd Hnew.
  - simpl. rewrite Z.add_0_r. split; [exact Hmaps|reflexivity].
  - inversion Hnd as [|? ? Hnotin Hnd']; subst.
    cbn [enumerate_from fold_left].
    destruct (IH (i + 1) (place_at st (i, item))) as [Hm Hi].
    + simpl. apply maps_inv_place; [exact Hmaps|].
      apply Hnew. now left.
    + exact Hnd'.
    + intros item' Hin. simpl.
      rewrite get_set_ne.
      * apply Hnew. now right.
      * intros Heq. apply Hnotin. rewrite Heq. apply in_map. exact Hin.
    + cbn zeta. split.
      * replace (i + Z.of_nat (length (item :: items)))
          with (i + 1 + Z.of_nat (length items))
          by (simpl length; lia).
        exact Hm.
      * rewrite Hi. reflexivity.
Qed.

Lemma faiss_inv_rebuild_index (st : t) :
  faiss_inv st -> faiss_inv (rebuild_index st).
Proof.
  intros [Hmaps _]. unfold rebuild_index.
  destruct (id_to_memory st) as [|p itm] eqn:Eitm;
    [apply faiss_inv_create|].
  pose proof (maps_inv_values_nodup _ _ _ Hmaps) as Hnd.
  rewrite <- Eitm in Hnd |- *. clear Hmaps.
  set (items := PyDict.values (id_to_memory st)) in *.
  destruct (map (fun item => _get_embedding (content item)) items)
    as [|e es] eqn:Eemb; [apply faiss_inv_create|].
  rewrite <- Eemb.
  set (st1 := {| index := index _create_new_index ++ _;
                 id_to_memory := id_to_memory _create_new_index;
                 memory_id_to_index := memory_id_to_index _create_new_index;
                 next_index_position :=
                   next_index_position _create_new_index |}).
  destruct (place_all items 0 st1) as [Hm Hi].
  - apply maps_inv_empty.
  - exact Hnd.
  - intros item _. reflexivity.
  - apply faiss_inv_intro; cbn [id_to_memory memory_id_to_index
                                 next_index_position].
    + exact Hm.
    + unfold ntotal. cbn [index]. rewrite Hi. simpl.
      rewrite length_map. reflexivity.
Qed.

(** Without distinct ids the batch breaks the invariant: two records of one
    id, new to the store, take two positions, and the id keeps the last. *)
Lemma batch_save_repeated_id (a b : UnifiedMemoryItem) :
  id a = id b ->
  let st := snd (batch_save [a; b] _create_new_index) in
  id_to_memory st = [(0, a); (1, b)] /\
  memory_id_to_index st = [(id b, 1)] /\
  ~ faiss_inv st.
Proof.
  intros Hid st.
  assert (Hst : id_to_memory st = [(0, a); (1, b)] /\
                memory_id_to_index st = [(id b, 1)]).
  { subst st. unfold batch_save, new_items_of, store_existing_item,
      place_new_item.
    cbn -[eq_dec]. rewrite Hid.
    repeat (destruct (eq_dec (id b) (id b)) as [_|?]; [|congruence];
            cbn -[eq_dec]).
    split; reflexivity. }
  destruct Hst as [Hitm Hidx].
  split; [exact Hitm|]. split; [exact Hidx|].
  intros [Hmaps _].
  pose proof (position_to_id Hmaps 0 a) as Hpos.
  rewrite Hitm, Hidx, Hid in Hpos. specialize (Hpos eq_refl).
  cbn -[eq_dec] in Hpos.
  destruct (eq_dec (id b) (id b)); [discriminate|congruence].
Qed.

(** C9.  On a vector backend whose two maps are inverse of each other
    (the record at position [s] has an id whose position is [s], every id
    with a position [s] is the id of the record at [s], so records at
    different positions have different ids), whose positions in use are
    all below [next_index_position], and whose [next_index_position] is
    the number of vectors in the index: the same holds after [save] of
    any record, after [delete] of any id, after [rebuild_index], and
    after [batch_save] of any batch whose ids are pairwise distinct. *)
Theorem faiss_inv_preserved (st : t) :
  faiss_inv st ->
  (forall item, faiss_inv (snd (save item st))) /\
  (forall memory_id, faiss_inv (snd (delete memory_id st))) /\
  faiss_inv (rebuild_index st) /\
  (forall items, NoDup (map id items) ->
                 faiss_inv (snd (batch_save items st))).
Proof.
  intros Hinv. split; [|split; [|split]].
  - intros item. apply faiss_inv_save, Hinv.
  - intros memory_id. apply faiss_inv_delete, Hinv.
  - apply faiss_inv_rebuild_index, Hinv.
  - intros items Hnd. apply faiss_inv_batch_save; assumption.
Qed.

End VectorFacts.

(** ** Deleted ids and the searches of the vector backend *)

Lemma In_firstn {A} (n : nat) (l : list A) (x : A) :
  In x (firstn n l) -> In x l.
Proof.
  revert l. induction n as [|n IH]; intros [|y l]; simpl; try tauto.
  intros [->|Hin]; [now left|right; auto].
Qed.

Lemma In_py_slice_to {A} (n : Z) (l : list A) (x : A) :
  In x (py_slice_to n l) -> In x l.
Proof.
  unfold py_slice_to. destruct (0 <=? n); apply In_firstn.
Qed.

Section DeleteVisibility.
Context `{SqlEngine} `{VectorLib}.
Import FAISSMemoryStorage.

Lemma In_apply_filters (filter_params : MemoryQueryFilter)
    (results : list UnifiedMemoryItem) (r : UnifiedMemoryItem) :
  In r (apply_filters filter_params results) -> In r results.
Proof.
  unfold apply_filters. intros Hin.
  apply In_py_slice_to in Hin.
  destruct (end_time filter_params);
    [apply filter_In in Hin as [Hin _]|].
  all: destruct (start_time filter_params);
    [apply filter_In in Hin as [Hin _]|].
  all: destruct (f_tags filter_params) as [[|? ?]|];
    try (apply filter_In in Hin as [Hin _]).
  all: destruct (tier_sources filter_params) as [[|? ?]|];
    try (apply filter_In in Hin as [Hin _]).
  all: destruct (memory_types filter_params) as [[|? ?]|];
    try (apply filter_In in Hin as [Hin _]).
  all: exact Hin.
Qed.

Lemma In_collect_matches (st : t) (found : list (float * Z))
    (r : UnifiedMemoryItem) :
  In r (collect_matches st found) ->
  exists r0, In r0 (PyDict.values (id_to_memory st)) /\ id r = id r0.
Proof.
  unfold collect_matches. intros Hin.
  apply in_flat_map in Hin as [[d idx] [_ Hin]].
  destruct (negb (idx =? -1)); [|destruct Hin].
  destruct (PyDict.get idx (id_to_memory st)) as [item|] eqn:E;
    [|destruct Hin].
  destruct Hin as [<-|[]]. exists item. split; [|reflexivity].
  apply (get_In_values _ _ _ E).
Qed.

(** Whatever a query returns carries the id of a stored record. *)
Lemma query_items_stored (filter_params : MemoryQueryFilter) (st : t)
    (r : UnifiedMemoryItem) :
  In r (items (query filter_params st)) ->
  exists r0, In r0 (PyDict.values (id_to_memory st)) /\ id r = id r0.
Proof.
  unfold query. cbn [items]. intros Hin.
  apply In_apply_filters in Hin.
  destruct (content_search filter_params) as [[|c text]|].
  - apply In_py_slice_to in Hin. exists r. auto.
  - destruct (0 <? _); [|destruct Hin].
    apply (In_collect_matches _ _ _ Hin).
  - apply In_py_slice_to in Hin. exists r. auto.
Qed.

Lemma no_record_query (memory_id : string) (st : t) :
  no_record memory_id st ->
  (forall filter_params r,
      In r (items (query filter_params st)) -> id r <> memory_id) /\
  (forall query_text memory_types tier_sources limit res r,
      semantic_search query_text memory_types tier_sources limit st = Ok res ->
      In r (items res) -> id r <> memory_id).
Proof.
  intros Hno.
  assert (Hq : forall filter_params r,
             In r (items (query filter_params st)) -> id r <> memory_id).
  { intros filter_params r Hin.
    destruct (query_items_stored _ _ _ Hin) as [r0 [Hin0 ->]].
    apply Hno, Hin0. }
  split; [exact Hq|].
  intros query_text mts srcs lim res r. unfold semantic_search.
  destruct (MemoryQueryFilter_init _ _ _ _ _) as [filter_params|e];
    [|discriminate].
  intros Hres. inversion Hres; subst. apply Hq.
Qed.

(** After [delete] has returned, true or false, no position holds the id. *)
Lemma delete_no_record (memory_id : string) (st st' : t) (b : bool) :
  faiss_inv st ->
  delete memory_id st = (Ok b, st') ->
  no_record memory_id st' /\ index st' = index st.
Proof.
  intros [Hmaps _]. unfold delete.
  destruct (PyDict.get memory_id (memory_id_to_index st))
    as [index_pos|] eqn:E.
  - destruct (PyDict.contains index_pos (id_to_memory st));
      [|discriminate].
    intros Heq. inversion Heq; subst. split; [|reflexivity].
    intros r Hin Hid. cbn [id_to_memory] in Hin.
    unfold PyDict.values in Hin. apply in_map_iff in Hin as [[s r'] [Hr Hin]].
    simpl in Hr. subst r'.
    apply In_remove in Hin as [Hin Hne]. simpl in Hne.
    apply (wf_In_get _ _ _ (positions_wf Hmaps)) in Hin.
    apply (position_to_id Hmaps) in Hin. congruence.
  - intros Heq. inversion Heq; subst. split; [|reflexivity].
    exact (maps_inv_unknown_id _ _ _ _ Hmaps E).
Qed.

Lemma no_record_set (memory_id : string) (st : t) (s : Z)
    (item : UnifiedMemoryItem) :
  no_record memory_id st -> id item <> memory_id ->
  forall r, In r (PyDict.values (PyDict.set s item (id_to_memory st))) ->
            id r <> memory_id.
Proof.
  intros Hno Hid r Hin. apply In_values_set in Hin as [->|Hin]; auto.
Qed.

Lemma id_setattr (item : UnifiedMemoryItem) (u : field_update) :
  id (setattr item u) = match u with U_id v => v | _ => id item end.
Proof. destruct u; reflexivity. Qed.

(** Updates that do not assign [memory_id] to [id] do not produce it. *)
Lemma id_apply_updates (memory_id : string) (updates : list field_update) :
  forall item : UnifiedMemoryItem,
    id item <> memory_id ->
    ~ In (U_id memory_id) updates ->
    id (apply_updates item updates) <> memory_id.
Proof.
  unfold apply_updates.
  induction updates as [|u updates IH]; intros item Hid Hups; [exact Hid|].
  cbn [fold_left]. apply IH.
  - rewrite id_setattr. destruct u; try exact Hid.
    intros ->. apply Hups. now left.
  - intros Hin. apply Hups. now right.
Qed.

Lemma no_record_place_new (memory_id : string)
    (new_items : list UnifiedMemoryItem) :
  forall st : t,
    no_record memory_id st ->
    (forall item, In item new_items -> id item <> memory_id) ->
    no_record memory_id (fold_left place_new_item new_items st).
Proof.
  induction new_items as [|item new_items IH]; intros st Hno Hids;
    [exact Hno|].
  cbn [fold_left]. apply IH.
  - unfold no_record, place_new_item. cbn [id_to_memory].
    apply no_record_set; [exact Hno|]. apply Hids. now left.
  - intros item' Hin. apply Hids. now right.
Qed.

Lemma no_record_store_existing (memory_id : string)
    (items : list UnifiedMemoryItem) :
  forall st : t,
    no_record memory_id st ->
    (forall item, In item items -> id item <> memory_id) ->
    no_record memory_id (fold_left store_existing_item items st).
Proof.
  induction items as [|item items IH]; intros st Hno Hids; [exact Hno|].
  cbn [fold_left]. apply IH.
  - unfold store_existing_item.
    destruct (PyDict.get (id item) (memory_id_to_index st)); [|exact Hno].
    unfold no_record. cbn [id_to_memory].
    apply no_record_set; [exact Hno|]. apply Hids. now left.
  - intros item' Hin. apply Hids. now right.
Qed.

Lemma no_record_place_all (memory_id : string)
    (items : list UnifiedMemoryItem) :
  forall (i : Z) (st : t),
    no_record memory_id st ->
    (forall item, In item items -> id item <> memory_id) ->
    no_record memory_id (fold_left place_at (enumerate_from i items) st).
Proof.
  induction items as [|item items IH]; intros i st Hno Hids; [exact Hno|].
  cbn [enumerate_from fold_left]. apply IH.
  - unfold no_record, place_at. cbn [id_to_memory].
    apply no_record_set; [exact Hno|]. apply Hids. now left.
  - intros item' Hin. apply Hids. now right.
Qed.

Lemma no_record_create (memory_id : string) :
  no_record memory_id _create_new_index.
Proof. intros r []. Qed.

(** A call that does not save under [memory_id] brings no record of that
    id into the store. *)
Lemma no_record_run_op (memory_id : string) (op : faiss_op) (st : t) :
  op_avoids memory_id op ->
  no_record memory_id st -> no_record memory_id (run_op st op).
Proof.
  intros Hop Hno. destruct op as [item|mid updates|mid|batch|]; simpl in *.
  - unfold save.
    destruct (PyDict.get (id item) (memory_id_to_index st)); simpl;
      unfold no_record; cbn [id_to_memory]; apply no_record_set;
      assumption.
  - unfold update.
    destruct (PyDict.get mid (memory_id_to_index st)) as [index_pos|];
      [|exact Hno].
    destruct (PyDict.get index_pos (id_to_memory st)) as [item|] eqn:E;
      [|exact Hno].
    simpl. unfold no_record. cbn [id_to_memory].
    apply no_record_set; [exact Hno|].
    apply id_apply_updates; [|exact Hop].
    apply Hno. apply (get_In_values _ _ _ E).
  - unfold delete.
    destruct (PyDict.get mid (memory_id_to_index st)); [|exact Hno].
    destruct (PyDict.contains _ _); [|exact Hno].
    simpl. intros r Hin. cbn [id_to_memory] in Hin.
    apply In_values_remove in Hin. apply Hno, Hin.
  - assert (Hids : forall item, In item batch -> id item <> memory_id).
    { intros item Hin Heq. apply Hop. rewrite <- Heq. apply in_map, Hin. }
    unfold batch_save. cbn [snd].
    apply no_record_store_existing; [|exact Hids].
    destruct (map _ (new_items_of batch st)); [exact Hno|].
    apply no_record_place_new; [exact Hno|].
    intros item Hin. apply Hids. unfold new_items_of in Hin.
    apply filter_In in Hin as [Hin _]. exact Hin.
  - unfold rebuild_index.
    destruct (id_to_memory st) eqn:Eitm; [apply no_record_create|].
    rewrite <- Eitm.
    destruct (map _ (PyDict.values (id_to_memory st)));
      [apply no_record_create|].
    intros r Hin. cbn [id_to_memory] in Hin. revert r Hin.
    apply no_record_place_all; [apply no_record_create|].
    intros item Hin. apply Hno, Hin.
Qed.

Lemma no_record_run_ops (memory_id : string) (ops : list faiss_op) :
  forall st : t,
    Forall (op_avoids memory_id) ops ->
    no_record memory_id st -> no_record memory_id (run_ops ops st).
Proof.
  unfold run_ops.
  induction ops as [|op ops IH]; intros st Hops Hno; [exact Hno|].
  inversion Hops; subst. cbn [fold_left].
  apply IH; [assumption|]. apply no_record_run_op; assumption.
Qed.

(** X30.  Take a vector backend that satisfies its invariant, and a
    [delete(memory_id)] that has returned true, called on the backend
    itself or by a coordinator's [delete] that has returned true.  The
    index holds the vectors it held before.  From then on, across any
    further [save], [update], [delete], [batch_save] and [rebuild_index]
    calls on the backend that do not save a record under [memory_id]
    again (nor set the id of a record to it), no [query], whatever its
    filter, and no [semantic_search] returns a record whose id is
    [memory_id]. *)
Theorem faiss_deleted_id_never_returned (memory_id : string) (st st' : t)
    (ops : list faiss_op) :
  faiss_inv st ->
  (delete memory_id st = (Ok true, st') \/
   exists hst hst',
     HybridMemoryStorage.faiss_store hst = st /\
     HybridMemoryStorage.delete memory_id hst = (Ok true, hst') /\
     HybridMemoryStorage.faiss_store hst' = st') ->
  Forall (op_avoids memory_id) ops ->
  index st' = index st /\
  (forall filter_params r,
      In r (items (query filter_params (run_ops ops st'))) ->
      id r <> memory_id) /\
  (forall query_text memory_types tier_sources limit res r,
      semantic_search query_text memory_types tier_sources limit
                      (run_ops ops st') = Ok res ->
      In r (items res) -> id r <> memory_id).
Proof.
  intros Hinv Hdel Hops.
  assert (Hst' : no_record memory_id st' /\ index st' = index st).
  { destruct Hdel as [Hdel|[hst [hst' [<- [Hdel <-]]]]].
    - apply (delete_no_record _ _ _ _ Hinv Hdel).
    - revert Hdel.
      unfold HybridMemoryStorage.delete, bind, ret,
        HybridMemoryStorage.await_json, HybridMemoryStorage.await_sqlite,
        HybridMemoryStorage.await_faiss.
      destruct (JSONMemoryStorage.delete memory_id _) as [[|] js];
        cbn -[delete].
      + destruct (delete memory_id (HybridMemoryStorage.faiss_store hst))
          as [[b|e] fs] eqn:Ef; cbn -[delete];
          intros Heq; inversion Heq; subst; cbn -[delete].
        apply (delete_no_record _ _ _ _ Hinv Ef).
      + intros Heq; inversion Heq. }
  destruct Hst' as [Hno Hindex]. split; [exact Hindex|].
  apply no_record_query. apply no_record_run_ops; assumption.
Qed.

End DeleteVisibility.

(** ** The hub *)

Section HubFacts.
Context {S : Type} `{IUnifiedMemoryProvider S}.
Import UnifiedMemoryHub.

Lemma cache_in_session_spec (session_id memory_id : string) (hub : t S) :
  exists hub',
    cache_in_session session_id memory_id hub = (Ok tt, hub') /\
    storage hub' = storage hub /\
    get_session_cache session_id hub'
    = get_session_cache session_id hub ++ [memory_id] /\
    (forall other : string, other <> session_id ->
                   get_session_cache other hub' = get_session_cache other hub).
Proof.
  unfold cache_in_session, get_session_cache. eexists.
  split; [reflexivity|]. cbn [storage session_memories].
  split; [reflexivity|]. split.
  - rewrite get_set_eq. unfold PyDict.contains.
    destruct (PyDict.get session_id (session_memories hub)) as [ids|] eqn:E;
      cbn [negb].
    + rewrite E. reflexivity.
    + rewrite get_set_eq. reflexivity.
  - intros other Hne.
    rewrite get_set_ne by congruence.
    destruct (negb (PyDict.contains session_id (session_memories hub)));
      [|reflexivity].
    rewrite get_set_ne by congruence. reflexivity.
Qed.

(** C10.  For every content, type, tier source, metadata and tags, and
    every draw of the id and the timestamp, there is one record, the one
    the constructor builds from these without any further keyword, such
    that, whatever the session id and the state of the hub, [save_memory]
    hands that record to [save] of the storage backend: the result of the
    call and the state of the backend afterwards are those of that
    [save].  When the save returns an id, the list cached for the session
    id is the former list with the id added at its end, and the list of
    every other session id is unchanged; when it raises, the cache is
    unchanged.  So two calls that differ only in the session id return
    the same result and leave the backend in the same state. *)
Theorem hub_save_memory_session_id (uuid4 : string) (utcnow : datetime)
    (content : string) (memory_type : MemoryType) (tier_source : string)
    (metadata : option (PyDict.t string json)) (tags : option (list string)) :
  exists memory_item : UnifiedMemoryItem,
    memory_item
    = UnifiedMemoryItem_init uuid4 utcnow content memory_type tier_source
        (match metadata with Some ((_ :: _) as m) => m | _ => [] end)
        (match tags with Some ((_ :: _) as l) => l | _ => [] end) [] /\
    (forall (session_id : string) (hub : t S),
        let run := save_memory uuid4 utcnow content memory_type tier_source
                               session_id metadata tags hub in
        (fst run, storage (snd run)) = save memory_item (storage hub) /\
        match fst run with
        | Ok memory_id =>
            get_session_cache session_id (snd run)
            = get_session_cache session_id hub ++ [memory_id] /\
            (forall other : string, other <> session_id ->
                           get_session_cache other (snd run)
                           = get_session_cache other hub)
        | Raise _ => session_memories (snd run) = session_memories hub
        end) /\
    (forall (session_1 session_2 : string) (hub : t S),
        let run_1 := save_memory uuid4 utcnow content memory_type tier_source
                                 session_1 metadata tags hub in
        let run_2 := save_memory uuid4 utcnow content memory_type tier_source
                                 session_2 metadata tags hub in
        fst run_1 = fst run_2 /\ storage (snd run_1) = storage (snd run_2)).
Proof.
  set (memory_item :=
         UnifiedMemoryItem_init uuid4 utcnow content memory_type tier_source
           (match metadata with Some ((_ :: _) as m) => m | _ => [] end)
           (match tags with Some ((_ :: _) as l) => l | _ => [] end) []).
  exists memory_item.
  assert (Hone : forall (session_id : string) (hub : t S),
             let run := save_memory uuid4 utcnow content memory_type
                                    tier_source session_id metadata tags hub in
             (fst run, storage (snd run)) = save memory_item (storage hub) /\
             match fst run with
             | Ok memory_id =>
                 get_session_cache session_id (snd run)
                 = get_session_cache session_id hub ++ [memory_id] /\
                 (forall other : string, other <> session_id ->
                                get_session_cache other (snd run)
                                = get_session_cache other hub)
             | Raise _ => session_memories (snd run) = session_memories hub
             end).
  { intros session_id hub. unfold save_memory, bind, ret, await_storage.
    change (UnifiedMemoryItem_init uuid4 utcnow content memory_type
              tier_source _ _ [("session_id", JStr session_id)])
      with memory_item.
    destruct (save memory_item (storage hub)) as [[memory_id|e] s] eqn:Esave.
    - destruct (cache_in_session_spec session_id memory_id
                  {| storage := s; session_memories := session_memories hub |})
        as [hub' [Hrun [Hst [Hown Hother]]]].
      cbv zeta. rewrite Hrun. cbn [fst snd]. rewrite Hst. cbn [storage].
      split; [reflexivity|]. split; [exact Hown|exact Hother].
    - cbv zeta. cbn [fst snd storage session_memories].
      split; reflexivity. }
  split; [reflexivity|]. split; [exact Hone|].
  intros session_1 session_2 hub.
  destruct (Hone session_1 hub) as [H1 _].
  destruct (Hone session_2 hub) as [H2 _].
  cbv zeta in *. rewrite <- H2 in H1. inversion H1. split; reflexivity.
Qed.

End HubFacts.

(** ** Where the code departs from its contract *)

Section Departures.
Context `{SqlEngine} `{VectorLib}.

(** C2.  The relational backend does not give back every record it was
    given: a record without tags, whatever its other fields and whatever
    the state of the table, is read back right after [save] with one tag,
    the empty string, and so differs from the record saved. *)
Theorem sqlite_round_trip_empty_tags (R : UnifiedMemoryItem)
    (st : SQLiteMemoryStorage.t) :
  let R0 := setattr R (U_tags []) in
  tags R0 = [] /\
  exists R',
    fst (SQLiteMemoryStorage.get_by_id (id R0)
           (snd (SQLiteMemoryStorage.save R0 st))) = Some R' /\
    tags R' = [""] /\
    content R' = content R0 /\
    R' <> R0.
Proof.
  intros R0. split; [reflexivity|].
  eexists. split; [apply sqlite_get_by_id_save|].
  split; [reflexivity|]. split; [reflexivity|].
  intros Heq. apply (f_equal tags) in Heq. discriminate.
Qed.

(** C4.  The relational backend's [delete] returns true for an id it does
    not hold: on a table without a row of that id (a fresh one here),
    and indeed in every state. *)
Theorem sqlite_delete_absent_returns_true (memory_id : string) :
  fst (SQLiteMemoryStorage.get_by_id memory_id None) = None /\
  SQLiteMemoryStorage.delete memory_id None = (true, Some []) /\
  (forall st, fst (SQLiteMemoryStorage.delete memory_id st) = true).
Proof. repeat split. Qed.

(** C8.  [get_session_memories] returns records of other sessions.  On a
    hub over a fresh coordinator, one memory is saved under session
    ["s1"] and one under session ["s2"]; the cache of ["s1"] holds the
    first id only, and [get_session_memories("s1")] returns both
    records. *)
Theorem hub_session_memories_not_filtered :
  let hub0 := UnifiedMemoryHub.init HybridMemoryStorage.init in
  let hub1 := snd (UnifiedMemoryHub.save_memory
                     "u1" 10 "alpha" CONVERSATION "chat" "s1" None None
                     hub0) in
  let hub2 := snd (UnifiedMemoryHub.save_memory
                     "u2" 20 "beta" CONVERSATION "chat" "s2" None None
                     hub1) in
  UnifiedMemoryHub.get_session_cache "s1" hub2 = ["u1"] /\
  UnifiedMemoryHub.get_session_cache "s2" hub2 = ["u2"] /\
  exists found,
    fst (UnifiedMemoryHub.get_session_memories "s1" 50 hub2) = Ok found /\
    map id found = ["u1"; "u2"] /\
    map content found = ["alpha"; "beta"].
Proof.
  cbv zeta. split; [reflexivity|]. split; [reflexivity|].
  eexists. split; [reflexivity|]. split; reflexivity.
Qed.

End Departures.

(** ** The properties on concrete stores *)

Section Instances.
#[local] Existing Instance Standin.sql_engine.
#[local] Existing Instance Standin.vector_lib.
Import HybridMemoryStorage.


Lemma faiss_inv_preserved_witness :
  faiss_inv FAISSMemoryStorage._create_new_index /\
  NoDup (map id [record_x; record_y]) /\
  faiss_inv (snd (FAISSMemoryStorage.batch_save
                    [record_x; record_y]
                    FAISSMemoryStorage._create_new_index)) /\
  faiss_inv (snd (FAISSMemoryStorage.delete
                    "x" FAISSMemoryStorage._create_new_index)).
Proof.
  assert (Hnd : NoDup (map id [record_x; record_y])).
  { simpl. constructor; [simpl; intros [Heq|[]]; discriminate|].
    constructor; [simpl; tauto|constructor]. }
  pose proof (faiss_inv_preserved FAISSMemoryStorage._create_new_index
                faiss_inv_create) as [_ [Hdel [_ Hbatch]]].
  split; [apply faiss_inv_create|]. split; [exact Hnd|].
  split; [apply Hbatch, Hnd|apply Hdel].
Defined.



Lemma faiss_deleted_id_never_returned_witness :
  let st := snd (FAISSMemoryStorage.save
                   record_x FAISSMemoryStorage._create_new_index) in
  let st' := snd (FAISSMemoryStorage.delete "x" st) in
  let ops := [op_save record_y; op_rebuild_index] in
  faiss_inv st /\
  FAISSMemoryStorage.delete "x" st = (Ok true, st') /\
  Forall (op_avoids "x") ops /\
  FAISSMemoryStorage.index st' = FAISSMemoryStorage.index st /\
  forall query_text res r,
    FAISSMemoryStorage.semantic_search query_text None None 10
      (run_ops ops st') = Ok res ->
    In r (items res) -> id r <> "x".
Proof.
  intros st st' ops.
  assert (Hinv : faiss_inv st) by apply faiss_inv_save, faiss_inv_create.
  assert (Hops : Forall (op_avoids "x") ops).
  { repeat constructor. simpl. discriminate. }
  destruct (faiss_deleted_id_never_returned "x" st st' ops Hinv
              (or_introl eq_refl) Hops) as [Hindex [_ Hsearch]].
  split; [exact Hinv|]. split; [reflexivity|]. split; [exact Hops|].
  split; [exact Hindex|].
  intros query_text res r. apply Hsearch.
Defined.

End Instances.

(* ================================================================== *)
(** * Part III: further properties of the five classes *)
(* ================================================================== *)

(** ** Strings and slices *)

Lemma str_length_app (a b : string) :
  String.length (a ++ b) = (String.length a + String.length b)%nat.
Proof. induction a as [|c a IH]; simpl; [reflexivity|now rewrite IH]. Qed.

Lemma str_app_inj_r (s : string) :
  forall a b : string, (a ++ s = b ++ s)%string -> a = b.
Proof.
  induction a as [|c a IH]; intros [|d b] Heq; simpl in Heq.
  - reflexivity.
  - apply (f_equal String.length) in Heq. simpl in Heq.
    rewrite str_length_app in Heq. lia.
  - apply (f_equal String.length) in Heq. simpl in Heq.
    rewrite str_length_app in Heq. lia.
  - inversion Heq; subst. f_equal. now apply IH.
Qed.

Lemma memory_file_path_inj (a b : string) :
  JSONMemoryStorage._memory_file_path a = JSONMemoryStorage._memory_file_path b ->
  a = b.
Proof. apply str_app_inj_r. Qed.

Lemma py_slice_to_length {A} (n : Z) (l : list A) :
  0 <= n ->
  Z.of_nat (length (py_slice_to n l)) = Z.min n (Z.of_nat (length l)).
Proof.
  intros Hn. unfold py_slice_to.
  destruct (0 <=? n) eqn:E; [|apply Z.leb_gt in E; lia].
  rewrite length_firstn. lia.
Qed.

(** ** The flat-file backend: reading, writing, removing *)

Lemma json_get_by_id_save_other (item : UnifiedMemoryItem)
    (st : JSONMemoryStorage.t) (other : string) :
  other <> id item ->
  JSONMemoryStorage.get_by_id other (snd (JSONMemoryStorage.save item st))
  = JSONMemoryStorage.get_by_id other st.
Proof.
  intros Hne. unfold JSONMemoryStorage.get_by_id, JSONMemoryStorage.save.
  simpl. rewrite get_set_ne; [reflexivity|].
  intros Heq. apply memory_file_path_inj in Heq. congruence.
Qed.

(** X1.  In the flat-file backend, for a record [R] whose id gives a file
    name, [save(R)] returns [R.id]; right after it [get_by_id(R.id)]
    returns [R], every field as it was, when [R] passes the validation of
    the model class, whether the file existed or not; [get_by_id] of every
    other id that gives a file name returns what it returned before; and
    the directory still has each file name once, each the name of a
    file. *)
Theorem json_save_round_trip (R : UnifiedMemoryItem)
    (st : JSONMemoryStorage.t) :
  file_name_id (id R) ->
  let st' := snd (JSONMemoryStorage.save R st) in
  fst (JSONMemoryStorage.save R st) = id R /\
  (validates R -> JSONMemoryStorage.get_by_id (id R) st' = Some R) /\
  (forall other : string,
      file_name_id other ->
      other <> id R ->
      JSONMemoryStorage.get_by_id other st'
      = JSONMemoryStorage.get_by_id other st) /\
  (directory st -> directory st').
Proof.
  intros Hname st'. split; [reflexivity|].
  split; [intros _; apply json_get_by_id_save|].
  split.
  - intros other _ Hne. apply json_get_by_id_save_other, Hne.
  - intros [Hwf Hnames]. split; [apply wf_set, Hwf|].
    intros name Hin. subst st'. unfold JSONMemoryStorage.save in Hin.
    cbn [snd] in Hin. apply keys_set_In in Hin as [->|Hin];
      [exact Hname|apply Hnames, Hin].
Qed.

Lemma json_get_by_id_remove (memory_id other : string)
    (st : JSONMemoryStorage.t) :
  JSONMemoryStorage.get_by_id other
    (PyDict.remove (JSONMemoryStorage._memory_file_path memory_id) st)
  = if string_dec memory_id other then None
    else JSONMemoryStorage.get_by_id other st.
Proof.
  unfold JSONMemoryStorage.get_by_id.
  destruct (string_dec memory_id other) as [->|Hne].
  - rewrite get_remove_eq. reflexivity.
  - rewrite get_remove_ne; [reflexivity|].
    intros Heq. apply memory_file_path_inj in Heq. congruence.
Qed.

(** X2.  In the flat-file backend, for an id that gives a file name and
    whose document, if there is one, passes the validation of the model
    class: [delete(id)] returns true exactly when [get_by_id(id)] found a
    record; afterwards [get_by_id(id)] finds none, every other id that
    gives a file name reads as before, and a second [delete(id)] returns
    false and changes nothing. *)
Theorem json_delete_then_get (memory_id : string)
    (st : JSONMemoryStorage.t) :
  file_name_id memory_id ->
  (forall item, JSONMemoryStorage.get_by_id memory_id st = Some item ->
                validates item) ->
  let deleted := fst (JSONMemoryStorage.delete memory_id st) in
  let st' := snd (JSONMemoryStorage.delete memory_id st) in
  (deleted = true <->
   exists item, JSONMemoryStorage.get_by_id memory_id st = Some item) /\
  JSONMemoryStorage.get_by_id memory_id st' = None /\
  (forall other : string,
      file_name_id other ->
      other <> memory_id ->
      JSONMemoryStorage.get_by_id other st'
      = JSONMemoryStorage.get_by_id other st) /\
  JSONMemoryStorage.delete memory_id st' = (false, st').
Proof.
  intros _ _. cbv zeta.
  destruct (JSONMemoryStorage.get_by_id memory_id st) as [item|] eqn:E.
  - rewrite (json_delete_present _ _ _ E). cbn [fst snd].
    split; [split; [eauto|reflexivity]|].
    assert (Hgone : JSONMemoryStorage.get_by_id memory_id
                      (PyDict.remove
                         (JSONMemoryStorage._memory_file_path memory_id) st)
                    = None).
    { rewrite json_get_by_id_remove.
      destruct (string_dec memory_id memory_id); congruence. }
    split; [exact Hgone|]. split.
    + intros other _ Hne. rewrite json_get_by_id_remove.
      destruct (string_dec memory_id other); congruence.
    + apply json_delete_absent, Hgone.
  - rewrite (json_delete_absent _ _ E). cbn [fst snd].
    split; [split; [discriminate|intros [item Hitem]; discriminate]|].
    split; [exact E|]. split; [reflexivity|].
    apply json_delete_absent, E.
Qed.

Lemma json_update_run (memory_id : string) (updates : list field_update)
    (st : JSONMemoryStorage.t) :
  JSONMemoryStorage.update memory_id updates st
  = match JSONMemoryStorage.get_by_id memory_id st with
    | None => (Ok false, st)
    | Some item =>
        if confidence_ok (confidence item)
        then (Ok true,
              snd (JSONMemoryStorage.save (apply_updates item updates) st))
        else (Raise ValidationError, st)
    end.
Proof.
  unfold JSONMemoryStorage.update, JSONMemoryStorage.get_by_id,
    JSONMemoryStorage.UnifiedMemoryItem_of.
  destruct (PyDict.get (JSONMemoryStorage._memory_file_path memory_id) st)
    as [data|]; [|reflexivity].
  cbn [confidence JSONMemoryStorage.of_item_dict].
  destruct (confidence_ok (JSONMemoryStorage.d_confidence data));
    reflexivity.
Qed.

(** X3.  In the flat-file backend, for an id that gives a file name:
    [update] of an id without a file returns false and changes nothing;
    with a file whose document fails the validation of the model class it
    raises the validation error and changes nothing.  With a file whose
    document passes, and when the id of the updated record gives a file
    name, it returns true and the record with the updates applied is
    stored under the id that record then has, unvalidated: it is read
    back when it passes the validation, and every later [update] of its
    id raises when it does not.  Every other id that gives a file name
    reads as before: so when the updates assign another id, the file of
    the old id stays, with the old record. *)
Theorem json_update_semantics (memory_id : string)
    (updates : list field_update) (st : JSONMemoryStorage.t) :
  file_name_id memory_id ->
  match JSONMemoryStorage.get_by_id memory_id st with
  | None => JSONMemoryStorage.update memory_id updates st = (Ok false, st)
  | Some item =>
      if confidence_ok (confidence item) then
        let item' := apply_updates item updates in
        let st' := snd (JSONMemoryStorage.update memory_id updates st) in
        file_name_id (id item') ->
        fst (JSONMemoryStorage.update memory_id updates st) = Ok true /\
        (validates item' ->
         JSONMemoryStorage.get_by_id (id item') st' = Some item') /\
        (~ validates item' ->
         forall again : list field_update,
           JSONMemoryStorage.update (id item') again st'
           = (Raise ValidationError, st')) /\
        (forall other : string,
            file_name_id other ->
            other <> id item' ->
            JSONMemoryStorage.get_by_id other st'
            = JSONMemoryStorage.get_by_id other st) /\
        (id item' <> memory_id ->
         JSONMemoryStorage.get_by_id memory_id st' = Some item)
      else
        JSONMemoryStorage.update memory_id updates st
        = (Raise ValidationError, st)
  end.
Proof.
  intros _. rewrite json_update_run.
  destruct (JSONMemoryStorage.get_by_id memory_id st) as [item|] eqn:E;
    [|reflexivity].
  destruct (confidence_ok (confidence item)) eqn:Eok; [|reflexivity].
  cbv zeta. cbn [fst snd]. intros _.
  split; [reflexivity|].
  split; [intros _; apply json_get_by_id_save|].
  split; [|split].
  - intros Hbad again. rewrite json_update_run, json_get_by_id_save.
    unfold validates in Hbad.
    destruct (confidence_ok (confidence (apply_updates item updates)));
      [exfalso; apply Hbad; reflexivity|reflexivity].
  - intros other _ Hne. apply json_get_by_id_save_other, Hne.
  - intros Hne. rewrite json_get_by_id_save_other by congruence. exact E.
Qed.

Lemma json_batch_save_fold (items : list UnifiedMemoryItem) :
  forall (ids : list string) (st : JSONMemoryStorage.t),
    fold_left
      (fun '(ids, st) item =>
         let '(i, st') := JSONMemoryStorage.save item st in
         (ids ++ [i], st'))
      items (ids, st)
    = (ids ++ map id items,
       fold_left (fun st item => snd (JSONMemoryStorage.save item st))
                 items st).
Proof.
  induction items as [|item items IH]; intros ids st; simpl.
  - rewrite app_nil_r. reflexivity.
  - rewrite IH, <- app_assoc. reflexivity.
Qed.

Lemma json_save_all_other (items : list UnifiedMemoryItem) (other : string) :
  forall st : JSONMemoryStorage.t,
    ~ In other (map id items) ->
    JSONMemoryStorage.get_by_id other
      (fold_left (fun st item => snd (JSONMemoryStorage.save item st))
                 items st)
    = JSONMemoryStorage.get_by_id other st.
Proof.
  induction items as [|item items IH]; intros st Hnotin; [reflexivity|].
  cbn [fold_left]. rewrite IH.
  - apply json_get_by_id_save_other. intros Heq. apply Hnotin. now left.
  - intros Hin. apply Hnotin. now right.
Qed.

Lemma json_save_all_get (items : list UnifiedMemoryItem) :
  forall (st : JSONMemoryStorage.t) (R : UnifiedMemoryItem),
    NoDup (map id items) -> In R items ->
    JSONMemoryStorage.get_by_id (id R)
      (fold_left (fun st item => snd (JSONMemoryStorage.save item st))
                 items st)
    = Some R.
Proof.
  induction items as [|item items IH]; intros st R Hnd Hin; [destruct Hin|].
  inversion Hnd as [|? ? Hnotin Hnd']; subst. cbn [fold_left].
  destruct Hin as [->|Hin].
  - rewrite json_save_all_other by exact Hnotin.
    apply json_get_by_id_save.
  - apply IH; assumption.
Qed.

(** X4.  In the flat-file backend, [batch_save] of records with pairwise
    distinct ids, each giving a file name, returns their ids in the order
    of the batch; afterwards each record of the batch that passes the
    validation of the model class is returned by [get_by_id] of its id,
    and an id that gives a file name and is not in the batch reads as
    before. *)
Theorem json_batch_save_retrievable (items : list UnifiedMemoryItem)
    (st : JSONMemoryStorage.t) :
  NoDup (map id items) ->
  (forall R, In R items -> file_name_id (id R)) ->
  let st' := snd (JSONMemoryStorage.batch_save items st) in
  fst (JSONMemoryStorage.batch_save items st) = map id items /\
  (forall R, In R items -> validates R ->
             JSONMemoryStorage.get_by_id (id R) st' = Some R) /\
  (forall other : string,
      file_name_id other ->
      ~ In other (map id items) ->
      JSONMemoryStorage.get_by_id other st'
      = JSONMemoryStorage.get_by_id other st).
Proof.
  intros Hnd _. unfold JSONMemoryStorage.batch_save.
  rewrite json_batch_save_fold. cbn [fst snd app].
  split; [reflexivity|]. split.
  - intros R Hin _. apply json_save_all_get; assumption.
  - intros other _ Hnotin. apply json_save_all_other, Hnotin.
Qed.

Lemma filter_all {A} (p : A -> bool) (l : list A) :
  (forall x, In x l -> p x = true) -> filter p l = l.
Proof.
  induction l as [|x l IH]; intros Hall; simpl; [reflexivity|].
  rewrite (Hall x) by now left. f_equal. apply IH.
  intros y Hy. apply Hall. now right.
Qed.

Section FlatFileQuery.
Context `{StrLib}.

(** X5.  In the flat-file backend, on a directory whose [*.json] documents
    all pass the validation of the model class, for a filter whose limit
    the model class accepts: [total_count] is the number of [*.json] files
    that match, however small the limit, and the number of items returned
    is the smaller of the limit and [total_count].  With a non-empty
    search term the files that match are those whose content, in lower
    case, contains the term in lower case; without a term, or with the
    empty string, every file matches.  Every item returned is the record
    of a file of the directory that matches. *)
Theorem json_query_counts (filter_params : MemoryQueryFilter)
    (st : JSONMemoryStorage.t) :
  valid_limit (limit filter_params) ->
  directory st ->
  valid_documents st ->
  let res := JSONMemoryStorage.query filter_params st in
  Z.of_nat (length (items res))
  = Z.min (limit filter_params) (total_count res) /\
  (forall r, In r (items res) ->
             exists file_path data,
               In (file_path, data) st /\
               str_endswith file_path ".json" = true /\
               r = JSONMemoryStorage.of_item_dict data) /\
  (forall c text,
      content_search filter_params = Some (String c text) ->
      total_count res
      = Z.of_nat
          (length
             (filter
                (fun f =>
                   str_in (str_lower (String c text))
                          (str_lower (JSONMemoryStorage.d_content (snd f))))
                (JSONMemoryStorage.glob_json st))) /\
      forall r, In r (items res) ->
                str_in (str_lower (String c text)) (str_lower (content r))
                = true) /\
  (content_search filter_params = None \/
   content_search filter_params = Some "" ->
   total_count res = Z.of_nat (length (JSONMemoryStorage.glob_json st))).
Proof.
  intros [Hlo Hhi] _ _ res. subst res. unfold JSONMemoryStorage.query.
  cbn [items total_count].
  split; [apply py_slice_to_length; lia|].
  assert (Hin : forall r,
             In r (py_slice_to (limit filter_params)
                     (map (fun f => JSONMemoryStorage.of_item_dict (snd f))
                          (filter
                             (fun f => JSONMemoryStorage.matches
                                         filter_params (snd f))
                             (JSONMemoryStorage.glob_json st)))) ->
             exists file_path data,
               In (file_path, data) st /\
               str_endswith file_path ".json" = true /\
               r = JSONMemoryStorage.of_item_dict data /\
               JSONMemoryStorage.matches filter_params data = true).
  { intros r Hr. apply In_py_slice_to in Hr.
    apply in_map_iff in Hr as [[file_path data] [<- Hf]].
    apply filter_In in Hf as [Hf Hm].
    unfold JSONMemoryStorage.glob_json in Hf.
    apply filter_In in Hf as [Hf Hjson].
    exists file_path, data. auto. }
  split; [|split].
  - intros r Hr. destruct (Hin r Hr) as [fp [data [H1 [H2 [H3 _]]]]].
    exists fp, data. auto.
  - intros c text Hterm. split.
    + rewrite length_map. do 2 f_equal. apply filter_ext.
      intros f. unfold JSONMemoryStorage.matches. rewrite Hterm.
      reflexivity.
    + intros r Hr.
      destruct (Hin r Hr) as [fp [data [_ [_ [-> Hm]]]]].
      unfold JSONMemoryStorage.matches in Hm. rewrite Hterm in Hm.
      exact Hm.
  - intros Hterm. rewrite length_map, filter_all; [reflexivity|].
    intros f _. unfold JSONMemoryStorage.matches.
    destruct Hterm as [-> | ->]; reflexivity.
Qed.

End FlatFileQuery.

(** ** The relational backend: the primary key, reading back, sweeping *)

Lemma nodup_snoc {A} (l : list A) (x : A) :
  NoDup l -> ~ In x l -> NoDup (l ++ [x]).
Proof.
  induction l as [|y l IH]; intros Hnd Hx; simpl.
  - constructor; [tauto|constructor].
  - inversion Hnd as [|? ? Hy Hnd']; subst. constructor.
    + rewrite in_app_iff. simpl. intros [Hin|[->|[]]]; [tauto|].
      apply Hx. now left.
    + apply IH; [exact Hnd'|]. intros Hin. apply Hx. now right.
Qed.

Section RelationalFacts.
Import SQLiteMemoryStorage.

Lemma delete_where_id_ids (memory_id : string) (rows : list row) (r : row) :
  In r (delete_where_id memory_id rows) <-> In r rows /\ c_id r <> memory_id.
Proof.
  unfold delete_where_id. rewrite filter_In, negb_true_iff.
  destruct (String.eqb_spec (c_id r) memory_id); intuition congruence.
Qed.

Lemma delete_where_id_wf (memory_id : string) (rows : list row) :
  NoDup (map c_id rows) -> NoDup (map c_id (delete_where_id memory_id rows)).
Proof. apply distinct_keys_filter. Qed.

Lemma insert_or_replace_wf (r : row) (rows : list row) :
  NoDup (map c_id rows) -> NoDup (map c_id (insert_or_replace r rows)).
Proof.
  intros Hnd. unfold insert_or_replace. rewrite map_app. simpl.
  apply nodup_snoc; [apply delete_where_id_wf, Hnd|].
  intros Hin. apply in_map_iff in Hin as [r' [Hid Hin]].
  apply delete_where_id_ids in Hin as [_ Hne]. congruence.
Qed.

Lemma select_delete_where_id (memory_id other : string) (rows : list row) :
  select_where_id other (delete_where_id memory_id rows)
  = if String.eqb memory_id other then None else select_where_id other rows.
Proof.
  unfold select_where_id, delete_where_id.
  induction rows as [|r rows IH]; simpl.
  - destruct (String.eqb memory_id other); reflexivity.
  - destruct (String.eqb_spec (c_id r) memory_id) as [Hr|Hr]; simpl.
    + rewrite IH. destruct (String.eqb_spec memory_id other) as [Ho|Ho];
        [reflexivity|].
      destruct (String.eqb_spec (c_id r) other); [congruence|reflexivity].
    + destruct (String.eqb_spec (c_id r) other) as [Ho|Ho]; [|exact IH].
      destruct (String.eqb_spec memory_id other); [congruence|reflexivity].
Qed.



Lemma table_wf_fresh : table_wf None.
Proof. constructor. Qed.

Lemma table_wf_batch (items : list UnifiedMemoryItem) :
  forall rows : list row,
    NoDup (map c_id rows) ->
    NoDup (map c_id
             (fold_left
                (fun rows item => insert_or_replace (values_of item) rows)
                items rows)).
Proof.
  induction items as [|item items IH]; intros rows Hnd; [exact Hnd|].
  cbn [fold_left]. apply IH, insert_or_replace_wf, Hnd.
Qed.

Lemma sqlite_cleanup_fold (dry_run : bool) (now : datetime)
    (fetched : list row) :
  forall (n : Z) (rows : list row),
    fold_left (cleanup_step dry_run now) fetched (n, rows)
    = (n + Z.of_nat
             (length
                (filter
                   (fun r => older_than_a_day now (fromisoformat (c_timestamp r)))
                   fetched)),
       if dry_run then rows
       else filter
              (fun r =>
                 negb (existsb
                         (fun r0 =>
                            older_than_a_day now (fromisoformat (c_timestamp r0))
                            && String.eqb (c_id r0) (c_id r))
                         fetched))
              rows).
Proof.
  induction fetched as [|r0 fetched IH]; intros n rows.
  - simpl. rewrite Z.add_0_r. destruct dry_run; [reflexivity|].
    f_equal. symmetry. apply filter_all. reflexivity.
  - cbn [fold_left filter existsb].
    unfold cleanup_step at 2.
    destruct (older_than_a_day now (fromisoformat (c_timestamp r0))) eqn:E.
    + rewrite IH. cbn [length]. f_equal; [lia|].
      destruct dry_run; [reflexivity|]. cbn [negb andb].
      unfold delete_where_id.
      induction rows as [|r rows IHrows]; [reflexivity|].
      cbn [filter]. rewrite (String.eqb_sym (c_id r0) (c_id r)).
      destruct (String.eqb (c_id r) (c_id r0)); cbn [negb orb filter].
      * exact IHrows.
      * rewrite IHrows. reflexivity.
    + rewrite IH. reflexivity.
Qed.

(** Under the primary key, sweeping removes the rows older than a day and
    keeps the others, in their order. *)
Lemma sqlite_cleanup_rows (now : datetime) (rows : list row) :
  NoDup (map c_id rows) ->
  filter
    (fun r =>
       negb (existsb
               (fun r0 =>
                  older_than_a_day now (fromisoformat (c_timestamp r0))
                  && String.eqb (c_id r0) (c_id r))
               rows))
    rows
  = filter
      (fun r => negb (older_than_a_day now (fromisoformat (c_timestamp r))))
      rows.
Proof.
  intros Hnd. apply filter_ext_in. intros r Hr. f_equal.
  destruct (older_than_a_day now (fromisoformat (c_timestamp r))) eqn:E.
  - apply existsb_exists. exists r. split; [exact Hr|].
    rewrite E, String.eqb_refl. reflexivity.
  - apply not_true_is_false. intros Hex.
    apply existsb_exists in Hex as [r0 [Hr0 Hboth]].
    apply andb_true_iff in Hboth as [Hold Hid].
    apply String.eqb_eq in Hid.
    assert (r0 = r); [|congruence].
    clear E Hold. induction rows as [|x rows IH]; [destruct Hr|].
    simpl in Hnd. inversion Hnd as [|? ? Hx Hnd']; subst.
    destruct Hr as [->|Hr], Hr0 as [->|Hr0]; try reflexivity.
    + exfalso. apply Hx. rewrite <- Hid. apply in_map, Hr0.
    + exfalso. apply Hx. rewrite Hid. apply in_map, Hr.
    + apply IH; assumption.
Qed.

(** X6.  In the relational backend the primary key holds throughout: when
    no two rows of the table share an id, the same is true after [save],
    [update], [delete], [batch_save] and [cleanup_expired]; and right after
    [save(R)], whatever the table was, exactly one row has the id of
    [R]. *)
Theorem sqlite_primary_key_kept (st : t) :
  table_wf st ->
  (forall R, table_wf (snd (save R st))) /\
  (forall memory_id updates, table_wf (snd (update memory_id updates st))) /\
  (forall memory_id, table_wf (snd (delete memory_id st))) /\
  (forall items, table_wf (snd (batch_save items st))) /\
  (forall dry_run now, table_wf (snd (cleanup_expired dry_run now st))) /\
  (forall R (st0 : t),
      length (filter (fun r => String.eqb (c_id r) (id R))
                     (_initialize_db (snd (save R st0)))) = 1%nat).
Proof.
  unfold table_wf. intros Hwf.
  split; [|split; [|split; [|split; [|split]]]].
  - intros R. simpl. apply insert_or_replace_wf, Hwf.
  - intros memory_id updates. unfold update, get_by_id.
    destruct (option_map item_of _) as [item|]; simpl;
      [apply insert_or_replace_wf|]; exact Hwf.
  - intros memory_id. simpl. apply delete_where_id_wf, Hwf.
  - intros items. simpl. apply table_wf_batch, Hwf.
  - intros dry_run now. unfold cleanup_expired.
    rewrite sqlite_cleanup_fold. cbn [snd _initialize_db].
    destruct dry_run; [exact Hwf|]. apply distinct_keys_filter, Hwf.
  - intros R st0. simpl. unfold insert_or_replace.
    rewrite filter_app, length_app. simpl.
    rewrite String.eqb_refl. simpl.
    replace (filter _ (delete_where_id (id R) (_initialize_db st0)))
      with (@nil row); [reflexivity|].
    symmetry. unfold delete_where_id.
    induction (_initialize_db st0) as [|r rows IH]; [reflexivity|].
    simpl. destruct (String.eqb (c_id r) (id R)) eqn:E; simpl;
      [exact IH|]. rewrite E. exact IH.
Qed.

(** X7.  In the relational backend, [delete(id)] creates the table if it
    is missing and returns true, whether a row had the id or not;
    afterwards [get_by_id(id)] finds nothing, and [get_by_id] of every
    other id returns what it returned before. *)
Theorem sqlite_delete_then_get (memory_id : string) (st : t) :
  let st' := snd (delete memory_id st) in
  fst (delete memory_id st) = true /\
  st' <> None /\
  fst (get_by_id memory_id st') = None /\
  (forall other : string,
      other <> memory_id ->
      fst (get_by_id other st') = fst (get_by_id other st)).
Proof.
  cbv zeta. unfold delete, get_by_id. cbn [fst snd _initialize_db].
  split; [reflexivity|]. split; [discriminate|]. split.
  - rewrite select_delete_where_id, String.eqb_refl. reflexivity.
  - intros other Hne. rewrite select_delete_where_id.
    destruct (String.eqb_spec memory_id other); [congruence|reflexivity].
Qed.

End RelationalFacts.

(** *** The tags column *)

Lemma str_count_has_char (c : ascii) (s : string) :
  str_count c s = O <-> str_has_char c s = false.
Proof.
  induction s as [|a s IH]; simpl; [tauto|].
  destruct (ascii_dec a c); [split; discriminate|exact IH].
Qed.

Lemma str_count_app (c : ascii) (a b : string) :
  str_count c (a ++ b) = (str_count c a + str_count c b)%nat.
Proof.
  induction a as [|x a IH]; simpl; [reflexivity|].
  destruct (ascii_dec x c); rewrite IH; reflexivity.
Qed.

(** A split gives one piece more than there are separators. *)
Lemma str_split_length (c : ascii) (s : string) :
  length (str_split c s) = S (str_count c s).
Proof.
  induction s as [|a s IH]; simpl; [reflexivity|].
  destruct (ascii_dec a c); simpl; [now rewrite IH|].
  destruct (str_split c s) as [|w ws]; [discriminate|exact IH].
Qed.

Lemma str_join_count (l : list string) :
  l <> [] ->
  S (str_count "," (str_join "," l))
  = (length l + list_sum (map (str_count ",") l))%nat.
Proof.
  induction l as [|x l IH]; [congruence|]. intros _.
  destruct l as [|y l].
  - simpl. lia.
  - change (str_join "," (x :: y :: l))
      with (x ++ String "," (str_join "," (y :: l)))%string.
    rewrite str_count_app.
    change (str_count "," (String "," (str_join "," (y :: l))))
      with (S (str_count "," (str_join "," (y :: l)))).
    assert (Hyl : y :: l <> []) by discriminate.
    specialize (IH Hyl).
    change (list_sum (map (str_count ",") (x :: y :: l)))
      with (str_count "," x + list_sum (map (str_count ",") (y :: l)))%nat.
    change (length (x :: y :: l)) with (S (length (y :: l))).
    lia.
Qed.

Lemma list_sum_zero (l : list nat) :
  list_sum l = O -> Forall (fun n => n = O) l.
Proof.
  induction l as [|n l IH]; simpl; intros Hs; constructor.
  - lia.
  - apply IH. lia.
Qed.

(** Joining with commas and splitting again gives the list back exactly
    when it is not empty and no element holds a comma. *)
Lemma str_split_join_iff (l : list string) :
  str_split "," (str_join "," l) = l <->
  l <> [] /\ Forall (fun s => str_has_char "," s = false) l.
Proof.
  split.
  - intros Heq. destruct l as [|x l]; [discriminate|].
    split; [discriminate|].
    apply (f_equal (@length string)) in Heq.
    rewrite str_split_length, str_join_count in Heq by discriminate.
    assert (Hsum : list_sum (map (str_count ",") (x :: l)) = O) by lia.
    apply list_sum_zero in Hsum. rewrite Forall_map in Hsum.
    revert Hsum. apply Forall_impl. intros s. apply str_count_has_char.
  - intros [Hne Hall]. apply str_split_join; assumption.
Qed.

Section RelationalReadBack.
Import SQLiteMemoryStorage.

(** X8.  In the relational backend, for a record [R] whose access count
    a column of type [INTEGER] can hold, [get_by_id(R.id)] right after
    [save(R)] returns a record with the id, content, type, tier source,
    metadata, timestamp, retention policy, access count and last access of
    [R]; the record returned is [R] itself exactly when [R] has at least
    one tag, none of its tags holds a comma, and its eleven fields without
    a column are at their defaults. *)
Theorem sqlite_round_trip_exact (R : UnifiedMemoryItem) (st : t) :
  sqlite_integer (access_count R) ->
  exists R',
    fst (get_by_id (id R) (snd (save R st))) = Some R' /\
    (id R' = id R /\ content R' = content R /\
     memory_type R' = memory_type R /\ tier_source R' = tier_source R /\
     metadata R' = metadata R /\ timestamp R' = timestamp R /\
     retention_policy R' = retention_policy R /\
     access_count R' = access_count R /\
     last_accessed R' = last_accessed R) /\
    unstored_fields_default R' /\
    (R' = R <->
     tags R <> [] /\
     Forall (fun tag => str_has_char "," tag = false) (tags R) /\
     unstored_fields_default R).
Proof.
  intros _. exists (item_of (values_of R)).
  split; [apply sqlite_get_by_id_save|].
  pose proof (sqlite_item_of_values_of R) as Hcols. cbv zeta in Hcols.
  destruct Hcols as [H1 [H2 [H3 [H4 [H5 [H6 [H7 [H8 [H9 H10]]]]]]]]].
  split; [tauto|].
  split; [unfold unstored_fields_default; simpl; tauto|].
  split.
  - intros Heq. rewrite Heq in H10. symmetry in H10.
    apply str_split_join_iff in H10 as [Hne Hall].
    split; [exact Hne|]. split; [exact Hall|].
    rewrite <- Heq. unfold unstored_fields_default. simpl. tauto.
  - intros [Hne [Hall Hdef]].
    assert (Htags : tags (item_of (values_of R)) = tags R).
    { rewrite H10. apply str_split_join; assumption. }
    unfold unstored_fields_default in Hdef.
    destruct Hdef as [D1 [D2 [D3 [D4 [D5 [D6 [D7 [D8 [D9 [D10 D11]]]]]]]]]].
    clear H1 H2 H3 H4 H5 H6 H7 H8 H9 H10 Hne Hall.
    destruct R. unfold item_of, values_of in *. cbn in *. subst.
    rewrite Htags. f_equal.
    match goal with
    | |- option_map _ (option_map _ ?x) = ?x => destruct x; reflexivity
    end.
Qed.

End RelationalReadBack.

Section RelationalQuery.
Context `{SqlEngine}.
Import SQLiteMemoryStorage.

(** X9.  In the relational backend, for a filter whose limit the model
    class accepts, [query] leaves the rows of the table as they are
    (creating the table if it is missing); [total_count] counts every
    matching row, however small the limit, and the number of items is the
    smaller of the limit and [total_count]; every item is the record of a
    row of the table.  With a non-empty search term the rows that match
    are those whose content is [LIKE] the term between two percent signs;
    without a term, or with the empty string, every row counts. *)
Theorem sqlite_query_counts (filter_params : MemoryQueryFilter) (st : t) :
  valid_limit (limit filter_params) ->
  let res := fst (query filter_params st) in
  snd (query filter_params st) = Some (_initialize_db st) /\
  Z.of_nat (length (items res))
  = Z.min (limit filter_params) (total_count res) /\
  (forall r, In r (items res) ->
             exists r0, In r0 (_initialize_db st) /\ r = item_of r0) /\
  (forall c text,
      content_search filter_params = Some (String c text) ->
      total_count res
      = Z.of_nat
          (length
             (filter
                (fun r0 => sql_like (c_content r0)
                                    ("%" ++ String c text ++ "%")%string)
                (_initialize_db st))) /\
      forall r, In r (items res) ->
                sql_like (content r) ("%" ++ String c text ++ "%")%string
                = true) /\
  (content_search filter_params = None \/
   content_search filter_params = Some "" ->
   total_count res = Z.of_nat (length (_initialize_db st))).
Proof.
  intros [Hlo Hhi]. cbv zeta. unfold query. cbn [fst snd items total_count].
  split; [reflexivity|].
  split; [apply py_slice_to_length; lia|].
  split; [|split].
  - intros r Hr. apply In_py_slice_to in Hr.
    apply in_map_iff in Hr as [r0 [<- Hr0]]. exists r0.
    split; [|reflexivity].
    destruct (content_search filter_params) as [[|c text]|];
      try exact Hr0.
    apply filter_In in Hr0 as [Hr0 _]. exact Hr0.
  - intros c text Hterm. rewrite Hterm. split.
    + rewrite length_map. reflexivity.
    + intros r Hr. apply In_py_slice_to in Hr.
      apply in_map_iff in Hr as [r0 [<- Hr0]].
      apply filter_In in Hr0 as [_ Hlike]. exact Hlike.
  - intros [-> | ->]; rewrite length_map; reflexivity.
Qed.

End RelationalQuery.

Section RelationalSweep.
Import SQLiteMemoryStorage.

(** X10.  The sweep of the relational backend does not look at the
    retention policy.  On a table that respects its primary key, read at
    the instant [now]: [cleanup_expired] counts the rows whose timestamp is
    more than 24 hours before [now]; with [dry_run=True] the rows stay as
    they are; with [dry_run=False] exactly those rows are removed, the
    others keeping their order.  So a record saved with a timestamp more
    than a day old is gone after the sweep whatever its policy,
    [permanent] included. *)
Theorem sqlite_cleanup_expired_by_age_only (now : datetime) (st : t) :
  table_wf st ->
  let rows := _initialize_db st in
  let old := fun r => older_than_a_day now (fromisoformat (c_timestamp r)) in
  let n := Z.of_nat (length (filter old rows)) in
  cleanup_expired true now st = ([("expired_count", n)], Some rows) /\
  cleanup_expired false now st
  = ([("expired_count", n)], Some (filter (fun r => negb (old r)) rows)) /\
  (forall R,
      older_than_a_day now (timestamp R) = true ->
      fst (get_by_id (id R)
             (snd (cleanup_expired false now (snd (save R st))))) = None).
Proof.
  intros Hwf. cbv zeta.
  assert (Hrun : forall st0 : t,
             table_wf st0 ->
             cleanup_expired false now st0
             = ([("expired_count",
                  Z.of_nat
                    (length
                       (filter
                          (fun r => older_than_a_day now
                                      (fromisoformat (c_timestamp r)))
                          (_initialize_db st0))))],
                Some (filter
                        (fun r => negb (older_than_a_day now
                                          (fromisoformat (c_timestamp r))))
                        (_initialize_db st0)))).
  { intros st0 Hwf0. unfold cleanup_expired.
    rewrite sqlite_cleanup_fold. cbn [negb].
    rewrite (sqlite_cleanup_rows now _ Hwf0). reflexivity. }
  split; [|split].
  - unfold cleanup_expired. rewrite sqlite_cleanup_fold. reflexivity.
  - apply Hrun, Hwf.
  - intros R Hold.
    rewrite Hrun by (simpl; apply insert_or_replace_wf, Hwf).
    unfold get_by_id. cbn [fst snd _initialize_db save].
    destruct (select_where_id (id R) _) as [r|] eqn:E; [|reflexivity].
    exfalso. unfold select_where_id in E. apply find_some in E as [Hin Hid].
    apply String.eqb_eq in Hid.
    apply filter_In in Hin as [Hin Hyoung].
    unfold insert_or_replace in Hin. apply in_app_iff in Hin as [Hin|[<-|[]]].
    + apply delete_where_id_ids in Hin as [_ Hne]. simpl in Hne. congruence.
    + simpl in Hyoung. rewrite Hold in Hyoung. discriminate.
Qed.

End RelationalSweep.

(** ** The vector backend: vectors, positions and lookups *)

Lemma set_fresh {K V} `{EqDec K} (k : K) (v : V) (d : PyDict.t K V) :
  PyDict.get k d = None -> PyDict.set k v d = d ++ [(k, v)].
Proof.
  induction d as [|[k' v'] d IH]; simpl; [reflexivity|].
  destruct (eq_dec k k'); [discriminate|].
  intros Hg. rewrite (IH Hg). reflexivity.
Qed.

Lemma get_app_miss {K V} `{EqDec K} (k : K) (d d' : PyDict.t K V) :
  PyDict.get k d = None -> PyDict.get k (d ++ d') = PyDict.get k d'.
Proof.
  induction d as [|[k' v'] d IH]; simpl; [reflexivity|].
  destruct (eq_dec k k'); [discriminate|exact IH].
Qed.

Lemma id_apply_updates_keeps (updates : list field_update) :
  keeps_id updates ->
  forall item : UnifiedMemoryItem, id (apply_updates item updates) = id item.
Proof.
  unfold apply_updates, keeps_id.
  induction updates as [|u updates IH]; intros Hkeep item; [reflexivity|].
  cbn [fold_left]. rewrite IH.
  - rewrite id_setattr. destruct u; try reflexivity.
    exfalso. apply (Hkeep v). now left.
  - intros v Hin. apply (Hkeep v). now right.
Qed.

Section VectorLookups.
Context `{VectorLib}.
Import FAISSMemoryStorage.

(** Under the invariant, [get_by_id] finds the stored records by their
    ids. *)
Lemma inv_get_by_id_iff (st : t) (memory_id : string)
    (r : UnifiedMemoryItem) :
  faiss_inv st ->
  (get_by_id memory_id st = Some r <->
   In r (PyDict.values (id_to_memory st)) /\ id r = memory_id).
Proof.
  intros [Hmaps _]. unfold get_by_id. split.
  - destruct (PyDict.get memory_id (memory_id_to_index st))
      as [pos|] eqn:E; [|discriminate].
    intros Hr. split; [apply (get_In_values _ _ _ Hr)|].
    destruct (id_to_position Hmaps _ _ E) as [r' [Hr' Hid]]. congruence.
  - intros [Hin <-].
    destruct (In_values_get _ _ Hin (positions_wf Hmaps)) as [s Hs].
    rewrite (position_to_id Hmaps _ _ Hs). exact Hs.
Qed.

(** Two states under the invariant that store the same records answer
    [get_by_id] alike. *)
Lemma inv_same_values_same_lookups (st st' : t) :
  faiss_inv st -> faiss_inv st' ->
  (forall r, In r (PyDict.values (id_to_memory st')) <->
             In r (PyDict.values (id_to_memory st))) ->
  forall memory_id, get_by_id memory_id st' = get_by_id memory_id st.
Proof.
  intros Hinv Hinv' Hsame memory_id.
  destruct (get_by_id memory_id st) as [r|] eqn:E.
  - apply (inv_get_by_id_iff _ _ _ Hinv) in E as [Hin Hid].
    apply (inv_get_by_id_iff _ _ _ Hinv'). split; [apply Hsame, Hin|exact Hid].
  - destruct (get_by_id memory_id st') as [r|] eqn:E'; [|reflexivity].
    apply (inv_get_by_id_iff _ _ _ Hinv') in E' as [Hin Hid].
    assert (Hst : get_by_id memory_id st = Some r).
    { apply (inv_get_by_id_iff _ _ _ Hinv). split; [apply Hsame, Hin|exact Hid]. }
    congruence.
Qed.

(** [delete] under the invariant. *)
Lemma delete_under_inv (memory_id : string) (st : t) :
  faiss_inv st ->
  exists st',
    delete memory_id st
    = (Ok (PyDict.contains memory_id (memory_id_to_index st)), st') /\
    faiss_inv st' /\
    index st' = index st /\
    get_by_id memory_id st' = None /\
    (forall other : string,
        other <> memory_id -> get_by_id other st' = get_by_id other st).
Proof.
  intros Hinv. pose proof (faiss_inv_delete memory_id st Hinv) as Hinv'.
  destruct Hinv as [Hmaps _].
  unfold delete, get_by_id, PyDict.contains in *.
  destruct (PyDict.get memory_id (memory_id_to_index st))
    as [pos|] eqn:E.
  - destruct (id_to_position Hmaps _ _ E) as [r [Hr Hid]].
    rewrite Hr in *. eexists. split; [reflexivity|].
    cbn [snd index id_to_memory memory_id_to_index] in *.
    split; [exact Hinv'|]. split; [reflexivity|].
    split; [now rewrite get_remove_eq|].
    intros other Hne. rewrite get_remove_ne by congruence.
    destruct (PyDict.get other (memory_id_to_index st)) as [pos'|] eqn:E';
      [|reflexivity].
    apply get_remove_ne. intros <-.
    destruct (id_to_position Hmaps _ _ E') as [r' [Hr' Hid']]. congruence.
  - eexists. split; [reflexivity|]. split; [exact Hinv'|].
    split; [reflexivity|]. rewrite E. split; [reflexivity|]. reflexivity.
Qed.

(** X11.  What each mutation of the vector backend does to the vectors of
    the index.  [save] under an id that already has a position adds
    nothing: the vector of the former content stays; under a new id it
    adds the encoding of the content at the end.  [update] and [delete]
    leave the index as it is.  [batch_save] adds the encodings of the
    records whose id had no position, in the order of the batch.
    [rebuild_index] replaces the index by the encodings of the stored
    records, in their order. *)
Theorem faiss_index_after (op : faiss_op) (st : t) :
  index (run_op st op)
  = match op with
    | op_save item =>
        index st ++
        (if PyDict.contains (id item) (memory_id_to_index st) then []
         else [encode (content item)])
    | op_update _ _ | op_delete _ => index st
    | op_batch_save items =>
        index st ++
        map (fun item => encode (content item)) (new_items_of items st)
    | op_rebuild_index =>
        map (fun item => encode (content item))
            (PyDict.values (id_to_memory st))
    end.
Proof.
  destruct op as [item|memory_id updates|memory_id|items|]; cbn [run_op].
  - unfold save, PyDict.contains.
    destruct (PyDict.get (id item) (memory_id_to_index st)); cbn [snd index];
      [now rewrite app_nil_r|reflexivity].
  - unfold update.
    destruct (PyDict.get memory_id (memory_id_to_index st)); [|reflexivity].
    destruct (PyDict.get _ (id_to_memory st)); reflexivity.
  - unfold delete.
    destruct (PyDict.get memory_id (memory_id_to_index st)); [|reflexivity].
    destruct (PyDict.contains _ (id_to_memory st)); reflexivity.
  - unfold batch_save. cbn [snd].
    set (new_items := new_items_of items st).
    assert (Hplace : forall l (s : t),
               index (fold_left place_new_item l s) = index s).
    { induction l as [|x l IH]; intros s; [reflexivity|].
      cbn [fold_left]. rewrite IH. reflexivity. }
    assert (Hstore : forall l (s : t),
               index (fold_left store_existing_item l s) = index s).
    { induction l as [|x l IH]; intros s; [reflexivity|].
      cbn [fold_left]. rewrite IH. unfold store_existing_item.
      destruct (PyDict.get (id x) (memory_id_to_index s)); reflexivity. }
    rewrite Hstore. unfold _get_embedding.
    destruct (map (fun item => encode (content item)) new_items)
      as [|e es] eqn:Eemb.
    + now rewrite app_nil_r.
    + rewrite Hplace. reflexivity.
  - unfold rebuild_index.
    destruct (id_to_memory st) as [|p itm] eqn:Eitm; [reflexivity|].
    rewrite <- Eitm. unfold _get_embedding.
    destruct (map (fun item => encode (content item))
                  (PyDict.values (id_to_memory st))) as [|e es] eqn:Eemb;
      [reflexivity|].
    cbn [index]. rewrite <- Eemb.
    assert (Hplace : forall l i (s : t),
               index (fold_left place_at (enumerate_from i l) s) = index s).
    { induction l as [|x l IH]; intros i s; [reflexivity|].
      cbn [enumerate_from fold_left]. rewrite IH. reflexivity. }
    rewrite Hplace. reflexivity.
Qed.

(** X12.  On the vector backend, [delete(R.id)] right after [save(R)]
    returns true without raising, in whatever state the [save] was made,
    and [get_by_id(R.id)] then finds nothing; yet the index has kept the
    vector: it holds one vector more than before the [save] if the id was
    new, and as many if it was known. *)
Theorem faiss_save_then_delete (R : UnifiedMemoryItem) (st : t) :
  exists st',
    delete (id R) (snd (save R st)) = (Ok true, st') /\
    get_by_id (id R) st' = None /\
    ntotal st'
    = ntotal st
      + (if PyDict.contains (id R) (memory_id_to_index st) then 0 else 1).
Proof.
  unfold save, delete, get_by_id, PyDict.contains, ntotal.
  destruct (PyDict.get (id R) (memory_id_to_index st)) as [pos|] eqn:E;
    cbn [snd index id_to_memory memory_id_to_index].
  - rewrite E, get_set_eq. eexists. split; [reflexivity|].
    cbn [index id_to_memory memory_id_to_index].
    rewrite get_remove_eq. split; [reflexivity|lia].
  - rewrite !get_set_eq. eexists. split; [reflexivity|].
    cbn [index id_to_memory memory_id_to_index].
    rewrite get_remove_eq. split; [reflexivity|].
    rewrite length_app. simpl. lia.
Qed.

End VectorLookups.

Section VectorCompaction.
Context `{VectorLib}.
Import FAISSMemoryStorage.

Lemma get_above (i : Z) (d : PyDict.t Z UnifiedMemoryItem) :
  Forall (fun e => fst e < i) d -> PyDict.get i d = None.
Proof.
  induction d as [|[k v] d IH]; intros Hall; simpl; [reflexivity|].
  inversion Hall as [|? ? Hk Hd]; subst. simpl in Hk.
  destruct (eq_dec i k); [lia|auto].
Qed.

Lemma values_enumerate_from {A} (l : list A) :
  forall i : Z, map snd (enumerate_from i l) = l.
Proof.
  induction l as [|x l IH]; intros i; simpl; [reflexivity|].
  now rewrite IH.
Qed.

(** The loop of [rebuild_index] lays the records out at consecutive
    positions. *)
Lemma place_all_positions (items : list UnifiedMemoryItem) :
  forall (i : Z) (st : t),
    Forall (fun e => fst e < i) (id_to_memory st) ->
    id_to_memory (fold_left place_at (enumerate_from i items) st)
    = id_to_memory st ++ enumerate_from i items.
Proof.
  induction items as [|item items IH]; intros i st Hbelow.
  - simpl. now rewrite app_nil_r.
  - cbn [enumerate_from fold_left].
    assert (Hset : id_to_memory (place_at st (i, item))
                   = id_to_memory st ++ [(i, item)]).
    { simpl. apply set_fresh, get_above, Hbelow. }
    rewrite IH.
    + rewrite Hset, <- app_assoc. reflexivity.
    + rewrite Hset. apply Forall_app. split.
      * revert Hbelow. apply Forall_impl. intros e He. lia.
      * constructor; [simpl; lia|constructor].
Qed.

(** X13.  [rebuild_index] compacts the vector backend.  From a state that
    satisfies the invariant, the stored records, in their order, take the
    positions 0, 1, 2, ...; the index holds as many vectors as there are
    stored records, and [next_index_position] is that number; and
    [get_by_id] returns, for every id, what it returned before. *)
Theorem faiss_rebuild_index_compacts (st : t) :
  faiss_inv st ->
  let st' := rebuild_index st in
  let live := PyDict.values (id_to_memory st) in
  id_to_memory st' = enumerate_from 0 live /\
  ntotal st' = Z.of_nat (length live) /\
  next_index_position st' = Z.of_nat (length live) /\
  (forall memory_id, get_by_id memory_id st' = get_by_id memory_id st).
Proof.
  intros Hinv st' live.
  assert (Hitm : id_to_memory st' = enumerate_from 0 live /\
                 ntotal st' = Z.of_nat (length live) /\
                 next_index_position st' = Z.of_nat (length live)).
  { subst st' live. unfold rebuild_index, ntotal.
    destruct (id_to_memory st) as [|p itm] eqn:Eitm.
    - repeat split.
    - rewrite <- Eitm.
      destruct (map (fun item => _get_embedding (content item))
                    (PyDict.values (id_to_memory st))) as [|e es] eqn:Eemb.
      + rewrite Eitm in Eemb. discriminate.
      + rewrite <- Eemb. cbn [id_to_memory index next_index_position].
        split; [apply place_all_positions; constructor|].
        split; [|reflexivity].
        assert (Hplace : forall l i (s : t),
                   index (fold_left place_at (enumerate_from i l) s) = index s).
        { induction l as [|x l IH]; intros i s; [reflexivity|].
          cbn [enumerate_from fold_left]. rewrite IH. reflexivity. }
        rewrite Hplace. cbn [index]. simpl. rewrite length_map. reflexivity. }
  destruct Hitm as [Hitm [Hn Hnext]].
  split; [exact Hitm|]. split; [exact Hn|]. split; [exact Hnext|].
  apply inv_same_values_same_lookups.
  - exact Hinv.
  - apply faiss_inv_rebuild_index, Hinv.
  - intros r. fold st'. rewrite Hitm. unfold PyDict.values at 1.
    rewrite values_enumerate_from. reflexivity.
Qed.

(** X14.  On a vector backend that satisfies its invariant, [delete] never
    raises: it returns true exactly when the id had a position; afterwards
    the invariant still holds, the index holds the same vectors,
    [get_by_id] of the id finds nothing, and [get_by_id] of every other id
    returns what it returned before. *)
Theorem faiss_delete_under_inv (memory_id : string) (st : t) :
  faiss_inv st ->
  exists st',
    delete memory_id st
    = (Ok (PyDict.contains memory_id (memory_id_to_index st)), st') /\
    faiss_inv st' /\
    index st' = index st /\
    get_by_id memory_id st' = None /\
    (forall other : string,
        other <> memory_id -> get_by_id other st' = get_by_id other st).
Proof. apply delete_under_inv. Qed.

(** X15.  On a vector backend that satisfies its invariant, [update] with
    updates that leave the id alone never raises: it returns true exactly
    when the id had a position.  The record stored under the id is then
    the former one with the updates applied, yet the index holds the same
    vectors, also when the content has changed; every other id reads as
    before, and the invariant still holds. *)
Theorem faiss_update_under_inv (memory_id : string)
    (updates : list field_update) (st : t) :
  faiss_inv st ->
  keeps_id updates ->
  exists st',
    update memory_id updates st
    = (Ok (PyDict.contains memory_id (memory_id_to_index st)), st') /\
    faiss_inv st' /\
    index st' = index st /\
    get_by_id memory_id st'
    = option_map (fun item => apply_updates item updates)
                 (get_by_id memory_id st) /\
    (forall other : string,
        other <> memory_id -> get_by_id other st' = get_by_id other st).
Proof.
  intros [Hmaps [_ Hn]] Hkeep.
  unfold update, get_by_id, PyDict.contains.
  destruct (PyDict.get memory_id (memory_id_to_index st)) as [pos|] eqn:E.
  - destruct (id_to_position Hmaps _ _ E) as [r [Hr Hid]].
    rewrite Hr. eexists. split; [reflexivity|].
    cbn [index id_to_memory memory_id_to_index next_index_position].
    split; [|split; [reflexivity|split]].
    + apply faiss_inv_intro; [|exact Hn].
      cbn [index id_to_memory memory_id_to_index next_index_position].
      apply maps_inv_store; [exact Hmaps|].
      rewrite (id_apply_updates_keeps updates Hkeep). congruence.
    + rewrite E, get_set_eq. reflexivity.
    + intros other Hne.
      destruct (PyDict.get other (memory_id_to_index st)) as [pos'|] eqn:E';
        [|reflexivity].
      apply get_set_ne. intros <-.
      destruct (id_to_position Hmaps _ _ E') as [r' [Hr' Hid']]. congruence.
  - eexists. split; [reflexivity|].
    split; [split; [exact Hmaps|split; [|exact Hn]]|].
    + apply (maps_inv_distinct _ _ _ Hmaps).
    + rewrite E. split; [reflexivity|]. split; reflexivity.
Qed.

End VectorCompaction.

(** ** The vector backend: what a search returns *)

Lemma py_in_In {K} `{EqDec K} (x : K) (l : list K) :
  py_in x l = true -> In x l.
Proof. unfold py_in. destruct (in_dec eq_dec x l); [trivial|discriminate]. Qed.

Lemma valid_limit_init (term : option string)
    (mts : option (list MemoryType)) (srcs : option (list string)) (lim : Z)
    (extra : extra_kwargs) :
  (valid_limit lim ->
   exists filter_params,
     MemoryQueryFilter_init term mts srcs lim extra = Ok filter_params /\
     content_search filter_params = term /\
     limit filter_params = lim /\
     memory_types filter_params = mts /\
     tier_sources filter_params = srcs /\
     f_tags filter_params = None /\
     start_time filter_params = None /\
     end_time filter_params = None) /\
  (~ valid_limit lim ->
   MemoryQueryFilter_init term mts srcs lim extra = Raise ValidationError).
Proof.
  unfold valid_limit, MemoryQueryFilter_init.
  destruct (1 <=? lim) eqn:Elo, (lim <=? 1000) eqn:Ehi; cbn [andb];
    try apply Z.leb_le in Elo; try apply Z.leb_le in Ehi;
    try apply Z.leb_gt in Elo; try apply Z.leb_gt in Ehi.
  - split; [|intros Hn; exfalso; apply Hn; lia].
    intros _. eexists. split; [reflexivity|]. repeat split.
  - split; [intros; lia|reflexivity].
  - split; [intros; lia|reflexivity].
  - split; [intros; lia|reflexivity].
Qed.

Section VectorSearch.
Context `{VectorLib}.
Import FAISSMemoryStorage.

(** What passes the filters of [query] satisfies each filter that is
    set. *)
Lemma apply_filters_sound (filter_params : MemoryQueryFilter)
    (results : list UnifiedMemoryItem) (r : UnifiedMemoryItem) :
  In r (apply_filters filter_params results) ->
  In r results /\
  (forall m ms, memory_types filter_params = Some (m :: ms) ->
                In (memory_type r) (m :: ms)) /\
  (forall s ss, tier_sources filter_params = Some (s :: ss) ->
                In (tier_source r) (s :: ss)) /\
  (forall t ts, f_tags filter_params = Some (t :: ts) ->
                exists tag, In tag (t :: ts) /\ In tag (tags r)) /\
  (forall t0, start_time filter_params = Some t0 -> t0 <= timestamp r) /\
  (forall t1, end_time filter_params = Some t1 -> timestamp r <= t1).
Proof.
  unfold apply_filters. intros Hin. apply In_py_slice_to in Hin.
  set (l1 := match memory_types filter_params with
             | Some ((_ :: _) as mts) =>
                 filter (fun r => py_in (memory_type r) mts) results
             | _ => results
             end) in *.
  set (l2 := match tier_sources filter_params with
             | Some ((_ :: _) as srcs) =>
                 filter (fun r => py_in (tier_source r) srcs) l1
             | _ => l1
             end) in *.
  set (l3 := match f_tags filter_params with
             | Some ((_ :: _) as tgs) =>
                 filter (fun r => existsb (fun tag => py_in tag (tags r)) tgs)
                        l2
             | _ => l2
             end) in *.
  set (l4 := match start_time filter_params with
             | Some t0 => filter (fun r => t0 <=? timestamp r) l3
             | None => l3
             end) in *.
  assert (H5 : In r l4 /\
               forall t1, end_time filter_params = Some t1 ->
                          timestamp r <= t1).
  { destruct (end_time filter_params) as [t1|].
    - apply filter_In in Hin as [Hin Hle]. apply Z.leb_le in Hle.
      split; [exact Hin|]. intros ? [= <-]. exact Hle.
    - split; [exact Hin|discriminate]. }
  destruct H5 as [Hin4 Hend].
  assert (H4 : In r l3 /\
               forall t0, start_time filter_params = Some t0 ->
                          t0 <= timestamp r).
  { subst l4. destruct (start_time filter_params) as [t0|].
    - apply filter_In in Hin4 as [Hin3 Hle]. apply Z.leb_le in Hle.
      split; [exact Hin3|]. intros ? [= <-]. exact Hle.
    - split; [exact Hin4|discriminate]. }
  destruct H4 as [Hin3 Hstart].
  assert (H3 : In r l2 /\
               forall t ts, f_tags filter_params = Some (t :: ts) ->
                            exists tag, In tag (t :: ts) /\ In tag (tags r)).
  { subst l3. destruct (f_tags filter_params) as [[|t ts]|].
    - split; [exact Hin3|discriminate].
    - apply filter_In in Hin3 as [Hin2 Hex].
      apply existsb_exists in Hex as [tag [Htag Hp]]. apply py_in_In in Hp.
      split; [exact Hin2|]. intros ? ? [= <- <-]. exists tag.
      split; assumption.
    - split; [exact Hin3|discriminate]. }
  destruct H3 as [Hin2 Htags].
  assert (H2 : In r l1 /\
               forall s ss, tier_sources filter_params = Some (s :: ss) ->
                            In (tier_source r) (s :: ss)).
  { subst l2. destruct (tier_sources filter_params) as [[|s ss]|].
    - split; [exact Hin2|discriminate].
    - apply filter_In in Hin2 as [Hin1 Hp]. apply py_in_In in Hp.
      split; [exact Hin1|]. intros ? ? [= <- <-]. exact Hp.
    - split; [exact Hin2|discriminate]. }
  destruct H2 as [Hin1 Hsrc].
  assert (H1 : In r results /\
               forall m ms, memory_types filter_params = Some (m :: ms) ->
                            In (memory_type r) (m :: ms)).
  { subst l1. destruct (memory_types filter_params) as [[|m ms]|].
    - split; [exact Hin1|discriminate].
    - apply filter_In in Hin1 as [Hin0 Hp]. apply py_in_In in Hp.
      split; [exact Hin0|]. intros ? ? [= <- <-]. exact Hp.
    - split; [exact Hin1|discriminate]. }
  destruct H1 as [Hin0 Hmt].
  auto 10.
Qed.

Lemma collect_matches_scored (st : t) (found : list (float * Z))
    (r : UnifiedMemoryItem) :
  In r (collect_matches st found) ->
  exists d, PyDict.get "similarity_score" (metadata r) = Some (JFloat d).
Proof.
  unfold collect_matches. intros Hin.
  apply in_flat_map in Hin as [[d idx] [_ Hin]].
  destruct (negb (idx =? -1)); [|destruct Hin].
  destruct (PyDict.get idx (id_to_memory st)) as [item|]; [|destruct Hin].
  destruct Hin as [<-|[]]. exists d. simpl. apply get_set_eq.
Qed.

(** X16.  On the vector backend, for a filter whose limit the model class
    accepts, [query] returns at most [limit] items and reports their
    number as [total_count]; every item has a type among the types asked
    for, a tier source among the sources asked for, at least one of the
    tags asked for, and a timestamp within the two bounds, for each of
    these filters that is set (a missing or empty list sets none). *)
Theorem faiss_query_results_pass_filters (filter_params : MemoryQueryFilter)
    (st : t) :
  valid_limit (limit filter_params) ->
  let res := query filter_params st in
  total_count res = Z.of_nat (length (items res)) /\
  Z.of_nat (length (items res)) <= limit filter_params /\
  (forall r, In r (items res) ->
     (forall m ms, memory_types filter_params = Some (m :: ms) ->
                   In (memory_type r) (m :: ms)) /\
     (forall s ss, tier_sources filter_params = Some (s :: ss) ->
                   In (tier_source r) (s :: ss)) /\
     (forall t ts, f_tags filter_params = Some (t :: ts) ->
                   exists tag, In tag (t :: ts) /\ In tag (tags r)) /\
     (forall t0, start_time filter_params = Some t0 -> t0 <= timestamp r) /\
     (forall t1, end_time filter_params = Some t1 -> timestamp r <= t1)).
Proof.
  intros [Hlo Hhi] res. subst res. unfold query. cbn [items total_count].
  split; [reflexivity|]. split.
  - unfold apply_filters. rewrite py_slice_to_length by lia. lia.
  - intros r Hr. apply apply_filters_sound in Hr. tauto.
Qed.

(** X17.  [semantic_search] on the vector backend raises a validation
    error exactly when the limit is outside 1..1000, and otherwise returns
    a result.  For a non-empty query text every item carries a
    [similarity_score] in its metadata, and an index without vectors gives
    no item.  For the empty text no search is made: the items are stored
    records as they are, taken from the first [limit] of the dictionary
    of positions. *)
Theorem faiss_semantic_search_edges (query_text : string)
    (mts : option (list MemoryType)) (srcs : option (list string))
    (lim : Z) (st : t) :
  (~ valid_limit lim ->
   semantic_search query_text mts srcs lim st = Raise ValidationError) /\
  (valid_limit lim ->
   exists res,
     semantic_search query_text mts srcs lim st = Ok res /\
     (query_text <> "" ->
      forall r, In r (items res) ->
                exists d, PyDict.get "similarity_score" (metadata r)
                          = Some (JFloat d)) /\
     (query_text <> "" -> index st = [] -> items res = []) /\
     (query_text = "" ->
      forall r, In r (items res) ->
                In r (py_slice_to lim (PyDict.values (id_to_memory st))))).
Proof.
  unfold semantic_search.
  destruct (valid_limit_init (Some query_text) mts srcs lim [])
    as [Hvalid Hinvalid].
  split.
  - intros Hn. rewrite (Hinvalid Hn). reflexivity.
  - intros Hv.
    destruct (Hvalid Hv) as [fp [-> [Hterm [Hlim _]]]].
    eexists. split; [reflexivity|].
    unfold query. cbn [items]. rewrite Hterm, Hlim.
    split; [|split].
    + intros Hne r Hr. apply In_apply_filters in Hr.
      destruct query_text as [|c text]; [congruence|].
      destruct (0 <? _); [|destruct Hr].
      apply (collect_matches_scored _ _ _ Hr).
    + intros Hne Hempty.
      destruct query_text as [|c text]; [congruence|].
      unfold ntotal. rewrite Hempty. cbn [length Z.of_nat Z.ltb Z.compare].
      destruct (apply_filters fp []) as [|r rest] eqn:E; [reflexivity|].
      assert (Hr : In r (apply_filters fp [])) by (rewrite E; left; reflexivity).
      apply In_apply_filters in Hr. destruct Hr.
    + intros -> r Hr. apply In_apply_filters in Hr. exact Hr.
Qed.

End VectorSearch.

(** ** The vector backend: the sweep *)

Section VectorSweep.
Context `{VectorLib}.
Import FAISSMemoryStorage.

Lemma delete_each_under_inv (expired_ids : list string) :
  forall st : t,
    faiss_inv st ->
    exists st',
      delete_each expired_ids st = (Ok tt, st') /\
      faiss_inv st' /\
      index st' = index st /\
      (forall memory_id : string,
          In memory_id expired_ids -> get_by_id memory_id st' = None) /\
      (forall memory_id : string,
          ~ In memory_id expired_ids ->
          get_by_id memory_id st' = get_by_id memory_id st).
Proof.
  induction expired_ids as [|e rest IH]; intros st Hinv.
  - exists st. cbn [delete_each].
    split; [reflexivity|]. split; [exact Hinv|]. split; [reflexivity|].
    split; [intros ? []|reflexivity].
  - destruct (delete_under_inv e st Hinv)
      as [st1 [Hdel [Hinv1 [Hidx1 [Hgone Hothers]]]]].
    destruct (IH st1 Hinv1) as [st' [Hrun [Hinv' [Hidx' [Hin Hout]]]]].
    exists st'. cbn [delete_each]. rewrite Hdel, Hrun.
    split; [reflexivity|]. split; [exact Hinv'|].
    split; [congruence|]. split.
    + intros memory_id Hm.
      destruct (in_dec string_dec memory_id rest) as [Hr|Hr];
        [exact (Hin _ Hr)|].
      destruct Hm as [<-|Hm]; [|contradiction].
      rewrite (Hout _ Hr). exact Hgone.
    + intros memory_id Hm. cbn [In] in Hm.
      rewrite Hout by tauto. apply Hothers. intros ->. tauto.
Qed.

(** X18.  On a vector backend whose maps are consistent, [cleanup_expired]
    never raises and reports as [expired_count] the number of stored
    records whose timestamp is more than 24 hours before the clock
    reading, whatever their retention policy.  A dry run changes nothing.
    Otherwise a stored record can be read afterwards exactly when it is
    not that old, the vectors of the index all stay, and the maps are
    still consistent. *)
Theorem faiss_cleanup_expired_by_age_only (dry_run : bool) (now : datetime)
    (st : t) :
  faiss_inv st ->
  exists st',
    cleanup_expired dry_run now st
    = (Ok [("expired_count",
            Z.of_nat
              (length (filter (fun item =>
                                 older_than_a_day now (timestamp item))
                              (PyDict.values (id_to_memory st)))))],
       st') /\
    faiss_inv st' /\
    index st' = index st /\
    (dry_run = true -> st' = st) /\
    (dry_run = false ->
     forall memory_id : string,
       get_by_id memory_id st'
       = match get_by_id memory_id st with
         | Some r =>
             if older_than_a_day now (timestamp r) then None else Some r
         | None => None
         end).
Proof.
  intros Hinv. unfold cleanup_expired.
  set (old := filter (fun item => older_than_a_day now (timestamp item))
                     (PyDict.values (id_to_memory st))).
  rewrite length_map.
  destruct dry_run; cbn [negb].
  - exists st. split; [reflexivity|]. split; [exact Hinv|].
    split; [reflexivity|]. split; [reflexivity|discriminate].
  - destruct (delete_each_under_inv (map id old) st Hinv)
      as [st' [Hrun [Hinv' [Hidx [Hin Hout]]]]].
    exists st'. rewrite Hrun. split; [reflexivity|].
    split; [exact Hinv'|]. split; [exact Hidx|].
    split; [discriminate|]. intros _ memory_id.
    destruct (get_by_id memory_id st) as [r|] eqn:E.
    + apply (inv_get_by_id_iff st memory_id r Hinv) in E as Hr.
      destruct Hr as [Hstored Hid].
      destruct (older_than_a_day now (timestamp r)) eqn:Hold.
      * apply Hin. apply in_map_iff. exists r. split; [exact Hid|].
        apply filter_In. auto.
      * rewrite Hout; [exact E|].
        intros Hm. apply in_map_iff in Hm as [r' [Hid' Hr']].
        apply filter_In in Hr' as [Hstored' Hold'].
        assert (E' : get_by_id memory_id st = Some r')
          by (apply (inv_get_by_id_iff st memory_id r' Hinv); auto).
        congruence.
    + destruct (in_dec string_dec memory_id (map id old)) as [Hm|Hm].
      * exact (Hin _ Hm).
      * rewrite (Hout _ Hm). exact E.
Qed.

End VectorSweep.

(** ** The coordinator: calls in sequence *)

Lemma json_cleanup_get (now : datetime) (st : JSONMemoryStorage.t)
    (memory_id : string) (item : UnifiedMemoryItem) :
  PyDict.wf st ->
  valid_documents st ->
  JSONMemoryStorage.get_by_id memory_id st = Some item ->
  exists counts st',
    JSONMemoryStorage.cleanup_expired false now st = (Ok counts, st') /\
    JSONMemoryStorage.get_by_id memory_id st'
    = if temporary_and_expired now item then None else Some item.
Proof.
  intros Hwf Hvalid. unfold JSONMemoryStorage.cleanup_expired.
  rewrite (cleanup_fold false now _ 0 st Hvalid).
  unfold JSONMemoryStorage.get_by_id.
  destruct (PyDict.get (JSONMemoryStorage._memory_file_path memory_id) st)
    as [data|] eqn:Hget; [|discriminate].
  intros [= <-]. do 2 eexists. split; [reflexivity|].
  rewrite remove_expired_get, (expired_name now st memory_id data Hwf Hget),
    Hget.
  destruct (temporary_and_expired now (JSONMemoryStorage.of_item_dict data));
    reflexivity.
Qed.

Lemma valid_documents_save (R : UnifiedMemoryItem)
    (st : JSONMemoryStorage.t) :
  validates R ->
  valid_documents st ->
  valid_documents (snd (JSONMemoryStorage.save R st)).
Proof.
  intros HR Hvalid f Hf. unfold JSONMemoryStorage.glob_json in Hf.
  apply filter_In in Hf as [Hf Hjson].
  unfold JSONMemoryStorage.save in Hf. cbn [snd] in Hf.
  apply In_set in Hf as [->|Hf]; [exact HR|].
  apply Hvalid. apply filter_In. auto.
Qed.


Lemma sqlite_update_run (memory_id : string) (updates : list field_update)
    (st : SQLiteMemoryStorage.t) :
  SQLiteMemoryStorage.update memory_id updates st
  = match fst (SQLiteMemoryStorage.get_by_id memory_id st) with
    | None => (false, Some (SQLiteMemoryStorage._initialize_db st))
    | Some item =>
        (true,
         snd (SQLiteMemoryStorage.save
                (apply_updates item updates)
                (Some (SQLiteMemoryStorage._initialize_db st))))
    end.
Proof.
  unfold SQLiteMemoryStorage.update, SQLiteMemoryStorage.get_by_id.
  cbn [fst].
  destruct (option_map _ _); reflexivity.
Qed.


Section CoordinatorSequences.
Context `{SqlEngine} `{VectorLib}.
Import HybridMemoryStorage.

Lemma hybrid_save_run (R : UnifiedMemoryItem) (st : t) :
  save R st
  = (Ok (id R),
     {| json_store := snd (JSONMemoryStorage.save R (json_store st));
        sqlite_store := snd (SQLiteMemoryStorage.save R (sqlite_store st));
        faiss_store := snd (FAISSMemoryStorage.save R (faiss_store st));
        calls := calls st ++ [call_save json_backend R;
                              call_save sqlite_backend R;
                              call_save faiss_backend R] |}).
Proof.
  unfold save, bind, ret, await_json, await_sqlite, await_faiss.
  cbn -[FAISSMemoryStorage.save].
  destruct (FAISSMemoryStorage.save R (faiss_store st)) as [i fs'].
  cbn. rewrite <- !app_assoc. reflexivity.
Qed.

Lemma sqlite_get_by_id_delete (memory_id other : string)
    (st : SQLiteMemoryStorage.t) :
  fst (SQLiteMemoryStorage.get_by_id other
         (snd (SQLiteMemoryStorage.delete memory_id st)))
  = if String.eqb memory_id other then None
    else fst (SQLiteMemoryStorage.get_by_id other st).
Proof.
  unfold SQLiteMemoryStorage.get_by_id, SQLiteMemoryStorage.delete.
  cbn [fst snd SQLiteMemoryStorage._initialize_db].
  rewrite select_delete_where_id.
  destruct (String.eqb memory_id other); reflexivity.
Qed.

(** X19.  When the flat-file store holds a record under [memory_id], an
    id that gives a file name, the coordinator's [delete] either returns
    true or raises the [KeyError] of the vector store; in both cases the
    id then reads as absent in the flat-file store and in the relational
    store, and every other id reads as before in the relational store
    and, when it gives a file name, in the flat-file store.  When the maps
    of the vector store are consistent it returns true, and the id reads
    as absent in the vector store as well, the other ids as before. *)
Theorem hybrid_delete_present (memory_id : string) (R : UnifiedMemoryItem)
    (st : t) :
  file_name_id memory_id ->
  JSONMemoryStorage.get_by_id memory_id (json_store st) = Some R ->
  exists r st',
    delete memory_id st = (r, st') /\
    (r = Ok true \/ r = Raise KeyError) /\
    JSONMemoryStorage.get_by_id memory_id (json_store st') = None /\
    fst (SQLiteMemoryStorage.get_by_id memory_id (sqlite_store st')) = None /\
    (forall other : string,
        other <> memory_id ->
        (file_name_id other ->
         JSONMemoryStorage.get_by_id other (json_store st')
         = JSONMemoryStorage.get_by_id other (json_store st)) /\
        fst (SQLiteMemoryStorage.get_by_id other (sqlite_store st'))
        = fst (SQLiteMemoryStorage.get_by_id other (sqlite_store st))) /\
    (faiss_inv (faiss_store st) ->
     r = Ok true /\
     FAISSMemoryStorage.get_by_id memory_id (faiss_store st') = None /\
     forall other : string,
       other <> memory_id ->
       FAISSMemoryStorage.get_by_id other (faiss_store st')
       = FAISSMemoryStorage.get_by_id other (faiss_store st)).
Proof.
  intros _ Hpresent.
  pose proof (json_delete_present _ _ _ Hpresent) as Hj.
  pose proof (sqlite_get_by_id_delete memory_id memory_id (sqlite_store st))
    as Hs.
  rewrite String.eqb_refl in Hs.
  assert (Hso : forall other : string,
             other <> memory_id ->
             fst (SQLiteMemoryStorage.get_by_id other
                    (snd (SQLiteMemoryStorage.delete memory_id
                            (sqlite_store st))))
             = fst (SQLiteMemoryStorage.get_by_id other (sqlite_store st))).
  { intros other Hne. rewrite sqlite_get_by_id_delete.
    destruct (String.eqb_spec memory_id other); [congruence|reflexivity]. }
  assert (Hjo : forall other : string,
             other <> memory_id ->
             JSONMemoryStorage.get_by_id other
               (PyDict.remove (JSONMemoryStorage._memory_file_path memory_id)
                              (json_store st))
             = JSONMemoryStorage.get_by_id other (json_store st)).
  { intros other Hne. rewrite json_get_by_id_remove.
    destruct (string_dec memory_id other); [congruence|reflexivity]. }
  assert (Hjg : JSONMemoryStorage.get_by_id memory_id
                  (PyDict.remove
                     (JSONMemoryStorage._memory_file_path memory_id)
                     (json_store st)) = None).
  { rewrite json_get_by_id_remove.
    destruct (string_dec memory_id memory_id); [reflexivity|congruence]. }
  assert (Hraise : forall e fs,
             FAISSMemoryStorage.delete memory_id (faiss_store st)
             = (Raise e, fs) -> e = KeyError).
  { unfold FAISSMemoryStorage.delete. intros e fs.
    destruct (PyDict.get memory_id _); [|discriminate].
    destruct (PyDict.contains _ _); [discriminate|]. congruence. }
  unfold delete, bind, ret, await_json, await_sqlite, await_faiss.
  rewrite Hj. cbn [json_store sqlite_store faiss_store calls].
  destruct (SQLiteMemoryStorage.delete memory_id (sqlite_store st))
    as [bs ss] eqn:Es.
  cbn [snd] in Hs, Hso. cbn [json_store sqlite_store faiss_store calls].
  destruct (FAISSMemoryStorage.delete memory_id (faiss_store st))
    as [[b|e] fs] eqn:Ef.
  - do 2 eexists. split; [reflexivity|].
    cbn [json_store sqlite_store faiss_store].
    split; [now left|]. split; [exact Hjg|]. split; [exact Hs|].
    split; [intros other Hne;
            split; [intros _; apply Hjo|apply Hso]; exact Hne|].
    intros Hinv.
    destruct (delete_under_inv memory_id (faiss_store st) Hinv)
      as [fs' [Hdel [_ [_ [Hgone Hothers]]]]].
    rewrite Ef in Hdel. injection Hdel as _ <-.
    split; [reflexivity|]. split; [exact Hgone|exact Hothers].
  - do 2 eexists. split; [reflexivity|].
    cbn [json_store sqlite_store faiss_store].
    split; [right; f_equal; apply (Hraise e fs eq_refl)|].
    split; [exact Hjg|]. split; [exact Hs|].
    split; [intros other Hne;
            split; [intros _; apply Hjo|apply Hso]; exact Hne|].
    intros Hinv.
    destruct (delete_under_inv memory_id (faiss_store st) Hinv)
      as [fs' [Hdel _]].
    rewrite Ef in Hdel. discriminate.
Qed.


(** X20.  After the coordinator has saved a record [R] that passes the
    validation of the model class, whose id gives a file name and whose
    access count a column of type [INTEGER] can hold, an [update] of its
    id with fields other than [id], which leaves an access count the
    column can hold, returns true; the flat-file store then holds [R]
    with the updates applied (which [get_by_id] returns when it
    validates), the relational store holds the updates applied to what it
    had read back of [R], and the vector store still holds [R] as it was
    saved, with the same vectors. *)
Theorem hybrid_update_leaves_vector_copy (R : UnifiedMemoryItem)
    (updates : list field_update) (st : t) :
  keeps_id updates ->
  file_name_id (id R) ->
  validates R ->
  sqlite_integer (access_count R) ->
  sqlite_integer
    (access_count
       (apply_updates
          (SQLiteMemoryStorage.item_of (SQLiteMemoryStorage.values_of R))
          updates)) ->
  let st1 := snd (save R st) in
  exists st2,
    update (id R) updates st1 = (Ok true, st2) /\
    (validates (apply_updates R updates) ->
     JSONMemoryStorage.get_by_id (id R) (json_store st2)
     = Some (apply_updates R updates)) /\
    fst (SQLiteMemoryStorage.get_by_id (id R) (sqlite_store st2))
    = Some (SQLiteMemoryStorage.item_of
              (SQLiteMemoryStorage.values_of
                 (apply_updates
                    (SQLiteMemoryStorage.item_of
                       (SQLiteMemoryStorage.values_of R))
                    updates))) /\
    FAISSMemoryStorage.get_by_id (id R) (faiss_store st2) = Some R /\
    faiss_store st2 = faiss_store st1.
Proof.
  intros Hkeep _ Hvalid _ _ st1. subst st1. rewrite hybrid_save_run.
  cbn [snd].
  pose proof (json_get_by_id_save R (json_store st)) as Hj.
  pose proof (sqlite_get_by_id_save R (sqlite_store st)) as Hs.
  pose proof (faiss_get_by_id_save R (faiss_store st)) as Hf.
  unfold update, bind, ret, await_json_raising, await_sqlite.
  cbn [json_store sqlite_store faiss_store calls].
  rewrite json_update_run, Hj. unfold validates in Hvalid. rewrite Hvalid.
  cbn [json_store sqlite_store faiss_store calls].
  rewrite sqlite_update_run, Hs.
  cbn [json_store sqlite_store faiss_store calls].
  eexists. split; [reflexivity|].
  cbn [json_store sqlite_store faiss_store].
  split; [|split; [|split; [exact Hf|reflexivity]]].
  - intros _. rewrite <- (id_apply_updates_keeps updates Hkeep R).
    apply json_get_by_id_save.
  - set (R' := SQLiteMemoryStorage.item_of (SQLiteMemoryStorage.values_of R)).
    assert (Hid : id (apply_updates R' updates) = id R)
      by (rewrite (id_apply_updates_keeps updates Hkeep R'); reflexivity).
    rewrite <- Hid. apply sqlite_get_by_id_save.
Qed.

(** X21.  The coordinator sweeps the flat-file store only.  On a
    directory whose documents all pass the validation of the model class,
    after it has saved a temporary record [R] that passes it too, is more
    than a day old at [now], has an id that gives a file name and an
    access count a column of type [INTEGER] can hold: [cleanup_expired]
    at [now] returns a count and makes [get_by_id] of the coordinator
    miss the id, while the vector store still returns [R] for it and the
    relational store still returns a record with its content. *)
Theorem hybrid_sweep_leaves_other_copies (R : UnifiedMemoryItem)
    (now : datetime) (st : t) :
  directory (json_store st) ->
  valid_documents (json_store st) ->
  file_name_id (id R) ->
  validates R ->
  sqlite_integer (access_count R) ->
  temporary_and_expired now R = true ->
  let st1 := snd (save R st) in
  exists counts st2 st3,
    cleanup_expired false now st1 = (Ok counts, st2) /\
    get_by_id (id R) st2 = (Ok None, st3) /\
    FAISSMemoryStorage.get_by_id (id R) (faiss_store st2) = Some R /\
    exists R',
      fst (SQLiteMemoryStorage.get_by_id (id R) (sqlite_store st2))
      = Some R' /\ id R' = id R /\ content R' = content R.
Proof.
  intros [Hwf _] Hvalid _ HR _ Hold st1. subst st1.
  rewrite hybrid_save_run. cbn [snd].
  pose proof (json_get_by_id_save R (json_store st)) as Hj.
  assert (Hwf1 : PyDict.wf (snd (JSONMemoryStorage.save R (json_store st))))
    by (unfold JSONMemoryStorage.save; cbn [snd]; apply wf_set, Hwf).
  pose proof (valid_documents_save R (json_store st) HR Hvalid) as Hvalid1.
  destruct (json_cleanup_get now _ _ _ Hwf1 Hvalid1 Hj)
    as [counts [js [Hrun Hgone]]].
  rewrite Hold in Hgone.
  unfold cleanup_expired, get_by_id, await_json, await_json_raising.
  cbn [json_store sqlite_store faiss_store calls]. rewrite Hrun.
  do 3 eexists. split; [reflexivity|].
  cbn [json_store sqlite_store faiss_store calls]. rewrite Hgone.
  split; [reflexivity|]. split; [apply faiss_get_by_id_save|].
  eexists. split; [apply sqlite_get_by_id_save|]. split; reflexivity.
Qed.

(** X22.  [batch_save] of the coordinator on records with pairwise
    distinct ids, each giving a file name and each with an access count a
    column of type [INTEGER] can hold, returns their ids in the order of
    the batch, after awaiting [batch_save] on the flat-file store, the
    relational store and the vector store in this order and nothing else;
    afterwards [get_by_id] of the coordinator returns each record of the
    batch that passes the validation of the model class for its id. *)
Theorem hybrid_batch_save_retrievable (items : list UnifiedMemoryItem)
    (st : t) :
  NoDup (map id items) ->
  (forall R, In R items ->
             file_name_id (id R) /\ sqlite_integer (access_count R)) ->
  exists st',
    batch_save items st = (Ok (map id items), st') /\
    calls st' = calls st ++ [call_batch_save json_backend items;
                             call_batch_save sqlite_backend items;
                             call_batch_save faiss_backend items] /\
    forall R, In R items -> validates R ->
              fst (get_by_id (id R) st') = Ok (Some R).
Proof.
  intros Hnd _.
  unfold batch_save, get_by_id, bind, ret, await_json, await_sqlite,
    await_faiss.
  destruct (JSONMemoryStorage.batch_save items (json_store st))
    as [ids js] eqn:Ej.
  destruct (SQLiteMemoryStorage.batch_save items (sqlite_store st))
    as [ids' ss] eqn:Es.
  cbn [json_store sqlite_store faiss_store calls].
  destruct (FAISSMemoryStorage.batch_save items (faiss_store st))
    as [ids'' fs] eqn:Ef.
  eexists. split; [reflexivity|].
  cbn [json_store sqlite_store faiss_store calls fst].
  split; [rewrite <- !app_assoc; reflexivity|].
  intros R Hin _. f_equal.
  unfold JSONMemoryStorage.batch_save in Ej.
  rewrite json_batch_save_fold in Ej. injection Ej as _ <-.
  apply json_save_all_get; assumption.
Qed.

(** X23.  [get_stats] of the coordinator never raises, and in the merged
    dictionary the keys the stores share are those of the vector store:
    [total_items] is the number of records the vector store maps, not
    the number of files or rows, and [storage_type] is [FAISS]; the size
    in bytes is that of the flat files.  The three stores read as before. *)
Theorem hybrid_get_stats_last_store_wins
    (st_size : JSONMemoryStorage.item_dict -> Z) (embedding_dim : Z)
    (st : t) :
  exists stats st',
    get_stats st_size embedding_dim st = (Ok stats, st') /\
    PyDict.get "total_items" stats
    = Some (JInt (Z.of_nat
                    (length (FAISSMemoryStorage.id_to_memory
                               (faiss_store st))))) /\
    PyDict.get "storage_type" stats = Some (JStr "FAISS") /\
    PyDict.get "total_size_bytes" stats
    = PyDict.get "total_size_bytes"
        (JSONMemoryStorage.get_stats st_size (json_store st)) /\
    json_store st' = json_store st /\
    faiss_store st' = faiss_store st /\
    SQLiteMemoryStorage._initialize_db (sqlite_store st')
    = SQLiteMemoryStorage._initialize_db (sqlite_store st) /\
    calls st' = calls st.
Proof.
  unfold get_stats, SQLiteMemoryStorage.get_stats.
  do 2 eexists. split; [reflexivity|].
  cbn [json_store sqlite_store faiss_store calls].
  split; [reflexivity|]. split; [reflexivity|]. split; [reflexivity|].
  split; [reflexivity|]. split; [reflexivity|].
  split; [|reflexivity].
  destruct (sqlite_store st); reflexivity.
Qed.

End CoordinatorSequences.

(** ** The hub: the session cache *)

Lemma length_set {K V} `{EqDec K} (k : K) (v : V) (d : PyDict.t K V) :
  length (PyDict.set k v d)
  = if PyDict.contains k d then length d else Datatypes.S (length d).
Proof.
  unfold PyDict.contains. induction d as [|[k' v'] d IH]; [reflexivity|].
  cbn [PyDict.set PyDict.get].
  destruct (eq_dec k k') as [->|Hne]; [reflexivity|].
  cbn [length]. rewrite IH.
  destruct (PyDict.get k d); reflexivity.
Qed.

Lemma remove_absent {K V} `{EqDec K} (k : K) (d : PyDict.t K V) :
  ~ In k (PyDict.keys d) -> PyDict.remove k d = d.
Proof.
  induction d as [|[k' v'] d IH]; intros Hnotin; [reflexivity|].
  cbn [PyDict.remove]. cbn [PyDict.keys map fst In] in Hnotin.
  destruct (eq_dec k k') as [->|Hne]; [tauto|].
  f_equal. apply IH. unfold PyDict.keys. tauto.
Qed.

Lemma length_remove {K V} `{EqDec K} (k : K) (d : PyDict.t K V) :
  PyDict.wf d ->
  PyDict.contains k d = true ->
  Datatypes.S (length (PyDict.remove k d)) = length d.
Proof.
  unfold PyDict.wf, PyDict.contains.
  induction d as [|[k' v'] d IH]; intros Hwf Hc; [discriminate|].
  inversion Hwf as [|? ? Hnotin Hwf']; subst.
  cbn [PyDict.remove PyDict.get] in *.
  destruct (eq_dec k k') as [->|Hne].
  - rewrite remove_absent by exact Hnotin. reflexivity.
  - cbn [length]. rewrite (IH Hwf' Hc). reflexivity.
Qed.

Section HubSessions.
Context {S : Type} `{IUnifiedMemoryProvider S}.
Import UnifiedMemoryHub.

Lemma save_memory_run (uuid4 : string) (utcnow : datetime)
    (content : string) (memory_type : MemoryType) (tier_source : string)
    (session_id : string) (metadata : option (PyDict.t string json))
    (tags : option (list string)) (hub : t S) :
  let memory_item :=
    UnifiedMemoryItem_init uuid4 utcnow content memory_type tier_source
      (match metadata with Some ((_ :: _) as m) => m | _ => [] end)
      (match tags with Some ((_ :: _) as l) => l | _ => [] end) [] in
  save_memory uuid4 utcnow content memory_type tier_source session_id
              metadata tags hub
  = match save memory_item (storage hub) with
    | (Ok memory_id, s) =>
        (Ok memory_id,
         snd (cache_in_session session_id memory_id
                {| storage := s;
                   session_memories := session_memories hub |}))
    | (Raise e, s) =>
        (Raise e, {| storage := s;
                     session_memories := session_memories hub |})
    end.
Proof.
  cbv zeta. unfold save_memory, bind, ret, await_storage.
  change (UnifiedMemoryItem_init uuid4 utcnow content memory_type tier_source
            (match metadata with Some ((_ :: _) as m) => m | _ => [] end)
            (match tags with Some ((_ :: _) as l) => l | _ => [] end)
            [("session_id", JStr session_id)])
    with (UnifiedMemoryItem_init uuid4 utcnow content memory_type tier_source
            (match metadata with Some ((_ :: _) as m) => m | _ => [] end)
            (match tags with Some ((_ :: _) as l) => l | _ => [] end) []).
  destruct (save _ (storage hub)) as [[memory_id|e] s]; reflexivity.
Qed.

(** X24.  [clear_session_cache] leaves the storage alone, empties the
    cache of the session and keeps the cache of every other session; the
    next memory saved under the session is then alone in its cache. *)
Theorem hub_clear_session_cache (session_id : string) (hub : t S) :
  let hub' := clear_session_cache session_id hub in
  storage hub' = storage hub /\
  get_session_cache session_id hub' = [] /\
  (forall other : string,
      other <> session_id ->
      get_session_cache other hub' = get_session_cache other hub) /\
  (forall uuid4 utcnow content memory_type tier_source metadata tags
          memory_id hub'',
      save_memory uuid4 utcnow content memory_type tier_source session_id
                  metadata tags hub' = (Ok memory_id, hub'') ->
      get_session_cache session_id hub'' = [memory_id]).
Proof.
  intros hub'.
  assert (Hstorage : storage hub' = storage hub).
  { subst hub'. unfold clear_session_cache.
    destruct (PyDict.contains session_id (session_memories hub));
      reflexivity. }
  assert (Hcleared : get_session_cache session_id hub' = []).
  { subst hub'. unfold clear_session_cache, get_session_cache.
    destruct (PyDict.contains session_id (session_memories hub)) eqn:E.
    - cbn [session_memories]. rewrite get_remove_eq. reflexivity.
    - apply contains_false_get in E. rewrite E. reflexivity. }
  split; [exact Hstorage|]. split; [exact Hcleared|]. split.
  - intros other Hne. subst hub'.
    unfold clear_session_cache, get_session_cache.
    destruct (PyDict.contains session_id (session_memories hub));
      [|reflexivity].
    cbn [session_memories]. rewrite get_remove_ne by congruence.
    reflexivity.
  - intros uuid4 utcnow content memory_type tier_source metadata tags
           memory_id hub'' Hrun.
    rewrite save_memory_run in Hrun. cbv zeta in Hrun.
    destruct (save _ (storage hub')) as [[mid|e] s]; [|discriminate].
    destruct (cache_in_session_spec session_id mid
                {| storage := s; session_memories := session_memories hub' |})
      as [hub2 [Hc [_ [Hcache _]]]].
    rewrite Hc in Hrun. cbn [snd] in Hrun. injection Hrun as <- <-.
    rewrite Hcache.
    unfold get_session_cache at 1. cbn [session_memories].
    fold (get_session_cache session_id hub'). rewrite Hcleared. reflexivity.
Qed.

(** X25.  [get_memory], [search_memories], [get_session_memories],
    [update_memory] and [delete_memory] leave the session cache as it
    is.  So the id [save_memory] returned is still in the cache of its
    session after [delete_memory] of that id, whatever the storage
    answered. *)
Theorem hub_cache_outlives_delete (hub : t S) :
  (forall memory_id,
      session_memories (snd (get_memory memory_id hub))
      = session_memories hub) /\
  (forall query_text memory_types tier_sources session_id limit,
      session_memories
        (snd (search_memories query_text memory_types tier_sources
                              session_id limit hub))
      = session_memories hub) /\
  (forall session_id limit,
      session_memories (snd (get_session_memories session_id limit hub))
      = session_memories hub) /\
  (forall memory_id updates,
      session_memories (snd (update_memory memory_id updates hub))
      = session_memories hub) /\
  (forall memory_id,
      session_memories (snd (delete_memory memory_id hub))
      = session_memories hub) /\
  (forall uuid4 utcnow content memory_type tier_source session_id metadata
          tags memory_id hub1,
      save_memory uuid4 utcnow content memory_type tier_source session_id
                  metadata tags hub = (Ok memory_id, hub1) ->
      In memory_id
         (get_session_cache session_id
            (snd (delete_memory memory_id hub1)))).
Proof.
  assert (Hawait : forall A (m : M S A) (h : t S),
             session_memories (snd (await_storage m h))
             = session_memories h).
  { intros A m h. unfold await_storage.
    destruct (m (storage h)) as [a s]. reflexivity. }
  split; [intros; apply Hawait|]. split; [intros; apply Hawait|].
  split; [|split; [intros; apply Hawait|split; [intros; apply Hawait|]]].
  - intros session_id limit. unfold get_session_memories.
    destruct (MemoryQueryFilter_init _ _ _ _ _) as [filter_params|e];
      [|reflexivity].
    unfold bind, ret.
    pose proof (Hawait _ (query filter_params) hub) as Hq.
    destruct (await_storage (query filter_params) hub) as [[res|e] h];
      exact Hq.
  - intros uuid4 utcnow content memory_type tier_source session_id metadata
           tags memory_id hub1 Hrun.
    rewrite save_memory_run in Hrun. cbv zeta in Hrun.
    destruct (save _ (storage hub)) as [[mid|e] s]; [|discriminate].
    destruct (cache_in_session_spec session_id mid
                {| storage := s; session_memories := session_memories hub |})
      as [hub2 [Hc [_ [Hcache _]]]].
    rewrite Hc in Hrun. cbn [snd] in Hrun. injection Hrun as <- <-.
    unfold get_session_cache at 1. unfold delete_memory.
    rewrite Hawait. fold (get_session_cache session_id hub2).
    rewrite Hcache. apply in_or_app. right. now left.
Qed.

(** X26.  [get_statistics] reports the number of sessions that have a
    cache, and nothing of the storage.  A [save_memory] that succeeds
    adds one to it when the session had no cache and leaves it otherwise;
    [clear_session_cache] takes one off when the session had a cache and
    leaves it otherwise. *)
Theorem hub_get_statistics_counts_sessions (hub : t S) :
  PyDict.wf (session_memories hub) ->
  let sessions (h : t S) := Z.of_nat (length (session_memories h)) in
  get_statistics hub = [("sessions", JInt (sessions hub))] /\
  (forall uuid4 utcnow content memory_type tier_source session_id metadata
          tags memory_id hub1,
      save_memory uuid4 utcnow content memory_type tier_source session_id
                  metadata tags hub = (Ok memory_id, hub1) ->
      PyDict.wf (session_memories hub1) /\
      sessions hub1
      = if PyDict.contains session_id (session_memories hub)
        then sessions hub else sessions hub + 1) /\
  (forall session_id,
      PyDict.wf (session_memories (clear_session_cache session_id hub)) /\
      sessions (clear_session_cache session_id hub)
      = if PyDict.contains session_id (session_memories hub)
        then sessions hub - 1 else sessions hub).
Proof.
  intros Hwf sessions. split; [reflexivity|]. split.
  - intros uuid4 utcnow content memory_type tier_source session_id metadata
           tags memory_id hub1 Hrun.
    rewrite save_memory_run in Hrun. cbv zeta in Hrun.
    destruct (save _ (storage hub)) as [[mid|e] s]; [|discriminate].
    injection Hrun as <- <-.
    unfold cache_in_session. cbn [snd session_memories]. subst sessions.
    cbn beta. cbn [session_memories].
    destruct (PyDict.contains session_id (session_memories hub)) eqn:E;
      cbn [negb].
    + split; [apply wf_set, Hwf|]. rewrite length_set, E. reflexivity.
    + split; [apply wf_set, wf_set, Hwf|].
      rewrite length_set.
      assert (Hc : PyDict.contains session_id
                     (PyDict.set session_id [] (session_memories hub))
                   = true)
        by (apply contains_get; eexists; apply get_set_eq).
      rewrite Hc, length_set, E. lia.
  - intros session_id. unfold clear_session_cache. subst sessions.
    cbn beta.
    destruct (PyDict.contains session_id (session_memories hub)) eqn:E.
    + cbn [session_memories]. split; [apply wf_remove, Hwf|].
      pose proof (length_remove session_id _ Hwf E). lia.
    + split; [exact Hwf|reflexivity].
Qed.

End HubSessions.

(** ** The hub over the coordinator *)

Section HubOverCoordinator.
Context `{SqlEngine} `{VectorLib}.
Import UnifiedMemoryHub.

(** X27.  On a hub whose storage is the coordinator, [save_memory] returns
    the id drawn for the new record, and [get_memory] of that id then
    returns a record with that id, the timestamp drawn, the content, type
    and tier source given, the tags and metadata given (none when left
    out), and every other field at its default; the id is added at the
    end of the cache of the session. *)
Theorem hub_over_coordinator_round_trip (uuid4 : string) (utcnow : datetime)
    (text : string) (mtype : MemoryType) (source : string)
    (session_id : string) (meta : option (PyDict.t string json))
    (tgs : option (list string)) (hub : t HybridMemoryStorage.t) :
  exists hub1 hub2 memory_item,
    save_memory uuid4 utcnow text mtype source session_id meta tgs hub
    = (Ok uuid4, hub1) /\
    get_memory uuid4 hub1 = (Ok (Some memory_item), hub2) /\
    memory_item
    = UnifiedMemoryItem_init uuid4 utcnow text mtype source
        (match meta with Some m => m | None => [] end)
        (match tgs with Some l => l | None => [] end) [] /\
    id memory_item = uuid4 /\
    timestamp memory_item = utcnow /\
    content memory_item = text /\
    tags memory_item = match tgs with Some l => l | None => [] end /\
    metadata memory_item = match meta with Some m => m | None => [] end /\
    get_session_cache session_id hub1
    = get_session_cache session_id hub ++ [uuid4].
Proof.
  rewrite save_memory_run. cbv zeta.
  set (memory_item :=
         UnifiedMemoryItem_init uuid4 utcnow text mtype source
           (match meta with Some ((_ :: _) as m) => m | _ => [] end)
           (match tgs with Some ((_ :: _) as l) => l | _ => [] end) []).
  assert (Hitem : memory_item
                  = UnifiedMemoryItem_init uuid4 utcnow text mtype source
                      (match meta with Some m => m | None => [] end)
                      (match tgs with Some l => l | None => [] end) []).
  { subst memory_item. destruct meta as [[|? ?]|], tgs as [[|? ?]|];
      reflexivity. }
  change (save memory_item (storage hub))
    with (HybridMemoryStorage.save memory_item (storage hub)).
  rewrite hybrid_save_run.
  change (id memory_item) with uuid4.
  match goal with
  | |- context [cache_in_session session_id uuid4 ?h] =>
      destruct (cache_in_session_spec session_id uuid4 h)
        as [hub1 [Hc [Hs [Hcache _]]]]
  end.
  rewrite Hc. cbn [snd]. exists hub1.
  unfold get_memory, await_storage. rewrite Hs. cbn [storage].
  change (get_by_id uuid4) with (HybridMemoryStorage.get_by_id uuid4).
  unfold HybridMemoryStorage.get_by_id, HybridMemoryStorage.await_json.
  cbn [HybridMemoryStorage.json_store].
  pose proof (json_get_by_id_save memory_item
                (HybridMemoryStorage.json_store (storage hub))) as Hj.
  change (id memory_item) with uuid4 in Hj. rewrite Hj.
  eexists. exists memory_item.
  split; [reflexivity|]. split; [reflexivity|]. split; [exact Hitem|].
  rewrite Hitem at 1 2 3 4 5.
  split; [reflexivity|]. split; [reflexivity|]. split; [reflexivity|].
  split; [reflexivity|]. split; [reflexivity|].
  exact Hcache.
Qed.

End HubOverCoordinator.

(** ** The vector backend: a batch *)

Section VectorBatch.
Context `{VectorLib}.
Import FAISSMemoryStorage.

Lemma place_new_contains (new_items : list UnifiedMemoryItem) :
  forall (st : t) (i : string),
    PyDict.contains i (memory_id_to_index st) = true \/
    In i (map id new_items) ->
    PyDict.contains i
      (memory_id_to_index (fold_left place_new_item new_items st)) = true.
Proof.
  induction new_items as [|item new_items IH]; intros st i Hi.
  - destruct Hi as [Hi|[]]. exact Hi.
  - cbn [fold_left]. apply IH.
    cbn [place_new_item memory_id_to_index].
    destruct (string_dec (id item) i) as [Heq|Hne].
    + left. apply contains_get. exists (next_index_position st).
      rewrite <- Heq. apply get_set_eq.
    + destruct Hi as [Hi|[Hi|Hi]]; [|contradiction|right; exact Hi].
      left. unfold PyDict.contains in *.
      rewrite get_set_ne by exact Hne. exact Hi.
Qed.

Lemma place_new_keeps (new_items : list UnifiedMemoryItem) :
  forall (st : t) (pos : Z) (r : UnifiedMemoryItem),
    pos < next_index_position st ->
    PyDict.get pos (id_to_memory st) = Some r ->
    PyDict.get pos (id_to_memory (fold_left place_new_item new_items st))
    = Some r.
Proof.
  induction new_items as [|item new_items IH]; intros st pos r Hlt Hget;
    [exact Hget|].
  cbn [fold_left]. apply IH; cbn [place_new_item next_index_position
                                    id_to_memory]; [lia|].
  rewrite get_set_ne by lia. exact Hget.
Qed.

Lemma place_new_values (new_items : list UnifiedMemoryItem) :
  forall (st : t) (r : UnifiedMemoryItem),
    In r (PyDict.values
            (id_to_memory (fold_left place_new_item new_items st))) ->
    In r new_items \/ In r (PyDict.values (id_to_memory st)).
Proof.
  induction new_items as [|item new_items IH]; intros st r Hin;
    [right; exact Hin|].
  cbn [fold_left] in Hin. apply IH in Hin as [Hin|Hin].
  - left. now right.
  - cbn [place_new_item id_to_memory] in Hin.
    apply In_values_set in Hin as [->|Hin]; [left; now left|right; exact Hin].
Qed.

Lemma store_existing_step (st : t) (item : UnifiedMemoryItem) :
  maps_inv (id_to_memory st) (memory_id_to_index st)
           (next_index_position st) ->
  maps_inv (id_to_memory (store_existing_item st item))
           (memory_id_to_index (store_existing_item st item))
           (next_index_position (store_existing_item st item)) /\
  memory_id_to_index (store_existing_item st item) = memory_id_to_index st.
Proof.
  intros Hmaps. unfold store_existing_item.
  destruct (PyDict.get (id item) (memory_id_to_index st))
    as [index_pos|] eqn:E; cbn [id_to_memory memory_id_to_index
                                 next_index_position].
  - split; [apply maps_inv_store; assumption|reflexivity].
  - split; [exact Hmaps|reflexivity].
Qed.

Lemma store_existing_keeps (items : list UnifiedMemoryItem) :
  forall (st : t) (pos : Z) (r : UnifiedMemoryItem),
    maps_inv (id_to_memory st) (memory_id_to_index st)
             (next_index_position st) ->
    PyDict.get pos (id_to_memory st) = Some r ->
    ~ In (id r) (map id items) ->
    PyDict.get pos (id_to_memory (fold_left store_existing_item items st))
    = Some r.
Proof.
  induction items as [|item items IH]; intros st pos r Hmaps Hget Hnotin;
    [exact Hget|].
  cbn [fold_left].
  destruct (store_existing_step st item Hmaps) as [Hmaps1 _].
  apply IH; [exact Hmaps1| |intros Hx; apply Hnotin; right; exact Hx].
  unfold store_existing_item.
  destruct (PyDict.get (id item) (memory_id_to_index st))
    as [index_pos|] eqn:E; [|exact Hget].
  cbn [id_to_memory]. rewrite get_set_ne; [exact Hget|].
  intros ->.
  destruct (id_to_position Hmaps _ _ E) as [r' [Hr' Hid]].
  rewrite Hget in Hr'. injection Hr' as <-.
  apply Hnotin. left. symmetry. exact Hid.
Qed.

Lemma store_existing_values (items : list UnifiedMemoryItem) :
  forall (st : t) (r : UnifiedMemoryItem),
    In r (PyDict.values
            (id_to_memory (fold_left store_existing_item items st))) ->
    In r items \/ In r (PyDict.values (id_to_memory st)).
Proof.
  induction items as [|item items IH]; intros st r Hin;
    [right; exact Hin|].
  cbn [fold_left] in Hin. apply IH in Hin as [Hin|Hin].
  - left. now right.
  - unfold store_existing_item in Hin.
    destruct (PyDict.get (id item) (memory_id_to_index st));
      [|right; exact Hin].
    cbn [id_to_memory] in Hin.
    apply In_values_set in Hin as [->|Hin]; [left; now left|right; exact Hin].
Qed.

Lemma store_existing_all (items : list UnifiedMemoryItem) :
  forall st : t,
    maps_inv (id_to_memory st) (memory_id_to_index st)
             (next_index_position st) ->
    NoDup (map id items) ->
    forall R : UnifiedMemoryItem,
      In R items ->
      PyDict.contains (id R) (memory_id_to_index st) = true ->
      exists pos,
        PyDict.get pos
          (id_to_memory (fold_left store_existing_item items st))
        = Some R.
Proof.
  induction items as [|item items IH]; intros st Hmaps Hnd R Hin Hc;
    [destruct Hin|].
  inversion Hnd as [|? ? Hnotin Hnd']; subst. cbn [fold_left].
  destruct (store_existing_step st item Hmaps) as [Hmaps1 Hidx1].
  destruct Hin as [->|Hin].
  - apply contains_get in Hc as [pos Hpos]. exists pos.
    apply store_existing_keeps; [exact Hmaps1| |exact Hnotin].
    unfold store_existing_item. rewrite Hpos. cbn [id_to_memory].
    apply get_set_eq.
  - apply IH; [exact Hmaps1|exact Hnd'|exact Hin|].
    rewrite Hidx1. exact Hc.
Qed.

(** X28.  On a vector backend whose maps are consistent, [batch_save] of
    records with pairwise distinct ids returns their ids in the order of
    the batch and keeps the maps consistent; afterwards [get_by_id]
    returns each record of the batch for its id, whether the id was new
    or already stored, and an id that is not in the batch reads as
    before. *)
Theorem faiss_batch_save_retrievable (items : list UnifiedMemoryItem)
    (st : t) :
  faiss_inv st ->
  NoDup (map id items) ->
  let st' := snd (batch_save items st) in
  fst (batch_save items st) = map id items /\
  faiss_inv st' /\
  (forall R, In R items -> get_by_id (id R) st' = Some R) /\
  (forall other : string,
      ~ In other (map id items) ->
      get_by_id other st' = get_by_id other st).
Proof.
  intros Hinv Hnd st'.
  assert (Hinv' : faiss_inv st')
    by (apply faiss_inv_batch_save; assumption).
  split; [reflexivity|]. split; [exact Hinv'|].
  pose proof Hinv as [Hmaps [_ Hn]].
  assert (Hnew : forall item,
             In item (new_items_of items st) ->
             PyDict.get (id item) (memory_id_to_index st) = None).
  { intros item Hin. unfold new_items_of in Hin.
    apply filter_In in Hin as [_ Hc]. apply negb_true_iff in Hc.
    apply contains_false_get. exact Hc. }
  assert (Hnd' : NoDup (map id (new_items_of items st)))
    by (apply distinct_keys_filter; exact Hnd).
  assert (Hsub : forall r, In r (new_items_of items st) -> In r items)
    by (intros r Hr; apply filter_In in Hr; tauto).
  assert (Hstored : forall R, In R items ->
             In R (PyDict.values (id_to_memory st'))).
  { intros R Hin. subst st'. unfold batch_save. cbn [snd].
    destruct (map (fun item => _get_embedding (content item))
                  (new_items_of items st)) as [|e es] eqn:Eemb.
    - destruct (store_existing_all items st Hmaps Hnd R Hin) as [pos Hpos].
      + apply map_eq_nil in Eemb.
        destruct (PyDict.contains (id R) (memory_id_to_index st)) eqn:Ec;
          [reflexivity|].
        assert (Hin' : In R (new_items_of items st))
          by (apply filter_In; rewrite Ec; auto).
        rewrite Eemb in Hin'. destruct Hin'.
      + apply (get_In_values _ _ _ Hpos).
    - rewrite <- Eemb.
      set (st1 := {| index := index st ++ _;
                     id_to_memory := id_to_memory st;
                     memory_id_to_index := memory_id_to_index st;
                     next_index_position := next_index_position st |}).
      destruct (place_new_items (new_items_of items st) st1 Hmaps Hnd' Hnew)
        as [Hm1 _].
      destruct (store_existing_all items _ Hm1 Hnd R Hin) as [pos Hpos].
      + apply place_new_contains. cbn [st1 memory_id_to_index].
        destruct (PyDict.contains (id R) (memory_id_to_index st)) eqn:Ec;
          [now left|right].
        apply in_map. apply filter_In. rewrite Ec. auto.
      + apply (get_In_values _ _ _ Hpos). }
  assert (Hkept : forall r,
             In r (PyDict.values (id_to_memory st)) ->
             ~ In (id r) (map id items) ->
             In r (PyDict.values (id_to_memory st'))).
  { intros r Hin Hnotin.
    destruct (In_values_get _ _ Hin (positions_wf Hmaps)) as [pos Hpos].
    pose proof (positions_below Hmaps _ _ Hpos) as Hlt.
    apply (get_In_values pos). subst st'. unfold batch_save. cbn [snd].
    destruct (map (fun item => _get_embedding (content item))
                  (new_items_of items st)) as [|e es] eqn:Eemb.
    - apply store_existing_keeps; assumption.
    - rewrite <- Eemb.
      set (st1 := {| index := index st ++ _;
                     id_to_memory := id_to_memory st;
                     memory_id_to_index := memory_id_to_index st;
                     next_index_position := next_index_position st |}).
      destruct (place_new_items (new_items_of items st) st1 Hmaps Hnd' Hnew)
        as [Hm1 _].
      apply store_existing_keeps; [exact Hm1| |exact Hnotin].
      apply place_new_keeps; assumption. }
  assert (Hfrom : forall r,
             In r (PyDict.values (id_to_memory st')) ->
             In r items \/ In r (PyDict.values (id_to_memory st))).
  { intros r Hin. subst st'. unfold batch_save in Hin. cbn [snd] in Hin.
    destruct (map (fun item => _get_embedding (content item))
                  (new_items_of items st)) as [|e es] eqn:Eemb.
    - apply store_existing_values in Hin. exact Hin.
    - rewrite <- Eemb in Hin.
      apply store_existing_values in Hin as [Hin|Hin]; [now left|].
      apply place_new_values in Hin as [Hin|Hin]; [left; auto|right].
      exact Hin. }
  split.
  - intros R Hin. apply (inv_get_by_id_iff st' (id R) R Hinv'). auto.
  - intros other Hnotin.
    destruct (get_by_id other st) as [r|] eqn:E.
    + apply (inv_get_by_id_iff st other r Hinv) in E as [Hin Hid].
      apply (inv_get_by_id_iff st' other r Hinv'). split; [|exact Hid].
      apply Hkept; [exact Hin|]. rewrite Hid. exact Hnotin.
    + destruct (get_by_id other st') as [r|] eqn:E'; [|reflexivity].
      apply (inv_get_by_id_iff st' other r Hinv') in E' as [Hin Hid].
      apply Hfrom in Hin as [Hin|Hin].
      * exfalso. apply Hnotin. rewrite <- Hid. apply in_map. exact Hin.
      * assert (E2 : get_by_id other st = Some r)
          by (apply (inv_get_by_id_iff st other r Hinv); auto).
        congruence.
Qed.

End VectorBatch.

(** ** The text search of the flat-file and the relational backend *)

Section TextSearch.
Context `{StrLib} `{SqlEngine}.

(** X29.  [semantic_search] of the flat-file backend and of the relational
    backend raise a validation error, leaving the store as it is, when
    the limit is outside 1..1000.  Otherwise they return a result whose
    items and count do not depend on the memory types and tier sources
    asked for: they are those of the same search without these two
    filters, which the result only records in its [query_filter]. *)
Theorem text_search_ignores_type_and_source (query_text : string)
    (mts : option (list MemoryType)) (srcs : option (list string))
    (lim : Z) (js : JSONMemoryStorage.t) (ss : SQLiteMemoryStorage.t) :
  (~ valid_limit lim ->
   JSONMemoryStorage.semantic_search query_text mts srcs lim js
   = Raise ValidationError /\
   SQLiteMemoryStorage.semantic_search query_text mts srcs lim ss
   = (Raise ValidationError, ss)) /\
  (valid_limit lim ->
   exists rj rj0 rs rs0,
     JSONMemoryStorage.semantic_search query_text mts srcs lim js = Ok rj /\
     JSONMemoryStorage.semantic_search query_text None None lim js
     = Ok rj0 /\
     items rj = items rj0 /\ total_count rj = total_count rj0 /\
     memory_types (query_filter rj) = mts /\
     tier_sources (query_filter rj) = srcs /\
     fst (SQLiteMemoryStorage.semantic_search query_text mts srcs lim ss)
     = Ok rs /\
     fst (SQLiteMemoryStorage.semantic_search query_text None None lim ss)
     = Ok rs0 /\
     items rs = items rs0 /\ total_count rs = total_count rs0 /\
     memory_types (query_filter rs) = mts /\
     tier_sources (query_filter rs) = srcs).
Proof.
  unfold JSONMemoryStorage.semantic_search,
    SQLiteMemoryStorage.semantic_search.
  destruct (valid_limit_init (Some query_text) mts srcs lim [])
    as [Hvalid Hinvalid].
  destruct (valid_limit_init (Some query_text) None None lim [])
    as [Hvalid0 _].
  split.
  - intros Hn. rewrite (Hinvalid Hn). split; reflexivity.
  - intros Hv.
    destruct (Hvalid Hv) as [fp [-> [Hterm [Hlim [Hmts [Hsrcs _]]]]]].
    destruct (Hvalid0 Hv) as [fp0 [-> [Hterm0 [Hlim0 _]]]].
    unfold SQLiteMemoryStorage.query, JSONMemoryStorage.query,
      JSONMemoryStorage.matches.
    do 4 eexists.
    split; [reflexivity|]. split; [reflexivity|].
    cbn [items total_count query_filter fst].
    rewrite Hterm, Hterm0, Hlim, Hlim0.
    split; [reflexivity|]. split; [reflexivity|].
    split; [exact Hmts|]. split; [exact Hsrcs|].
    split; [reflexivity|]. split; [reflexivity|].
    split; [reflexivity|]. split; [reflexivity|].
    split; [exact Hmts|exact Hsrcs].
Qed.

End TextSearch.

(** ** The further properties on concrete stores *)

Section MoreInstances.
#[local] Existing Instance Standin.sql_engine.
#[local] Existing Instance Standin.vector_lib.
#[local] Existing Instance Standin.str_lib.

(** A name that is the name of a file; an integer a column holds. *)
Ltac file_name_holds := repeat split; simpl; lia.
Ltac sqlite_integer_holds := split; [discriminate|reflexivity].

Lemma json_save_round_trip_witness :
  file_name_id (id record_x) /\
  validates record_x /\
  JSONMemoryStorage.get_by_id "x"
    (snd (JSONMemoryStorage.save record_x PyDict.empty))
  = Some record_x.
Proof.
  assert (Hname : file_name_id (id record_x)) by file_name_holds.
  assert (Hvalid : validates record_x) by reflexivity.
  destruct (json_save_round_trip record_x PyDict.empty Hname)
    as [_ [Hget _]].
  split; [exact Hname|]. split; [exact Hvalid|exact (Hget Hvalid)].
Defined.

Lemma json_delete_then_get_witness :
  let st := snd (JSONMemoryStorage.save record_x PyDict.empty) in
  file_name_id "x" /\
  (forall item, JSONMemoryStorage.get_by_id "x" st = Some item ->
                validates item) /\
  fst (JSONMemoryStorage.delete "x" st) = true /\
  JSONMemoryStorage.get_by_id "x" (snd (JSONMemoryStorage.delete "x" st))
  = None.
Proof.
  intros st.
  assert (Hname : file_name_id "x") by file_name_holds.
  assert (Hvalid : forall item,
             JSONMemoryStorage.get_by_id "x" st = Some item ->
             validates item)
    by (intros item Hitem; injection Hitem as <-; reflexivity).
  destruct (json_delete_then_get "x" st Hname Hvalid)
    as [Hdeleted [Hgone _]].
  split; [exact Hname|]. split; [exact Hvalid|].
  split; [|exact Hgone].
  apply Hdeleted. exists record_x. reflexivity.
Defined.

Lemma json_update_semantics_witness :
  let st := snd (JSONMemoryStorage.save record_x PyDict.empty) in
  let st' := snd (JSONMemoryStorage.update "x" [U_confidence float_2] st) in
  file_name_id "x" /\
  fst (JSONMemoryStorage.update "x" [U_confidence float_2] st) = Ok true /\
  forall again : list field_update,
    JSONMemoryStorage.update "x" again st' = (Raise ValidationError, st').
Proof.
  intros st st'.
  assert (Hname : file_name_id "x") by file_name_holds.
  pose proof (json_update_semantics "x" [U_confidence float_2] st Hname)
    as Hrun.
  hnf in Hrun. destruct (Hrun Hname) as [Hok [_ [Hagain _]]].
  split; [exact Hname|]. split; [exact Hok|].
  apply Hagain. intros Hvalid. discriminate Hvalid.
Defined.


Lemma json_batch_save_retrievable_witness :
  NoDup (map id [record_x; record_y]) /\
  JSONMemoryStorage.get_by_id "y"
    (snd (JSONMemoryStorage.batch_save [record_x; record_y] PyDict.empty))
  = Some record_y.
Proof.
  assert (Hnd : NoDup (map id [record_x; record_y])).
  { simpl. constructor; [simpl; intros [Heq|[]]; discriminate|].
    constructor; [simpl; tauto|constructor]. }
  assert (Hnames : forall R, In R [record_x; record_y] ->
                              file_name_id (id R))
    by (intros R [<-|[<-|[]]]; file_name_holds).
  destruct (json_batch_save_retrievable [record_x; record_y] PyDict.empty
              Hnd Hnames) as [_ [Hget _]].
  split; [exact Hnd|]. apply (Hget record_y); [simpl; auto|reflexivity].
Defined.

Lemma json_query_counts_witness :
  let st := snd (JSONMemoryStorage.batch_save [record_x; record_y]
                                              PyDict.empty) in
  let res := JSONMemoryStorage.query (filter_for (Some "HELLO") 1) st in
  valid_limit (limit (filter_for (Some "HELLO") 1)) /\
  directory st /\
  valid_documents st /\
  Z.of_nat (length (items res)) = Z.min 1 (total_count res) /\
  total_count res = 1 /\
  forall r, In r (items res) ->
            str_in (str_lower "HELLO") (str_lower (content r)) = true.
Proof.
  intros st res.
  assert (Hv : valid_limit (limit (filter_for (Some "HELLO") 1)))
    by (unfold valid_limit; simpl; lia).
  assert (Hdir : directory st).
  { split.
    - unfold PyDict.wf. simpl.
      constructor; [simpl; intros [Heq|[]]; discriminate|].
      constructor; [simpl; tauto|constructor].
    - simpl. intros name [<-|[<-|[]]]; file_name_holds. }
  assert (Hvalid : valid_documents st).
  { intros f Hf. simpl in Hf. destruct Hf as [<-|[<-|[]]]; reflexivity. }
  destruct (json_query_counts (filter_for (Some "HELLO") 1) st Hv Hdir Hvalid)
    as [Hcount [_ [Hterm _]]].
  destruct (Hterm "H"%char "ELLO"%string eq_refl) as [Htotal Hitems].
  split; [exact Hv|]. split; [exact Hdir|]. split; [exact Hvalid|].
  split; [exact Hcount|]. split; [exact Htotal|exact Hitems].
Defined.

Lemma sqlite_primary_key_kept_witness :
  table_wf None /\
  table_wf (snd (SQLiteMemoryStorage.save record_x None)) /\
  table_wf (snd (SQLiteMemoryStorage.delete "x" None)).
Proof.
  destruct (sqlite_primary_key_kept None table_wf_fresh)
    as [Hsave [_ [Hdelete _]]].
  split; [exact table_wf_fresh|]. split; [apply Hsave|apply Hdelete].
Defined.

Lemma sqlite_round_trip_exact_witness :
  sqlite_integer (access_count record_x) /\
  exists R',
    fst (SQLiteMemoryStorage.get_by_id
           "x" (snd (SQLiteMemoryStorage.save record_x None))) = Some R' /\
    content R' = content record_x.
Proof.
  assert (Hint : sqlite_integer (access_count record_x))
    by sqlite_integer_holds.
  destruct (sqlite_round_trip_exact record_x None Hint)
    as [R' [Hget [[_ [Hcontent _]] _]]].
  split; [exact Hint|]. exists R'. split; [exact Hget|exact Hcontent].
Defined.

Lemma sqlite_query_counts_witness :
  let st := snd (SQLiteMemoryStorage.batch_save [record_x; record_y] None) in
  let res := fst (SQLiteMemoryStorage.query (filter_for None 1) st) in
  valid_limit (limit (filter_for None 1)) /\
  Z.of_nat (length (items res)) = Z.min 1 (total_count res) /\
  total_count res
  = Z.of_nat (length (SQLiteMemoryStorage._initialize_db st)).
Proof.
  intros st res.
  assert (Hv : valid_limit (limit (filter_for None 1)))
    by (unfold valid_limit; simpl; lia).
  destruct (sqlite_query_counts (filter_for None 1) st Hv)
    as [_ [Hcount [_ [_ Hall]]]].
  split; [exact Hv|]. split; [exact Hcount|].
  apply Hall. left. reflexivity.
Defined.

Lemma sqlite_cleanup_expired_by_age_only_witness :
  table_wf None /\
  older_than_a_day 86402000000 (timestamp record_x) = true /\
  fst (SQLiteMemoryStorage.get_by_id "x"
         (snd (SQLiteMemoryStorage.cleanup_expired false 86402000000
                 (snd (SQLiteMemoryStorage.save record_x None))))) = None.
Proof.
  destruct (sqlite_cleanup_expired_by_age_only 86402000000 None table_wf_fresh)
    as [_ [_ Hgone]].
  split; [exact table_wf_fresh|]. split; [reflexivity|].
  apply (Hgone record_x). reflexivity.
Defined.

Lemma faiss_rebuild_index_compacts_witness :
  let st := snd (FAISSMemoryStorage.delete "x"
                   (snd (FAISSMemoryStorage.save record_y
                           (snd (FAISSMemoryStorage.save record_x
                                   FAISSMemoryStorage._create_new_index))))) in
  faiss_inv st /\
  FAISSMemoryStorage.ntotal (FAISSMemoryStorage.rebuild_index st)
  = Z.of_nat (length (PyDict.values (FAISSMemoryStorage.id_to_memory st))) /\
  forall memory_id,
    FAISSMemoryStorage.get_by_id memory_id
      (FAISSMemoryStorage.rebuild_index st)
    = FAISSMemoryStorage.get_by_id memory_id st.
Proof.
  intros st.
  assert (Hinv : faiss_inv st)
    by apply faiss_inv_delete, faiss_inv_save, faiss_inv_save,
       faiss_inv_create.
  destruct (faiss_rebuild_index_compacts st Hinv) as [_ [Hn [_ Hsame]]].
  split; [exact Hinv|]. split; [exact Hn|exact Hsame].
Defined.

Lemma faiss_delete_under_inv_witness :
  let st := snd (FAISSMemoryStorage.save
                   record_x FAISSMemoryStorage._create_new_index) in
  faiss_inv st /\
  exists st',
    FAISSMemoryStorage.delete "x" st = (Ok true, st') /\
    FAISSMemoryStorage.get_by_id "x" st' = None.
Proof.
  intros st.
  assert (Hinv : faiss_inv st) by apply faiss_inv_save, faiss_inv_create.
  destruct (faiss_delete_under_inv "x" st Hinv)
    as [st' [Hrun [_ [_ [Hgone _]]]]].
  split; [exact Hinv|]. exists st'. split; [exact Hrun|exact Hgone].
Defined.

Lemma faiss_update_under_inv_witness :
  let st := snd (FAISSMemoryStorage.save
                   record_x FAISSMemoryStorage._create_new_index) in
  faiss_inv st /\
  keeps_id [U_content "hi"] /\
  exists st',
    FAISSMemoryStorage.update "x" [U_content "hi"] st = (Ok true, st') /\
    FAISSMemoryStorage.index st' = FAISSMemoryStorage.index st.
Proof.
  intros st.
  assert (Hinv : faiss_inv st) by apply faiss_inv_save, faiss_inv_create.
  assert (Hkeep : keeps_id [U_content "hi"])
    by (intros v [Heq|[]]; discriminate).
  destruct (faiss_update_under_inv "x" [U_content "hi"] st Hinv Hkeep)
    as [st' [Hrun [_ [Hindex _]]]].
  split; [exact Hinv|]. split; [exact Hkeep|].
  exists st'. split; [exact Hrun|exact Hindex].
Defined.

Lemma faiss_query_results_pass_filters_witness :
  let st := snd (FAISSMemoryStorage.save
                   record_x FAISSMemoryStorage._create_new_index) in
  let res := FAISSMemoryStorage.query (filter_for (Some "hello") 1) st in
  valid_limit (limit (filter_for (Some "hello") 1)) /\
  total_count res = Z.of_nat (length (items res)) /\
  Z.of_nat (length (items res)) <= 1.
Proof.
  intros st res.
  assert (Hv : valid_limit (limit (filter_for (Some "hello") 1)))
    by (unfold valid_limit; simpl; lia).
  destruct (faiss_query_results_pass_filters
              (filter_for (Some "hello") 1) st Hv) as [Hcount [Hmax _]].
  split; [exact Hv|]. split; [exact Hcount|exact Hmax].
Defined.

Lemma faiss_cleanup_expired_by_age_only_witness :
  let st := snd (FAISSMemoryStorage.save
                   record_x FAISSMemoryStorage._create_new_index) in
  faiss_inv st /\
  exists st',
    FAISSMemoryStorage.cleanup_expired false 86402000000 st
    = (Ok [("expired_count", 1)], st') /\
    FAISSMemoryStorage.index st' = FAISSMemoryStorage.index st.
Proof.
  intros st.
  assert (Hinv : faiss_inv st) by apply faiss_inv_save, faiss_inv_create.
  destruct (faiss_cleanup_expired_by_age_only false 86402000000 st Hinv)
    as [st' [Hrun [_ [Hindex _]]]].
  split; [exact Hinv|]. exists st'. split; [exact Hrun|exact Hindex].
Defined.

Lemma faiss_batch_save_retrievable_witness :
  NoDup (map id [record_x; record_y]) /\
  faiss_inv FAISSMemoryStorage._create_new_index /\
  FAISSMemoryStorage.get_by_id "y"
    (snd (FAISSMemoryStorage.batch_save
            [record_x; record_y] FAISSMemoryStorage._create_new_index))
  = Some record_y.
Proof.
  assert (Hnd : NoDup (map id [record_x; record_y])).
  { simpl. constructor; [simpl; intros [Heq|[]]; discriminate|].
    constructor; [simpl; tauto|constructor]. }
  destruct (faiss_batch_save_retrievable
              [record_x; record_y] FAISSMemoryStorage._create_new_index
              faiss_inv_create Hnd) as [_ [_ [Hget _]]].
  split; [exact Hnd|]. split; [exact faiss_inv_create|].
  apply (Hget record_y). simpl. auto.
Defined.

Lemma hybrid_delete_present_witness :
  let st := snd (HybridMemoryStorage.save record_x HybridMemoryStorage.init) in
  file_name_id "x" /\
  JSONMemoryStorage.get_by_id "x" (HybridMemoryStorage.json_store st)
  = Some record_x /\
  exists r st',
    HybridMemoryStorage.delete "x" st = (r, st') /\
    JSONMemoryStorage.get_by_id "x" (HybridMemoryStorage.json_store st')
    = None /\
    fst (SQLiteMemoryStorage.get_by_id
           "x" (HybridMemoryStorage.sqlite_store st')) = None.
Proof.
  intros st.
  assert (Hpresent :
            JSONMemoryStorage.get_by_id "x" (HybridMemoryStorage.json_store st)
            = Some record_x) by reflexivity.
  assert (Hname : file_name_id "x") by file_name_holds.
  destruct (hybrid_delete_present "x" record_x st Hname Hpresent)
    as [r [st' [Hrun [_ [Hj [Hs _]]]]]].
  split; [exact Hname|]. split; [exact Hpresent|]. exists r, st'.
  split; [exact Hrun|]. split; [exact Hj|exact Hs].
Defined.

Lemma hybrid_update_leaves_vector_copy_witness :
  keeps_id [U_content "hi"] /\
  file_name_id (id record_x) /\
  validates record_x /\
  sqlite_integer (access_count record_x) /\
  exists st2,
    HybridMemoryStorage.update "x" [U_content "hi"]
      (snd (HybridMemoryStorage.save record_x HybridMemoryStorage.init))
    = (Ok true, st2) /\
    FAISSMemoryStorage.get_by_id "x" (HybridMemoryStorage.faiss_store st2)
    = Some record_x.
Proof.
  assert (Hkeep : keeps_id [U_content "hi"])
    by (intros v [Heq|[]]; discriminate).
  assert (Hname : file_name_id (id record_x)) by file_name_holds.
  assert (Hvalid : validates record_x) by reflexivity.
  assert (Hint : sqlite_integer (access_count record_x))
    by sqlite_integer_holds.
  destruct (hybrid_update_leaves_vector_copy
              record_x [U_content "hi"] HybridMemoryStorage.init Hkeep
              Hname Hvalid Hint Hint)
    as [st2 [Hrun [_ [_ [Hf _]]]]].
  split; [exact Hkeep|]. split; [exact Hname|]. split; [exact Hvalid|].
  split; [exact Hint|]. exists st2. split; [exact Hrun|exact Hf].
Defined.

Lemma hybrid_sweep_leaves_other_copies_witness :
  directory (HybridMemoryStorage.json_store HybridMemoryStorage.init) /\
  valid_documents (HybridMemoryStorage.json_store HybridMemoryStorage.init) /\
  file_name_id (id (record_tmp "old" 0)) /\
  validates (record_tmp "old" 0) /\
  sqlite_integer (access_count (record_tmp "old" 0)) /\
  temporary_and_expired 86402000000 (record_tmp "old" 0) = true /\
  exists counts st2 st3,
    HybridMemoryStorage.cleanup_expired false 86402000000
      (snd (HybridMemoryStorage.save (record_tmp "old" 0)
                                     HybridMemoryStorage.init))
    = (Ok counts, st2) /\
    HybridMemoryStorage.get_by_id "old" st2 = (Ok None, st3) /\
    FAISSMemoryStorage.get_by_id "old" (HybridMemoryStorage.faiss_store st2)
    = Some (record_tmp "old" 0).
Proof.
  assert (Hdir : directory (HybridMemoryStorage.json_store
                              HybridMemoryStorage.init))
    by (split; [constructor|intros name []]).
  assert (Hdocs : valid_documents (HybridMemoryStorage.json_store
                                     HybridMemoryStorage.init))
    by (intros f []).
  assert (Hname : file_name_id (id (record_tmp "old" 0)))
    by file_name_holds.
  assert (Hvalid : validates (record_tmp "old" 0)) by reflexivity.
  assert (Hint : sqlite_integer (access_count (record_tmp "old" 0)))
    by sqlite_integer_holds.
  assert (Hold : temporary_and_expired 86402000000 (record_tmp "old" 0)
                 = true) by reflexivity.
  destruct (hybrid_sweep_leaves_other_copies
              (record_tmp "old" 0) 86402000000 HybridMemoryStorage.init
              Hdir Hdocs Hname Hvalid Hint Hold)
    as [counts [st2 [st3 [Hrun [Hget [Hf _]]]]]].
  split; [exact Hdir|]. split; [exact Hdocs|]. split; [exact Hname|].
  split; [exact Hvalid|]. split; [exact Hint|]. split; [exact Hold|].
  exists counts, st2, st3. split; [exact Hrun|]. split; [exact Hget|exact Hf].
Defined.

Lemma hybrid_batch_save_retrievable_witness :
  NoDup (map id [record_x; record_y]) /\
  exists st',
    HybridMemoryStorage.batch_save [record_x; record_y]
                                   HybridMemoryStorage.init
    = (Ok ["x"; "y"], st') /\
    fst (HybridMemoryStorage.get_by_id "y" st') = Ok (Some record_y).
Proof.
  assert (Hnd : NoDup (map id [record_x; record_y])).
  { simpl. constructor; [simpl; intros [Heq|[]]; discriminate|].
    constructor; [simpl; tauto|constructor]. }
  assert (Hok : forall R, In R [record_x; record_y] ->
                           file_name_id (id R) /\
                           sqlite_integer (access_count R))
    by (intros R [<-|[<-|[]]];
        (split; [file_name_holds|sqlite_integer_holds])).
  destruct (hybrid_batch_save_retrievable
              [record_x; record_y] HybridMemoryStorage.init Hnd Hok)
    as [st' [Hrun [_ Hget]]].
  split; [exact Hnd|]. exists st'. split; [exact Hrun|].
  apply (Hget record_y); [simpl; auto|reflexivity].
Defined.


(** C3.  A deleted id is returned again.  On a fresh vector backend,
    [batch_save] of two records that share the new id ["x"] gives each a
    position and maps the id to the second; [delete("x")] then returns
    true and removes the record at that position only, so [get_by_id]
    finds nothing, while [semantic_search], with a query text and
    without, and [query] still return the first record, whose id is the
    deleted one. *)
Theorem faiss_deleted_id_returned_after_repeated_id :
  let st := snd (FAISSMemoryStorage.batch_save
                   [record_x; setattr record_x (U_content "second")]
                   FAISSMemoryStorage._create_new_index) in
  let st' := snd (FAISSMemoryStorage.delete "x" st) in
  map id [record_x; setattr record_x (U_content "second")] = ["x"; "x"] /\
  FAISSMemoryStorage.delete "x" st = (Ok true, st') /\
  FAISSMemoryStorage.get_by_id "x" st' = None /\
  (exists res,
      FAISSMemoryStorage.semantic_search "hello" None None 10 st' = Ok res /\
      map id (items res) = ["x"] /\
      map content (items res) = ["hello world"]) /\
  (exists res,
      FAISSMemoryStorage.semantic_search "" None None 10 st' = Ok res /\
      items res = [record_x]) /\
  items (FAISSMemoryStorage.query (filter_for None 10) st') = [record_x].
Proof.
  cbv zeta. split; [reflexivity|]. split; [reflexivity|].
  split; [reflexivity|]. split; [|split; [|reflexivity]].
  - eexists. split; [reflexivity|]. split; reflexivity.
  - eexists. split; reflexivity.
Qed.


Lemma hub_get_statistics_counts_sessions_witness :
  let hub := UnifiedMemoryHub.init HybridMemoryStorage.init in
  PyDict.wf (UnifiedMemoryHub.session_memories hub) /\
  UnifiedMemoryHub.get_statistics hub = [("sessions", JInt 0)] /\
  Z.of_nat (length (UnifiedMemoryHub.session_memories
                      (UnifiedMemoryHub.clear_session_cache "s1" hub))) = 0.
Proof.
  intros hub.
  assert (Hwf : PyDict.wf (UnifiedMemoryHub.session_memories hub))
    by constructor.
  destruct (hub_get_statistics_counts_sessions hub Hwf)
    as [Hstats [_ Hclear]].
  split; [exact Hwf|]. split; [exact Hstats|].
  apply (Hclear "s1").
Defined.

End MoreInstances.
